(** * browser-chat: record store, generation gateway and chat session

  A shallow embedding of [src/storage-manager.js], [src/model-manager.js]
  and the chat custom element, with the properties of the design
  specification stated and settled against it.

  JavaScript is single threaded: a handler runs to completion, and other
  handlers interleave only where the running one awaits.  Synchronous
  functions are embedded as functions on an explicit state; asynchronous
  ones are cut at their awaits, and each settled await is an event of a
  small-step machine ([Chat.step]).  Everything the browser decides
  (IndexedDB request outcomes, the pipelines' answers, the clock, the
  user's keys) is an explicit input. *)

From Stdlib Require Import ZArith Bool Ascii Lia.
From Stdlib Require String.
From stdpp Require Import base strings pretty list sorting gmap.

Local Open Scope Z_scope.

(** ** JavaScript values *)

Module Js.

(** The values a record field can hold.  A string is a sequence of code
    units, here the Latin-1 range ([ascii]); a number is an integer (ids,
    lengths and millisecond clocks are) or [NaN]; a [Float32Array] is
    represented by its length, the only thing this code reads of it; a
    [Date] by its [getTime()], [None] for an invalid date. *)
Inductive value :=
| Undefined
| Null
| Bool (b : bool)
| NaN
| Num (z : Z)
| Str (s : string)
| DateObj (t : option Z)
| Float32Array (len : nat)
| Obj.

Inductive type := TUndefined | TObject | TBoolean | TNumber | TString.

Definition typeof (v : value) : type :=
  match v with
  | Undefined => TUndefined
  | Bool _ => TBoolean
  | NaN | Num _ => TNumber
  | Str _ => TString
  | Null | DateObj _ | Float32Array _ | Obj => TObject
  end.

Definition is_number (v : value) : bool :=
  match typeof v with TNumber => true | _ => false end.

Definition is_string (v : value) : bool :=
  match typeof v with TString => true | _ => false end.

(** [ToBoolean]: what [!v] and [if (v)] test. *)
Definition truthy (v : value) : bool :=
  match v with
  | Undefined | Null | NaN => false
  | Bool b => b
  | Num z => negb (z =? 0)
  | Str s => negb (String.eqb s "")
  | DateObj _ | Float32Array _ | Obj => true
  end.

Definition instanceof_Float32Array (v : value) : bool :=
  match v with Float32Array _ => true | _ => false end.

Definition instanceof_Date (v : value) : bool :=
  match v with DateObj _ => true | _ => false end.

(** The string behind a value already known to be a string. *)
Definition str_of (v : value) : string :=
  match v with Str s => s | _ => "" end.

(** [WhiteSpace] and [LineTerminator] code units below U+0100: TAB, LF, VT,
    FF, CR, SP and NBSP. *)
Definition isWhiteSpace (c : ascii) : bool :=
  match c with
  | "009" | "010" | "011" | "012" | "013" | " " | "160" => true
  | _ => false
  end%char.

Fixpoint trimStart (s : string) : string :=
  match s with
  | String c r => if isWhiteSpace c then trimStart r else s
  | EmptyString => EmptyString
  end.

Definition trimEnd (s : string) : string :=
  String.rev (trimStart (String.rev s)).

(** [String.prototype.trim] *)
Definition trim (s : string) : string := trimEnd (trimStart s).

(** [s.length] *)
Definition str_length (s : string) : Z := Z.of_nat (String.length s).

(** [s.substring(n)] for [0 <= n] *)
Fixpoint substring_from (n : nat) (s : string) : string :=
  match n, s with
  | S k, String _ r => substring_from k r
  | _, _ => s
  end.

(** [s.includes(sub)] *)
Fixpoint includes (sub s : string) : bool :=
  String.prefix sub s ||
  match s with
  | String _ r => includes sub r
  | EmptyString => false
  end.

(** [s.split(' ')]: never empty, an empty string gives one empty word. *)
Fixpoint split_go (cur : string) (s : string) : list string :=
  match s with
  | EmptyString => [String.rev cur]
  | String c r =>
      if Ascii.eqb c " " then String.rev cur :: split_go "" r
      else split_go (String c cur) r
  end.

Definition split_space (s : string) : list string := split_go "" s.

(** An [Error] object: [name] is ["Error"] unless reassigned. *)
Record Error := { name : string; message : string }.

Definition new_Error (msg : string) : Error :=
  {| name := "Error"; message := msg |}.

(** How a call ends: it returns (a promise fulfils) or it throws (the
    promise rejects). *)
Inductive completion (A : Type) :=
| Return (a : A)
| Throw (e : Error).
Arguments Return {A} a.
Arguments Throw {A} e.

End Js.

(** ** storage-manager.js *)

Module Storage.
Import Js.

Record ConversationPair := {
  id : value;
  prompt : value;
  response : value;
  embedding : value;
  modelVersion : value;
  timestamp : value
}.

(** [validateConversationPair]: [Throw] is the thrown [Error]; [now] is what
    [Date.now()] answers in the last check. *)
Definition validateConversationPair (now : Z) (c : ConversationPair)
  : completion unit :=
  if negb (truthy (id c)) || negb (is_number (id c)) then
    Throw (new_Error "ConversationPair must have numeric id (timestamp)")
  else if negb (truthy (prompt c)) || negb (is_string (prompt c)) then
    Throw (new_Error "ConversationPair must have prompt string")
  else if negb (truthy (response c)) || negb (is_string (response c)) then
    Throw (new_Error "ConversationPair must have response string")
  else
    let promptLength := str_length (trim (str_of (prompt c))) in
    if (promptLength <? 1) || (10000 <? promptLength) then
      Throw (new_Error ("Prompt length must be 1-10000 characters, got "
                        +:+ pretty promptLength))
    else
      let responseLength := str_length (trim (str_of (response c))) in
      if (responseLength <? 1) || (100000 <? responseLength) then
        Throw (new_Error ("Response length must be 1-100000 characters, got "
                          +:+ pretty responseLength))
      else if truthy (embedding c)
              && negb (instanceof_Float32Array (embedding c)) then
        Throw (new_Error "Embedding must be Float32Array")
      else if truthy (embedding c)
              && negb (match embedding c with
                       | Float32Array len => Nat.eqb len 384
                       | _ => false
                       end) then
        Throw (new_Error ("Embedding must have 384 dimensions, got "
                          +:+ match embedding c with
                              | Float32Array len => pretty len
                              | _ => "undefined"
                              end))
      else if negb (truthy (modelVersion c))
              || negb (is_string (modelVersion c)) then
        Throw (new_Error "ConversationPair must have modelVersion string")
      else if negb (instanceof_Date (timestamp c)) then
        Throw (new_Error "ConversationPair must have timestamp as Date object")
      else if match timestamp c with
              | DateObj (Some t) => now <? t
              | _ => false
              end then
        Throw (new_Error "Timestamp cannot be in the future")
      else Return tt.

(** *** The IndexedDB object store

    The [conversations] store has key path [id]; validated records have a
    non-zero integer id, so the store is a finite map from [Z].  What the
    browser decides about a request is an input: [IdbEnv] names the
    [DOMException] with which opening the database or a request fails, if
    it does.  A failed request writes nothing. *)

Record DOMException := { dom_name : string; dom_message : string }.

Definition dom_toString (e : DOMException) : string :=
  dom_name e +:+ ": " +:+ dom_message e.

Record IdbEnv := {
  openError : option DOMException;
  addError : option DOMException;
  countError : option DOMException;
  clearError : option DOMException
}.

Definition idb_ok : IdbEnv :=
  {| openError := None; addError := None;
     countError := None; clearError := None |}.

Definition quota_exceeded : IdbEnv :=
  {| openError := None;
     addError := Some {| dom_name := "QuotaExceededError";
                         dom_message := "The quota has been exceeded." |};
     countError := None; clearError := None |}.

Abbreviation Database := (gmap Z ConversationPair).

(** [initDatabase]: the promise rejects when the open request errors. *)
Definition initDatabase (env : IdbEnv) : completion unit :=
  match openError env with
  | Some e => Throw (new_Error ("Failed to open IndexedDB: " +:+ dom_toString e))
  | None => Return tt
  end.

(** [objectStore.add(record)]: the request's error, if any, and the store
    afterwards.  An existing key is a [ConstraintError]. *)
Definition objectStore_add (env : IdbEnv) (db : Database) (key : Z)
    (c : ConversationPair) : Database * option DOMException :=
  match addError env with
  | Some e => (db, Some e)
  | None =>
      match db !! key with
      | Some _ =>
          (db, Some {| dom_name := "ConstraintError";
                       dom_message := "Key already exists in the object store." |})
      | None => (<[key := c]> db, None)
      end
  end.

Record SaveResult := { success : bool; error : option Error }.

Definition quotaError : Error :=
  {| name := "QuotaExceededError";
     message := "Storage quota exceeded. Clear history to continue saving conversations." |}.

(** [saveConversation]: the store afterwards and what the returned promise
    settles to.  The [try] covers validation and the awaited
    [initDatabase]; the request handlers all resolve.  A key that IndexedDB
    refuses makes [add] throw inside the promise executor, which rejects the
    returned promise. *)
Definition saveConversation (env : IdbEnv) (now : Z) (db : Database)
    (c : ConversationPair) : Database * completion SaveResult :=
  match validateConversationPair now c with
  | Throw e => (db, Return {| success := false; error := Some e |})
  | Return _ =>
      match initDatabase env with
      | Throw e => (db, Return {| success := false; error := Some e |})
      | Return _ =>
          match id c with
          | Num key =>
              match objectStore_add env db key c with
              | (db', None) => (db', Return {| success := true; error := None |})
              | (db', Some e) =>
                  if String.eqb (dom_name e) "QuotaExceededError" then
                    (db', Return {| success := false; error := Some quotaError |})
                  else
                    (db', Return {| success := false;
                                    error := Some (new_Error
                                      ("Failed to save conversation: "
                                       +:+ dom_toString e)) |})
              end
          | _ => (db, Throw {| name := "DataError";
                               message := "The data provided does not meet requirements." |})
          end
      end
  end.

(** [clearHistory]: counts, then clears.  Only the awaited [initDatabase]
    is inside the [try]; a failing request rejects the returned promise
    with its own message. *)
Definition clearHistory (env : IdbEnv) (db : Database)
  : Database * completion nat :=
  match initDatabase env with
  | Throw e => (db, Throw (new_Error ("Failed to clear history: " +:+ message e)))
  | Return _ =>
      match countError env with
      | Some e => (db, Throw (new_Error ("Failed to count records: " +:+ dom_toString e)))
      | None =>
          let count := size db in
          match clearError env with
          | Some e => (db, Throw (new_Error ("Failed to clear history: " +:+ dom_toString e)))
          | None => (∅, Return count)
          end
      end
  end.

(** [getConversationCount] *)
Definition getConversationCount (env : IdbEnv) (db : Database)
  : completion nat :=
  match initDatabase env with
  | Throw e => Throw (new_Error ("Failed to get conversation count: " +:+ message e))
  | Return _ =>
      match countError env with
      | Some e => Throw (new_Error ("Failed to count conversations: " +:+ dom_toString e))
      | None => Return (size db)
      end
  end.

End Storage.

(** ** model-manager.js *)

Module ModelManager.
Import Js.

(** [temperature] and [maxTokens] only travel to the text-generation
    pipeline, whose answer is an input of this model. *)
Record Config := {
  systemPrompt : string;
  maxTokens : Z;
  inferenceTimeout : Z
}.

(** The manager's fields.  A pipeline is an opaque object: only whether it
    is set is recorded.  [abortController] is [None] for [null]; otherwise
    it carries the [aborted] flag of the controller's signal, the object
    the running generator holds as [signal]. *)
Record t := {
  llmPipeline : bool;
  embeddingPipeline : bool;
  isLlmLoaded : bool;
  isEmbeddingLoaded : bool;
  queuedPrompts : list string;
  abortController : option bool;
  config : Config
}.

Definition set_queuedPrompts (q : list string) (m : t) : t :=
  {| llmPipeline := llmPipeline m; embeddingPipeline := embeddingPipeline m;
     isLlmLoaded := isLlmLoaded m; isEmbeddingLoaded := isEmbeddingLoaded m;
     queuedPrompts := q; abortController := abortController m;
     config := config m |}.

Definition set_abortController (a : option bool) (m : t) : t :=
  {| llmPipeline := llmPipeline m; embeddingPipeline := embeddingPipeline m;
     isLlmLoaded := isLlmLoaded m; isEmbeddingLoaded := isEmbeddingLoaded m;
     queuedPrompts := queuedPrompts m; abortController := a;
     config := config m |}.

(** What [loadModel(url, 'llm')] assigns once the pipeline is built. *)
Definition set_llm_loaded (m : t) : t :=
  {| llmPipeline := true; embeddingPipeline := embeddingPipeline m;
     isLlmLoaded := true; isEmbeddingLoaded := isEmbeddingLoaded m;
     queuedPrompts := queuedPrompts m; abortController := abortController m;
     config := config m |}.

(** What [loadModel(url, 'embedding')] assigns once the pipeline is built. *)
Definition set_embedding_loaded (m : t) : t :=
  {| llmPipeline := llmPipeline m; embeddingPipeline := true;
     isLlmLoaded := isLlmLoaded m; isEmbeddingLoaded := true;
     queuedPrompts := queuedPrompts m; abortController := abortController m;
     config := config m |}.

(** [updateConfig({ inferenceTimeout })] *)
Definition updateConfig_inferenceTimeout (ms : Z) (m : t) : t :=
  {| llmPipeline := llmPipeline m; embeddingPipeline := embeddingPipeline m;
     isLlmLoaded := isLlmLoaded m; isEmbeddingLoaded := isEmbeddingLoaded m;
     queuedPrompts := queuedPrompts m; abortController := abortController m;
     config := {| systemPrompt := systemPrompt (config m);
                  maxTokens := maxTokens (config m);
                  inferenceTimeout := ms |} |}.

(** The [constructor]. *)
Definition init : t :=
  {| llmPipeline := false; embeddingPipeline := false;
     isLlmLoaded := false; isEmbeddingLoaded := false;
     queuedPrompts := []; abortController := None;
     config := {| systemPrompt := "You are a helpful AI assistant.";
                  maxTokens := 512; inferenceTimeout := 30000 |} |}.

(** The [catch] of [loadModel]: the error it throws for a failed load of
    the model [modelUrl] of kind [kind] (['llm'] or ['embedding']). *)
Definition loadModel_error (modelUrl kind : string) (e : Error) : Error :=
  if includes "404" (message e) || includes "Failed to fetch" (message e) then
    new_Error ("Model not found: " +:+ modelUrl +:+ ". Check model ID or file path.")
  else if includes "CORS" (message e) then
    new_Error "CORS error loading model. Serve from local web server, not file:// protocol."
  else if includes "memory" (message e) || includes "Memory" (message e) then
    new_Error "Out of memory loading model. Try a smaller or more quantized model."
  else if includes "format" (message e) || includes "invalid" (message e) then
    new_Error "Invalid model format. Ensure model is compatible with transformers.js."
  else
    new_Error ("Failed to load " +:+ kind +:+ " model: " +:+ message e).

(** [queuePrompt]: [push] appends at the end. *)
Definition queuePrompt (prompt : string) (m : t) : t :=
  set_queuedPrompts (queuedPrompts m ++ [prompt]) m.

(** [getQueuedPrompts]: a copy of the queue, and the queue emptied. *)
Definition getQueuedPrompts (m : t) : list string * t :=
  (queuedPrompts m, set_queuedPrompts [] m).

(** [cancelGeneration] *)
Definition cancelGeneration (m : t) : t :=
  match abortController m with
  | Some _ => set_abortController (Some true) m
  | None => m
  end.

(** [signal.aborted], read by the generator that created the controller. *)
Definition signal_aborted (m : t) : bool :=
  match abortController m with
  | Some b => b
  | None => false
  end.

(** *** [generateTokens]

    The async generator is a state machine over its suspension points: the
    awaited pipeline call, the awaited 30 ms timer of an iteration (with the
    clock value at which it is due), and the [yield] of an iteration.  One
    generator runs at a time, so the signal it holds is the one behind
    [abortController] until its [finally] clears the field. *)
Inductive gen_state :=
| GPipeline (fullPrompt : string)
| GDelay (words : list string) (i : nat) (due : Z)
| GYield (words : list string) (i : nat)
| GClosed.

(** What a [next()] has produced so far. *)
Inductive iter_result :=
| IPending
| IYield (token : string)
| IDone
| IThrow (e : Error).

Definition fullPrompt_of (m : t) (prompt : string) : string :=
  if negb (String.eqb (systemPrompt (config m)) "") then
    systemPrompt (config m) +:+ String "010" (String "010" "User: ") +:+ prompt
      +:+ String "010" (String "010" "Assistant:")
  else
    "User: " +:+ prompt +:+ String "010" (String "010" "Assistant:").

(** First [next()]: up to the awaited pipeline call.  The readiness check
    is before the [try], so its throw runs no [finally]. *)
Definition gen_start (prompt : string) (m : t) : t * gen_state * iter_result :=
  if negb (isLlmLoaded m) || negb (llmPipeline m) then
    (m, GClosed,
     IThrow (new_Error "LLM model not loaded. Load model before generating."))
  else
    (set_abortController (Some false) m, GPipeline (fullPrompt_of m prompt), IPending).

(** The [finally] block. *)
Definition gen_finally (m : t) : t := set_abortController None m.

(** The loop head of iteration [i]: leave the loop, break on an aborted
    signal (the line 'Generation cancelled' that is logged there is not
    recorded), or start the 30 ms timer. *)
Definition gen_loop (now : Z) (words : list string) (i : nat) (m : t)
  : t * gen_state * iter_result :=
  if (i <? length words)%nat then
    if signal_aborted m then (gen_finally m, GClosed, IDone)
    else (m, GDelay words i (now + 30), IPending)
  else (gen_finally m, GClosed, IDone).

(** The pipeline call settles: with the generated text (prompt included),
    or with an error, which the [catch] rethrows or replaces. *)
Definition gen_pipeline_settled (now : Z) (fullPrompt : string)
    (generated_text : completion string) (m : t) : t * gen_state * iter_result :=
  match generated_text with
  | Return text =>
      let responseText := substring_from (String.length fullPrompt) text in
      gen_loop now (split_space responseText) 0 m
  | Throw e =>
      if signal_aborted m then
        (gen_finally m, GClosed, IThrow (new_Error "Generation cancelled by user"))
      else (gen_finally m, GClosed, IThrow e)
  end.

(** The timer of iteration [i] fires: the word is yielded. *)
Definition gen_timer (words : list string) (i : nat) (m : t)
  : t * gen_state * iter_result :=
  (m, GYield words i,
   IYield (default "" (words !! i)
           +:+ if (i <? length words - 1)%nat then " " else "")).

(** [next()] on a generator suspended at the [yield] of iteration [i]. *)
Definition gen_next (now : Z) (words : list string) (i : nat) (m : t)
  : t * gen_state * iter_result :=
  gen_loop now words (S i) m.

(** [return()] on a generator suspended at a [yield]: the [finally] runs. *)
Definition gen_return (m : t) : t * gen_state := (gen_finally m, GClosed).

(** *** [generateTokensWithTimeout]

    Suspended either in its [for await] (waiting for the inner generator)
    or at its own [yield]; [timeoutMs] and [startTime] are read at its first
    [next()]. *)
Record wrap_state := { timeoutMs : Z; startTime : Z }.

Definition timeout_error (timeoutMs : Z) : Error :=
  new_Error ("Inference timeout after " +:+ pretty timeoutMs +:+ "ms").

(** First [next()] of the wrapper at clock [now]. *)
Definition wrap_start (now : Z) (prompt : string) (m : t)
  : t * wrap_state * gen_state * iter_result :=
  let ws := {| timeoutMs := inferenceTimeout (config m); startTime := now |} in
  let '(m', g, r) := gen_start prompt m in
  (m', ws, g, r).

(** The body of the [for await] when the inner generator, now in state
    [g], has produced [r] at clock [now].  On a late token the wrapper
    cancels and throws, and leaving the loop closes the inner generator. *)
Definition wrap_on_inner (now : Z) (ws : wrap_state) (g : gen_state)
    (r : iter_result) (m : t) : t * gen_state * iter_result :=
  match r with
  | IYield token =>
      if timeoutMs ws <? now - startTime ws then
        let m := cancelGeneration m in
        let '(m, g) := gen_return m in
        (m, g, IThrow (timeout_error (timeoutMs ws)))
      else (m, g, IYield token)
  | _ => (m, g, r)
  end.

(** *** [generateEmbedding]

    [embedded] is what the feature-extraction pipeline answers when it is
    called: the length of the tensor data, or an error.  The result comes
    with the console lines written. *)
Inductive level := log | warn | error.

Definition generateEmbedding (embedded : completion nat) (m : t)
  : completion value * list (level * string) :=
  if negb (isEmbeddingLoaded m) || negb (embeddingPipeline m) then
    (Return (Float32Array 384),
     [(warn, "Embedding model not loaded. Generating random embedding as fallback.")])
  else
    match embedded with
    | Return len => (Return (Float32Array len), [])
    | Throw e =>
        (Throw (new_Error ("Failed to generate embedding: " +:+ message e)),
         [(error, "Embedding generation failed:")])
    end.

End ModelManager.

(** ** The chat custom element *)

Module Chat.
Import Js.

Inductive Visibility := hidden | input_visible | generating | response_visible.

(** [this.state]; [focusedElement] is never assigned after construction
    and is left out. *)
Record State := {
  visibility : Visibility;
  currentPrompt : string;
  currentResponse : string;
  isGenerating : bool;
  generationAborted : bool;
  errorMessage : option string
}.

(** What the response area shows: text, one of the two loading indicators
    written through [innerHTML], or the error line of [_showError]. *)
Inductive ResponseContent :=
| Text (s : string)
| LoadingModel
| GeneratingResponse
| ErrorLine (msg : string).

(** The parts of the shadow DOM the handlers read or write: the [visible]
    class of the container, the input's value, the response area with its
    three classes, the [visible] class of the actions, and whether the
    click-outside listener is registered on the document. *)
Record Dom := {
  container_visible : bool;
  input_value : string;
  response_content : ResponseContent;
  cls_visible : bool;
  cls_loading : bool;
  cls_error : bool;
  actions_visible : bool;
  click_listener : bool
}.

(** The [CustomEvent]s dispatched to the host. *)
Inductive Notification :=
| chat_activated
| chat_hidden
| model_loading_needed (prompt : string)
| generation_started (prompt : string)
| generation_progress (tokenCount : Z) (partialResponse : string)
| generation_complete (prompt response : string) (tokenCount duration : Z)
    (saved : bool)
| generation_cancelled (prompt partialResponse : string) (tokenCount : Z)
| generation_error (prompt error errorType : string)
| model_loading (modelUrl : string)
| model_progress (progress : Z)
| model_loaded (modelUrl : string)
| model_error (modelUrl : string) (error : Error).

(** Where the activation of [_generateResponse] is suspended: at the
    [Promise.all] of the first token and the 800 ms timer ([first] is the
    settled first [next()], [minLoadingDue] the clock value at which the
    timer is due, [None] once it has fired), or in the [for await]. *)
Inductive Phase :=
| AwaitFirst (first : option ModelManager.iter_result) (minLoadingDue : option Z)
| Streaming.

(** The locals of a suspended [_generateResponse], with the wrapper and
    the generator it pulls.  [resumes_loadModels] tells that [_loadModels]
    is awaiting this activation, so that its [finally] runs when the
    activation ends. *)
Record Run := {
  run_prompt : string;
  fullResponse : string;
  tokenCount : Z;
  run_startTime : Z;
  phase : Phase;
  wrapper : ModelManager.wrap_state;
  generator : ModelManager.gen_state;
  resumes_loadModels : bool
}.

(** What the browser will answer to the next save: the IndexedDB outcomes
    and the answer of the feature-extraction pipeline. *)
Record Browser := {
  idb : Storage.IdbEnv;
  embedded : completion nat
}.

(** The element, the [modelManager] singleton it drives, the object store,
    and the environment: the clock ([Date.now()]), the platform, the
    notifications dispatched since the connection, the console, and the due
    times of the pending 100 ms timers of [activate].  [console] holds,
    oldest first, the lines the element's handlers and [generateEmbedding]
    have written since the connection; the progress lines that [loadModel]
    and [generateTokens] write on their own account ("Loading ... model",
    "Processing ... queued prompts", "Generation cancelled"), the line of
    the database upgrade and the lines of [connectedCallback] and
    [disconnectedCallback] are not recorded.  At most one activation of [_generateResponse] is pending. *)
Record World := {
  state : State;
  dom : Dom;
  manager : ModelManager.t;
  database : gmap Z Storage.ConversationPair;
  conversationCount : Z;
  modelUrl : option string;
  embeddingUrl : option string;
  lastModelUrl : option string;
  modelLoading : bool;
  embeddingLoading : bool;
  lastEmbeddingUrl : option string;
  run : option Run;
  dispatched : list Notification;
  console : list (ModelManager.level * string);
  now : Z;
  isMac : bool;
  browser : Browser;
  listenerTimers : list Z
}.

(** *** Field updates *)

Definition set_visibility (v : Visibility) (s : State) : State :=
  {| visibility := v; currentPrompt := currentPrompt s;
     currentResponse := currentResponse s; isGenerating := isGenerating s;
     generationAborted := generationAborted s; errorMessage := errorMessage s |}.

Definition set_currentPrompt (p : string) (s : State) : State :=
  {| visibility := visibility s; currentPrompt := p;
     currentResponse := currentResponse s; isGenerating := isGenerating s;
     generationAborted := generationAborted s; errorMessage := errorMessage s |}.

Definition set_currentResponse (r : string) (s : State) : State :=
  {| visibility := visibility s; currentPrompt := currentPrompt s;
     currentResponse := r; isGenerating := isGenerating s;
     generationAborted := generationAborted s; errorMessage := errorMessage s |}.

Definition set_isGenerating (b : bool) (s : State) : State :=
  {| visibility := visibility s; currentPrompt := currentPrompt s;
     currentResponse := currentResponse s; isGenerating := b;
     generationAborted := generationAborted s; errorMessage := errorMessage s |}.

Definition set_generationAborted (b : bool) (s : State) : State :=
  {| visibility := visibility s; currentPrompt := currentPrompt s;
     currentResponse := currentResponse s; isGenerating := isGenerating s;
     generationAborted := b; errorMessage := errorMessage s |}.

Definition set_errorMessage (e : option string) (s : State) : State :=
  {| visibility := visibility s; currentPrompt := currentPrompt s;
     currentResponse := currentResponse s; isGenerating := isGenerating s;
     generationAborted := generationAborted s; errorMessage := e |}.

Definition set_container_visible (b : bool) (d : Dom) : Dom :=
  {| container_visible := b; input_value := input_value d;
     response_content := response_content d; cls_visible := cls_visible d;
     cls_loading := cls_loading d; cls_error := cls_error d;
     actions_visible := actions_visible d; click_listener := click_listener d |}.

Definition set_input_value (v : string) (d : Dom) : Dom :=
  {| container_visible := container_visible d; input_value := v;
     response_content := response_content d; cls_visible := cls_visible d;
     cls_loading := cls_loading d; cls_error := cls_error d;
     actions_visible := actions_visible d; click_listener := click_listener d |}.

Definition set_response_content (c : ResponseContent) (d : Dom) : Dom :=
  {| container_visible := container_visible d; input_value := input_value d;
     response_content := c; cls_visible := cls_visible d;
     cls_loading := cls_loading d; cls_error := cls_error d;
     actions_visible := actions_visible d; click_listener := click_listener d |}.

Definition set_cls_visible (b : bool) (d : Dom) : Dom :=
  {| container_visible := container_visible d; input_value := input_value d;
     response_content := response_content d; cls_visible := b;
     cls_loading := cls_loading d; cls_error := cls_error d;
     actions_visible := actions_visible d; click_listener := click_listener d |}.

Definition set_cls_loading (b : bool) (d : Dom) : Dom :=
  {| container_visible := container_visible d; input_value := input_value d;
     response_content := response_content d; cls_visible := cls_visible d;
     cls_loading := b; cls_error := cls_error d;
     actions_visible := actions_visible d; click_listener := click_listener d |}.

Definition set_cls_error (b : bool) (d : Dom) : Dom :=
  {| container_visible := container_visible d; input_value := input_value d;
     response_content := response_content d; cls_visible := cls_visible d;
     cls_loading := cls_loading d; cls_error := b;
     actions_visible := actions_visible d; click_listener := click_listener d |}.

Definition set_actions_visible (b : bool) (d : Dom) : Dom :=
  {| container_visible := container_visible d; input_value := input_value d;
     response_content := response_content d; cls_visible := cls_visible d;
     cls_loading := cls_loading d; cls_error := cls_error d;
     actions_visible := b; click_listener := click_listener d |}.

Definition set_click_listener (b : bool) (d : Dom) : Dom :=
  {| container_visible := container_visible d; input_value := input_value d;
     response_content := response_content d; cls_visible := cls_visible d;
     cls_loading := cls_loading d; cls_error := cls_error d;
     actions_visible := actions_visible d; click_listener := b |}.

Definition upd_state (f : State -> State) (w : World) : World :=
  {| state := f (state w); dom := dom w; manager := manager w;
     database := database w; conversationCount := conversationCount w;
     modelUrl := modelUrl w; embeddingUrl := embeddingUrl w;
     lastModelUrl := lastModelUrl w; modelLoading := modelLoading w;
     embeddingLoading := embeddingLoading w;
     lastEmbeddingUrl := lastEmbeddingUrl w; run := run w;
     dispatched := dispatched w; console := console w; now := now w;
     isMac := isMac w; browser := browser w;
     listenerTimers := listenerTimers w |}.

Definition upd_dom (f : Dom -> Dom) (w : World) : World :=
  {| state := state w; dom := f (dom w); manager := manager w;
     database := database w; conversationCount := conversationCount w;
     modelUrl := modelUrl w; embeddingUrl := embeddingUrl w;
     lastModelUrl := lastModelUrl w; modelLoading := modelLoading w;
     embeddingLoading := embeddingLoading w;
     lastEmbeddingUrl := lastEmbeddingUrl w; run := run w;
     dispatched := dispatched w; console := console w; now := now w;
     isMac := isMac w; browser := browser w;
     listenerTimers := listenerTimers w |}.

Definition upd_manager (f : ModelManager.t -> ModelManager.t) (w : World) : World :=
  {| state := state w; dom := dom w; manager := f (manager w);
     database := database w; conversationCount := conversationCount w;
     modelUrl := modelUrl w; embeddingUrl := embeddingUrl w;
     lastModelUrl := lastModelUrl w; modelLoading := modelLoading w;
     embeddingLoading := embeddingLoading w;
     lastEmbeddingUrl := lastEmbeddingUrl w; run := run w;
     dispatched := dispatched w; console := console w; now := now w;
     isMac := isMac w; browser := browser w;
     listenerTimers := listenerTimers w |}.

Definition set_database (db : gmap Z Storage.ConversationPair) (w : World) : World :=
  {| state := state w; dom := dom w; manager := manager w;
     database := db; conversationCount := conversationCount w;
     modelUrl := modelUrl w; embeddingUrl := embeddingUrl w;
     lastModelUrl := lastModelUrl w; modelLoading := modelLoading w;
     embeddingLoading := embeddingLoading w;
     lastEmbeddingUrl := lastEmbeddingUrl w; run := run w;
     dispatched := dispatched w; console := console w; now := now w;
     isMac := isMac w; browser := browser w;
     listenerTimers := listenerTimers w |}.

Definition set_conversationCount (n : Z) (w : World) : World :=
  {| state := state w; dom := dom w; manager := manager w;
     database := database w; conversationCount := n;
     modelUrl := modelUrl w; embeddingUrl := embeddingUrl w;
     lastModelUrl := lastModelUrl w; modelLoading := modelLoading w;
     embeddingLoading := embeddingLoading w;
     lastEmbeddingUrl := lastEmbeddingUrl w; run := run w;
     dispatched := dispatched w; console := console w; now := now w;
     isMac := isMac w; browser := browser w;
     listenerTimers := listenerTimers w |}.

Definition set_modelUrl (u : option string) (w : World) : World :=
  {| state := state w; dom := dom w; manager := manager w;
     database := database w; conversationCount := conversationCount w;
     modelUrl := u; embeddingUrl := embeddingUrl w;
     lastModelUrl := lastModelUrl w; modelLoading := modelLoading w;
     embeddingLoading := embeddingLoading w;
     lastEmbeddingUrl := lastEmbeddingUrl w; run := run w;
     dispatched := dispatched w; console := console w; now := now w;
     isMac := isMac w; browser := browser w;
     listenerTimers := listenerTimers w |}.

Definition set_lastModelUrl (u : option string) (w : World) : World :=
  {| state := state w; dom := dom w; manager := manager w;
     database := database w; conversationCount := conversationCount w;
     modelUrl := modelUrl w; embeddingUrl := embeddingUrl w;
     lastModelUrl := u; modelLoading := modelLoading w;
     embeddingLoading := embeddingLoading w;
     lastEmbeddingUrl := lastEmbeddingUrl w; run := run w;
     dispatched := dispatched w; console := console w; now := now w;
     isMac := isMac w; browser := browser w;
     listenerTimers := listenerTimers w |}.

Definition set_modelLoading (b : bool) (w : World) : World :=
  {| state := state w; dom := dom w; manager := manager w;
     database := database w; conversationCount := conversationCount w;
     modelUrl := modelUrl w; embeddingUrl := embeddingUrl w;
     lastModelUrl := lastModelUrl w; modelLoading := b;
     embeddingLoading := embeddingLoading w;
     lastEmbeddingUrl := lastEmbeddingUrl w; run := run w;
     dispatched := dispatched w; console := console w; now := now w;
     isMac := isMac w; browser := browser w;
     listenerTimers := listenerTimers w |}.

Definition set_run (r : option Run) (w : World) : World :=
  {| state := state w; dom := dom w; manager := manager w;
     database := database w; conversationCount := conversationCount w;
     modelUrl := modelUrl w; embeddingUrl := embeddingUrl w;
     lastModelUrl := lastModelUrl w; modelLoading := modelLoading w;
     embeddingLoading := embeddingLoading w;
     lastEmbeddingUrl := lastEmbeddingUrl w; run := r;
     dispatched := dispatched w; console := console w; now := now w;
     isMac := isMac w; browser := browser w;
     listenerTimers := listenerTimers w |}.

Definition set_now (t : Z) (w : World) : World :=
  {| state := state w; dom := dom w; manager := manager w;
     database := database w; conversationCount := conversationCount w;
     modelUrl := modelUrl w; embeddingUrl := embeddingUrl w;
     lastModelUrl := lastModelUrl w; modelLoading := modelLoading w;
     embeddingLoading := embeddingLoading w;
     lastEmbeddingUrl := lastEmbeddingUrl w; run := run w;
     dispatched := dispatched w; console := console w; now := t;
     isMac := isMac w; browser := browser w;
     listenerTimers := listenerTimers w |}.

Definition set_embeddingUrl (u : option string) (w : World) : World :=
  {| state := state w; dom := dom w; manager := manager w;
     database := database w; conversationCount := conversationCount w;
     modelUrl := modelUrl w; embeddingUrl := u;
     lastModelUrl := lastModelUrl w; modelLoading := modelLoading w;
     embeddingLoading := embeddingLoading w;
     lastEmbeddingUrl := lastEmbeddingUrl w; run := run w;
     dispatched := dispatched w; console := console w; now := now w;
     isMac := isMac w; browser := browser w;
     listenerTimers := listenerTimers w |}.

Definition set_lastEmbeddingUrl (u : option string) (w : World) : World :=
  {| state := state w; dom := dom w; manager := manager w;
     database := database w; conversationCount := conversationCount w;
     modelUrl := modelUrl w; embeddingUrl := embeddingUrl w;
     lastModelUrl := lastModelUrl w; modelLoading := modelLoading w;
     embeddingLoading := embeddingLoading w;
     lastEmbeddingUrl := u; run := run w;
     dispatched := dispatched w; console := console w; now := now w;
     isMac := isMac w; browser := browser w;
     listenerTimers := listenerTimers w |}.

Definition set_listenerTimers (l : list Z) (w : World) : World :=
  {| state := state w; dom := dom w; manager := manager w;
     database := database w; conversationCount := conversationCount w;
     modelUrl := modelUrl w; embeddingUrl := embeddingUrl w;
     lastModelUrl := lastModelUrl w; modelLoading := modelLoading w;
     embeddingLoading := embeddingLoading w;
     lastEmbeddingUrl := lastEmbeddingUrl w; run := run w;
     dispatched := dispatched w; console := console w; now := now w;
     isMac := isMac w; browser := browser w;
     listenerTimers := l |}.

(** [this.dispatchEvent(new CustomEvent(...))] *)
Definition dispatchEvent (n : Notification) (w : World) : World :=
  {| state := state w; dom := dom w; manager := manager w;
     database := database w; conversationCount := conversationCount w;
     modelUrl := modelUrl w; embeddingUrl := embeddingUrl w;
     lastModelUrl := lastModelUrl w; modelLoading := modelLoading w;
     embeddingLoading := embeddingLoading w;
     lastEmbeddingUrl := lastEmbeddingUrl w; run := run w;
     dispatched := dispatched w ++ [n]; console := console w; now := now w;
     isMac := isMac w; browser := browser w;
     listenerTimers := listenerTimers w |}.

(** [console.log], [console.warn], [console.error] *)
Definition console_write (lines : list (ModelManager.level * string)) (w : World)
  : World :=
  {| state := state w; dom := dom w; manager := manager w;
     database := database w; conversationCount := conversationCount w;
     modelUrl := modelUrl w; embeddingUrl := embeddingUrl w;
     lastModelUrl := lastModelUrl w; modelLoading := modelLoading w;
     embeddingLoading := embeddingLoading w;
     lastEmbeddingUrl := lastEmbeddingUrl w; run := run w;
     dispatched := dispatched w; console := console w ++ lines; now := now w;
     isMac := isMac w; browser := browser w;
     listenerTimers := listenerTimers w |}.

Definition set_phase (p : Phase) (r : Run) : Run :=
  {| run_prompt := run_prompt r; fullResponse := fullResponse r;
     tokenCount := tokenCount r; run_startTime := run_startTime r;
     phase := p; wrapper := wrapper r; generator := generator r;
     resumes_loadModels := resumes_loadModels r |}.

Definition set_generator (g : ModelManager.gen_state) (r : Run) : Run :=
  {| run_prompt := run_prompt r; fullResponse := fullResponse r;
     tokenCount := tokenCount r; run_startTime := run_startTime r;
     phase := phase r; wrapper := wrapper r; generator := g;
     resumes_loadModels := resumes_loadModels r |}.

(** [fullResponse += token; tokenCount++] *)
Definition append_token (token : string) (r : Run) : Run :=
  {| run_prompt := run_prompt r; fullResponse := fullResponse r +:+ token;
     tokenCount := tokenCount r + 1; run_startTime := run_startTime r;
     phase := phase r; wrapper := wrapper r; generator := generator r;
     resumes_loadModels := resumes_loadModels r |}.


(** *** Synchronous handlers *)

(** [get isVisible] *)
Definition isVisible (w : World) : bool :=
  match visibility (state w) with
  | hidden => false
  | _ => true
  end.

(** [_showError] *)
Definition _showError (message : string) (w : World) : World :=
  let w := upd_state (set_errorMessage (Some message)) w in
  let w := upd_state (set_visibility response_visible) w in
  let w := upd_dom (set_cls_visible true) w in
  let w := upd_dom (set_cls_error true) w in
  let w := upd_dom (set_cls_loading false) w in
  let w := upd_dom (set_response_content (ErrorLine message)) w in
  upd_dom (set_actions_visible true) w.

(** [activate]: the click-outside listener is registered by a timer
    100 ms later; the focus timer has no effect on the fields kept here. *)
Definition activate (w : World) : World :=
  let w := upd_state (set_visibility input_visible) w in
  let w := upd_dom (set_container_visible true) w in
  let w := set_listenerTimers (listenerTimers w ++ [now w + 100]) w in
  dispatchEvent chat_activated w.

(** [hide] *)
Definition hide (w : World) : World :=
  let w := upd_state (set_visibility hidden) w in
  let w := upd_dom (set_container_visible false) w in
  let w := upd_dom (set_cls_visible false) w in
  let w := upd_dom (set_actions_visible false) w in
  let w := upd_state (set_currentPrompt "") w in
  let w := upd_state (set_currentResponse "") w in
  let w := upd_state (set_errorMessage None) w in
  let w := upd_dom (set_input_value "") w in
  let w := upd_dom (set_response_content (Text "")) w in
  let w := upd_dom (set_click_listener false) w in
  dispatchEvent chat_hidden w.

(** [_handleInputClick] *)
Definition _handleInputClick (w : World) : World :=
  match visibility (state w) with
  | response_visible =>
      let w := upd_dom (set_cls_visible false) w in
      let w := upd_dom (set_response_content (Text "")) w in
      let w := upd_dom (set_actions_visible false) w in
      let w := upd_state (set_visibility input_visible) w in
      let w := upd_state (set_currentResponse "") w in
      upd_state (set_errorMessage None) w
  | _ => w
  end.

(** [_cancelGeneration]; the [tokenCount] of the notification is
    [currentResponse.split(' ').length]. *)
Definition _cancelGeneration (w : World) : World :=
  let w := upd_manager ModelManager.cancelGeneration w in
  let w := upd_state (set_isGenerating false) w in
  let w := upd_state (set_generationAborted true) w in
  let w := upd_dom (set_cls_visible false) w in
  let w := upd_dom (set_response_content (Text "")) w in
  let w := upd_state (set_visibility input_visible) w in
  dispatchEvent
    (generation_cancelled (currentPrompt (state w)) (currentResponse (state w))
       (Z.of_nat (length (split_space (currentResponse (state w)))))) w.

Record KeyEvent := {
  key : string;
  metaKey : bool;
  ctrlKey : bool;
  shiftKey : bool
}.

(** [_handleKeyboard], the document's [keydown] listener. *)
Definition _handleKeyboard (event : KeyEvent) (w : World) : World :=
  let triggerKey :=
    if isMac w then metaKey event && String.eqb (key event) "k"
    else ctrlKey event && String.eqb (key event) "k" in
  if triggerKey then activate w
  else if String.eqb (key event) "Escape" && isVisible w then
    if isGenerating (state w) then _cancelGeneration w else hide w
  else w.

(** [_handleClickOutside]; [clickedInside] is
    [event.composedPath().includes(this._container)]. *)
Definition _handleClickOutside (clickedInside : bool) (w : World) : World :=
  if negb clickedInside && negb (isGenerating (state w)) then hide w else w.

(** *** Saving and the end of a generation *)

(** [_saveConversation], with whether it returned [true].  Its awaits (the
    embedding, opening the database, the [add] request) are taken in one
    step: the clock reads the same throughout. *)
Definition _saveConversation (prompt response : string) (w : World)
  : World * bool :=
  let '(embedding, lines) :=
    ModelManager.generateEmbedding (embedded (browser w)) (manager w) in
  let w := console_write lines w in
  match embedding with
  | Throw _ =>
      (console_write [(ModelManager.error, "Error saving conversation:")] w, false)
  | Return embedding =>
      let conversationPair :=
        {| Storage.id := Num (now w);
           Storage.prompt := Str prompt;
           Storage.response := Str response;
           Storage.embedding := embedding;
           Storage.modelVersion := Str "mvp-mock";
           Storage.timestamp := DateObj (Some (now w)) |} in
      match Storage.saveConversation (idb (browser w)) (now w) (database w)
              conversationPair with
      | (db, Return result) =>
          let w := set_database db w in
          if Storage.success result then
            (set_conversationCount (conversationCount w + 1) w, true)
          else if match Storage.error result with
                  | Some e => String.eqb (name e) "QuotaExceededError"
                  | None => false
                  end then
            (console_write [(ModelManager.warn, "Storage quota exceeded:")] w, false)
          else
            (console_write [(ModelManager.error, "Failed to save conversation:")] w,
             false)
      | (db, Throw _) =>
          (console_write [(ModelManager.error, "Error saving conversation:")]
             (set_database db w), false)
      end
  end.

(** The activation of [_generateResponse] ends; if [_loadModels] was
    awaiting it, its [finally] runs. *)
Definition end_run (r : Run) (w : World) : World :=
  let w := set_run None w in
  if resumes_loadModels r then set_modelLoading false w else w.

(** [Error.prototype.toString] *)
Definition error_toString (e : Error) : string :=
  if String.eqb (name e) "" then message e
  else if String.eqb (message e) "" then name e
  else name e +:+ ": " +:+ message e.

(** [error?.message || error?.toString() || 'Unknown error occurred'] *)
Definition errorMessage_of (e : Error) : string :=
  if negb (String.eqb (message e) "") then message e
  else if negb (String.eqb (error_toString e) "") then error_toString e
  else "Unknown error occurred".

(** The [catch] block of [_generateResponse]. *)
Definition _generateResponse_catch (e : Error) (r : Run) (w : World) : World :=
  let w := upd_state (set_isGenerating false) w in
  let errorMessage := errorMessage_of e in
  if includes "cancelled" errorMessage then end_run r w
  else
    let w := _showError errorMessage w in
    let w := dispatchEvent
               (generation_error (run_prompt r) errorMessage
                  (if includes "timeout" errorMessage then "inference-timeout"
                   else "inference-error")) w in
    end_run r w.

(** [_generateResponse] after its [for await]: "Generation complete". *)
Definition _generateResponse_complete (r : Run) (w : World) : World :=
  let duration := now w - run_startTime r in
  let w := upd_state (set_currentResponse (fullResponse r)) w in
  let w := upd_state (set_isGenerating false) w in
  let w := upd_state (set_visibility response_visible) w in
  let '(w, saved) :=
    if 0 <? str_length (trim (fullResponse r)) then
      _saveConversation (run_prompt r) (fullResponse r) w
    else
      (console_write
         [(ModelManager.log, "Skipping save - empty response (likely cancelled)")] w,
       false) in
  let w := dispatchEvent
             (generation_complete (run_prompt r) (fullResponse r) (tokenCount r)
                duration saved) w in
  end_run r w.

(** *** The streaming loop of [_generateResponse] *)

(** The [for await] asks the wrapper for the next token: the wrapper
    resumes its own [for await] and calls [next()] on the generator, which
    is suspended at a [yield] or already closed. *)
Definition pull (r : Run) (w : World) : World :=
  let r := set_phase Streaming r in
  match generator r with
  | ModelManager.GYield words i =>
      let '(m, g, res) := ModelManager.gen_next (now w) words i (manager w) in
      let '(m, g, res) := ModelManager.wrap_on_inner (now w) (wrapper r) g res m in
      let w := upd_manager (fun _ => m) w in
      let r := set_generator g r in
      match res with
      | ModelManager.IDone => _generateResponse_complete r w
      | ModelManager.IThrow e => _generateResponse_catch e r w
      | _ => set_run (Some r) w
      end
  | ModelManager.GClosed => _generateResponse_complete r w
  | _ => set_run (Some r) w
  end.

(** The body of the [for await] for one token, then the next pull. *)
Definition on_token (token : string) (r : Run) (w : World) : World :=
  let r := append_token token r in
  let w := upd_dom (set_response_content (Text (fullResponse r))) w in
  let w :=
    if tokenCount r mod 10 =? 0 then
      dispatchEvent (generation_progress (tokenCount r) (fullResponse r)) w
    else w in
  pull r w.

(** After the [Promise.all]: the loading state is cleared, the first
    token, if there is a non-empty one, is taken, and the [for await]
    starts. *)
Definition after_first (first : ModelManager.iter_result) (r : Run) (w : World)
  : World :=
  let w := upd_dom (set_cls_loading false) w in
  let w := upd_dom (set_response_content (Text "")) w in
  match first with
  | ModelManager.IYield token =>
      if negb (String.eqb token "") then
        let r := append_token token r in
        let w := upd_dom (set_response_content (Text (fullResponse r))) w in
        pull r w
      else pull r w
  | _ => pull r w
  end.

(** The pending [next()] of the wrapper settles with [res]. *)
Definition settle (res : ModelManager.iter_result) (r : Run) (w : World) : World :=
  match res with
  | ModelManager.IPending => set_run (Some r) w
  | ModelManager.IThrow e => _generateResponse_catch e r w
  | ModelManager.IYield token =>
      match phase r with
      | AwaitFirst _ (Some due) =>
          set_run (Some (set_phase (AwaitFirst (Some res) (Some due)) r)) w
      | AwaitFirst _ None => after_first res r w
      | Streaming => on_token token r w
      end
  | ModelManager.IDone =>
      match phase r with
      | AwaitFirst _ (Some due) =>
          set_run (Some (set_phase (AwaitFirst (Some res) (Some due)) r)) w
      | AwaitFirst _ None => after_first res r w
      | Streaming => _generateResponse_complete r w
      end
  end.

(** [_generateResponse], up to its first await. *)
Definition _generateResponse (prompt : string) (w : World) : World :=
  let '(m, ws, g, res) := ModelManager.wrap_start (now w) prompt (manager w) in
  let w := upd_manager (fun _ => m) w in
  let r := {| run_prompt := prompt; fullResponse := ""; tokenCount := 0;
              run_startTime := now w;
              phase := AwaitFirst None (Some (now w + 800));
              wrapper := ws; generator := g;
              resumes_loadModels := false |} in
  settle res r w.

(** [_submitPrompt].  The two animation frames it awaits before
    [generation-started] are taken in the same step. *)
Definition _submitPrompt (w : World) : World :=
  let prompt := trim (input_value (dom w)) in
  if String.eqb prompt "" then w
  else if 10000 <? str_length prompt then
    _showError "Prompt too long (max 10,000 characters)" w
  else
    let w := upd_state (set_errorMessage None) w in
    let w := upd_dom (set_cls_error false) w in
    let w := upd_dom (set_actions_visible false) w in
    let w := upd_state (set_currentPrompt prompt) w in
    let w := upd_state (set_currentResponse "") w in
    if negb (ModelManager.isLlmLoaded (manager w)) then
      let w := upd_state (set_visibility generating) w in
      let w := upd_dom (set_cls_visible true) w in
      let w := upd_dom (set_cls_loading true) w in
      let w := upd_dom (set_response_content LoadingModel) w in
      let w := upd_manager (ModelManager.queuePrompt prompt) w in
      dispatchEvent (model_loading_needed prompt) w
    else
      let w := upd_state (set_visibility generating) w in
      let w := upd_state (set_isGenerating true) w in
      let w := upd_dom (set_cls_visible true) w in
      let w := upd_dom (set_cls_loading true) w in
      let w := upd_dom (set_response_content GeneratingResponse) w in
      let w := dispatchEvent (generation_started prompt) w in
      _generateResponse prompt w.

(** [_handleInputKeydown] *)
Definition _handleInputKeydown (event : KeyEvent) (w : World) : World :=
  if String.eqb (key event) "Enter" && negb (shiftKey event) then _submitPrompt w
  else w.

(** [retry] *)
Definition retry (w : World) : World :=
  if String.eqb (currentPrompt (state w)) "" then w
  else
    let w := upd_state (set_errorMessage None) w in
    let w := upd_dom (set_cls_error false) w in
    let w := upd_dom (set_actions_visible false) w in
    _generateResponse (currentPrompt (state w)) w.

(** *** Loading the models *)

Definition url_set (u : option string) : bool :=
  match u with
  | Some s => negb (String.eqb s "")
  | None => false
  end.

(** [_loadModels], up to the awaited [loadModel]. *)
Definition _loadModels (w : World) : World :=
  if negb (url_set (modelUrl w)) then
    console_write [(ModelManager.warn, "No model URL configured")] w
  else if modelLoading w then
    console_write [(ModelManager.log, "Model already loading, skipping...")] w
  else
    let w := set_modelLoading true w in
    let w := set_lastModelUrl (modelUrl w) w in
    let w := dispatchEvent (model_loading (default "" (modelUrl w))) w in
    dispatchEvent (model_progress 0) w.

(** [_loadEmbeddingModel], with the outcome of its [loadModel]; the await is
    taken in the same step, so [_embeddingLoading] is set and cleared within
    it. *)
Definition _loadEmbeddingModel (loaded : completion unit) (w : World) : World :=
  if negb (url_set (embeddingUrl w)) then w
  else if embeddingLoading w then
    console_write [(ModelManager.log, "Embedding model already loading, skipping...")] w
  else
    let w := set_lastEmbeddingUrl (embeddingUrl w) w in
    match loaded with
    | Return _ =>
        let w := upd_manager ModelManager.set_embedding_loaded w in
        console_write [(ModelManager.log, "Embedding model loaded")] w
    | Throw _ =>
        console_write [(ModelManager.warn, "Failed to load embedding model:")] w
    end.

(** [_loadModels] after a successful [loadModel]: what [loadModel] assigns
    once the pipeline is built, with its last progress callback, the
    [model-loaded] notification, and the embedding model's load if one is
    configured ([emb] is its outcome). *)
Definition _loadModels_loaded (emb : completion unit) (w : World) : World :=
  let w := upd_manager ModelManager.set_llm_loaded w in
  let w := dispatchEvent (model_progress 100) w in
  let w := dispatchEvent (model_loaded (default "" (modelUrl w))) w in
  if url_set (embeddingUrl w) then _loadEmbeddingModel emb w else w.

(** [_loadModels], "Process queued prompts": the queue is taken and
    emptied, and of the queued prompts only the first is submitted; the
    activation it starts is awaited before the [finally]. *)
Definition _loadModels_queued (w : World) : World :=
  let '(queued, m) := ModelManager.getQueuedPrompts (manager w) in
  let w := upd_manager (fun _ => m) w in
  match queued with
  | q0 :: _ =>
      let w := console_write
                 [(ModelManager.log,
                   "Processing " +:+ pretty (length queued) +:+ " queued prompts")] w in
      if negb (String.eqb q0 "") then
        let w := upd_dom (set_cls_loading false) w in
        let w := upd_state (set_isGenerating false) w in
        let w := upd_dom (set_input_value q0) w in
        let w := _submitPrompt w in
        match run w with
        | Some r =>
            set_run (Some {| run_prompt := run_prompt r;
                             fullResponse := fullResponse r;
                             tokenCount := tokenCount r;
                             run_startTime := run_startTime r;
                             phase := phase r; wrapper := wrapper r;
                             generator := generator r;
                             resumes_loadModels := true |}) w
        | None => set_modelLoading false w
        end
      else set_modelLoading false w
  | [] => set_modelLoading false w
  end.

(** [_loadModels] from the point where the awaited [loadModel] settles with
    [llm].  [loadModel] makes its error from the URL it was called with,
    which [_lastModelUrl] holds as long as the load is under way; the
    notification carries the URL configured now. *)
Definition _loadModels_settled (llm emb : completion unit) (w : World) : World :=
  match llm with
  | Throw e0 =>
      let url := default "" (modelUrl w) in
      let e := ModelManager.loadModel_error (default "" (lastModelUrl w)) "llm" e0 in
      let w := console_write [(ModelManager.error, "Failed to load model:")] w in
      let w := dispatchEvent (model_error url e) w in
      let w := _showError (message e) w in
      set_modelLoading false w
  | Return _ => _loadModels_queued (_loadModels_loaded emb w)
  end.

(** [attributeChangedCallback] for [model-url], on a connected element whose
    attribute mirrors [_config.modelUrl]. *)
Definition attributeChanged_modelUrl (newValue : option string) (w : World) : World :=
  if bool_decide (modelUrl w = newValue) then w else
  let w := set_modelUrl newValue w in
  if url_set newValue
     && negb (bool_decide (newValue = lastModelUrl w))
     && negb (modelLoading w) then _loadModels w
  else w.

(** [attributeChangedCallback] for [embedding-url], on a connected element
    whose attribute mirrors [_config.embeddingUrl]. *)
Definition attributeChanged_embeddingUrl (newValue : option string)
    (loaded : completion unit) (w : World) : World :=
  if bool_decide (embeddingUrl w = newValue) then w else
  let w := set_embeddingUrl newValue w in
  if url_set newValue
     && negb (bool_decide (newValue = lastEmbeddingUrl w))
     && negb (embeddingLoading w) then _loadEmbeddingModel loaded w
  else w.

(** [attributeChangedCallback] for [inference-timeout]: the setter clamps
    the parsed value to 1 s - 2 min, and the manager takes it over. *)
Definition attributeChanged_inferenceTimeout (timeout : Z) (w : World) : World :=
  upd_manager
    (ModelManager.updateConfig_inferenceTimeout
       (Z.max 1000 (Z.min 120000 timeout))) w.

(** *** The event loop

    One event is one turn of the browser's event loop, run to the next await.
    [step] is [None] when the event cannot occur in the world (a timer that
    is not pending or not yet due, a promise nobody awaits) or would start
    a second activation of [_generateResponse] beside a pending one, which
    this model does not cover. *)
Inductive Event :=
| Tick (ms : N)
| KeyDown (event : KeyEvent)
| Click (inside : bool)
| InputClick
| InputTyped (text : string)
| InputKeyDown (event : KeyEvent)
| ListenerTimer
| PipelineSettled (generated_text : completion string)
| TokenTimer
| MinLoadingTimer
| RetryClick
| ModelUrlSet (url : option string)
| EmbeddingUrlSet (url : option string) (loaded : completion unit)
| InferenceTimeoutSet (timeout : Z)
| ModelLoadSettled (llm emb : completion unit).

Definition no_run (w : World) : bool :=
  match run w with
  | None => true
  | Some _ => false
  end.

Definition load_pending (w : World) : bool :=
  modelLoading w
  && match run w with
     | Some r => negb (resumes_loadModels r)
     | None => true
     end.

Definition step (ev : Event) (w : World) : option World :=
  match ev with
  | Tick ms => Some (set_now (now w + Z.of_N ms) w)
  | KeyDown event => Some (_handleKeyboard event w)
  | Click inside =>
      if click_listener (dom w) then Some (_handleClickOutside inside w) else Some w
  | InputClick => Some (_handleInputClick w)
  | InputTyped text => Some (upd_dom (set_input_value text) w)
  | InputKeyDown event =>
      if no_run w || negb (ModelManager.isLlmLoaded (manager w))
      then Some (_handleInputKeydown event w) else None
  | ListenerTimer =>
      match listenerTimers w with
      | due :: rest =>
          if due <=? now w then
            Some (upd_dom (set_click_listener true) (set_listenerTimers rest w))
          else None
      | [] => None
      end
  | PipelineSettled generated_text =>
      match run w with
      | Some r =>
          match generator r with
          | ModelManager.GPipeline fullPrompt =>
              let '(m, g, res) :=
                ModelManager.gen_pipeline_settled (now w) fullPrompt generated_text
                  (manager w) in
              let '(m, g, res) :=
                ModelManager.wrap_on_inner (now w) (wrapper r) g res m in
              Some (settle res (set_generator g r) (upd_manager (fun _ => m) w))
          | _ => None
          end
      | None => None
      end
  | TokenTimer =>
      match run w with
      | Some r =>
          match generator r with
          | ModelManager.GDelay words i due =>
              if due <=? now w then
                let '(m, g, res) := ModelManager.gen_timer words i (manager w) in
                let '(m, g, res) :=
                  ModelManager.wrap_on_inner (now w) (wrapper r) g res m in
                Some (settle res (set_generator g r) (upd_manager (fun _ => m) w))
              else None
          | _ => None
          end
      | None => None
      end
  | MinLoadingTimer =>
      match run w with
      | Some r =>
          match phase r with
          | AwaitFirst first (Some due) =>
              if due <=? now w then
                let r := set_phase (AwaitFirst first None) r in
                match first with
                | Some res => Some (after_first res r w)
                | None => Some (set_run (Some r) w)
                end
              else None
          | _ => None
          end
      | None => None
      end
  | RetryClick => if no_run w then Some (retry w) else None
  | ModelUrlSet url => Some (attributeChanged_modelUrl url w)
  | EmbeddingUrlSet url loaded => Some (attributeChanged_embeddingUrl url loaded w)
  | InferenceTimeoutSet timeout => Some (attributeChanged_inferenceTimeout timeout w)
  | ModelLoadSettled llm emb =>
      if load_pending w
         && (no_run w || match ModelManager.queuedPrompts (manager w) with
                         | [] => true
                         | _ => false
                         end)
      then Some (_loadModels_settled llm emb w) else None
  end.

(** Running a trace of events, oldest first. *)
Fixpoint steps (evs : list Event) (w : World) : option World :=
  match evs with
  | [] => Some w
  | ev :: rest =>
      match step ev w with
      | Some w' => steps rest w'
      | None => None
      end
  end.

(** The element after its constructor and [connectedCallback], without a
    [model-url] attribute: hidden, nothing loaded, the running total read
    from the store ([0] if the count fails). *)
Definition connected (mac : bool) (b : Browser)
    (db : gmap Z Storage.ConversationPair) (clock : Z) : World :=
  {| state := {| visibility := hidden; currentPrompt := ""; currentResponse := "";
                 isGenerating := false; generationAborted := false;
                 errorMessage := None |};
     dom := {| container_visible := false; input_value := "";
               response_content := Text ""; cls_visible := false;
               cls_loading := false; cls_error := false;
               actions_visible := false; click_listener := false |};
     manager := ModelManager.init;
     database := db;
     conversationCount :=
       match Storage.getConversationCount (idb b) db with
       | Return n => Z.of_nat n
       | Throw _ => 0
       end;
     modelUrl := None; embeddingUrl := None; lastModelUrl := None;
     modelLoading := false; embeddingLoading := false; lastEmbeddingUrl := None;
     run := None; dispatched := []; console := []; now := clock;
     isMac := mac; browser := b; listenerTimers := [] |}.

(** The worlds the element can be in: those a trace leads to from a connected
    element. *)
Definition reachable (w : World) : Prop :=
  ∃ mac b db clock evs, steps evs (connected mac b db clock) = Some w.

(** What [_submitPrompt] lets through: trimmed, not empty, at most 10,000
    characters. *)
Definition submittable (p : string) : Prop :=
  trim p = p ∧ p ≠ "" ∧ str_length p ≤ 10000.

(** Every queued prompt went through [_submitPrompt]. *)
Definition queue_ok (w : World) : Prop :=
  Forall submittable (ModelManager.queuedPrompts (manager w)).

End Chat.

(** ** storage-manager.js: reading the history *)

Module StorageQueries.
Import Js Storage.

(** What [getHistory] returns for a record: the object without its
    [embedding] property. *)
Record HistoryEntry := {
  entry_id : value;
  entry_prompt : value;
  entry_response : value;
  entry_modelVersion : value;
  entry_timestamp : value
}.

(** [const { embedding, ...conversationWithoutEmbedding } = conversation] *)
Definition withoutEmbedding (c : ConversationPair) : HistoryEntry :=
  {| entry_id := id c; entry_prompt := prompt c; entry_response := response c;
     entry_modelVersion := modelVersion c; entry_timestamp := timestamp c |}.

(** The key of a record in the [timestamp] index (key path [timestamp]).
    Records enter the store through [saveConversation], whose validation
    makes the field a [Date]: its time value is the key, and a record whose
    date is invalid yields no valid key and has no entry in the index. *)
Definition index_key (c : ConversationPair) : option Z :=
  match timestamp c with
  | DateObj (Some t) => Some t
  | _ => None
  end.

(** An entry of the index: index key, primary key, record. *)
Definition IndexEntry : Type := Z * Z * ConversationPair.

(** The order in which a cursor opened with ['prev'] visits the index:
    greater index keys first and, among equal ones, greater primary keys
    first. *)
Definition visited_before (a b : IndexEntry) : Prop :=
  b.1.1 < a.1.1 ∨ (b.1.1 = a.1.1 ∧ b.1.2 ≤ a.1.2).

#[global] Instance visited_before_dec a b : Decision (visited_before a b).
Proof. unfold visited_before. apply _. Defined.

Definition index_entries (db : Database) : list IndexEntry :=
  omap (λ kc, (λ t, (t, kc.1, kc.2)) <$> index_key kc.2) (map_to_list db).

(** [index.openCursor(null, 'prev')]: the records in the order visited. *)
Definition openCursor_prev (db : Database) : list ConversationPair :=
  (λ e, e.2) <$> merge_sort visited_before (index_entries db).

(** [getHistory(limit)]: the cursor is followed while fewer than [limit]
    results are collected.  Only the awaited [initDatabase] is inside the
    [try]; [cursorError] is the error of the cursor request, if it fails. *)
Definition getHistory (env : IdbEnv) (cursorError : option DOMException)
    (limit : Z) (db : Database) : completion (list HistoryEntry) :=
  match initDatabase env with
  | Throw e => Throw (new_Error ("Failed to get history: " +:+ message e))
  | Return _ =>
      match cursorError with
      | Some e =>
          Throw (new_Error ("Failed to retrieve history: " +:+ dom_toString e))
      | None =>
          Return (withoutEmbedding <$> take (Z.to_nat limit) (openCursor_prev db))
      end
  end.

(** The time value of a returned entry's timestamp, and the order of two
    entries by it. *)
Definition entry_time (e : HistoryEntry) : option Z :=
  match entry_timestamp e with
  | DateObj (Some t) => Some t
  | _ => None
  end.

Definition not_older (a b : HistoryEntry) : Prop :=
  match entry_time a, entry_time b with
  | Some ta, Some tb => tb ≤ ta
  | _, _ => False
  end.

End StorageQueries.

(** ** Code units of a string *)

Module Text.

(** Whether the code unit [c] occurs in [s]. *)
Fixpoint occurs (c : ascii) (s : string) : bool :=
  match s with
  | EmptyString => false
  | String a r => Ascii.eqb a c || occurs c r
  end.

End Text.

(** ** model-manager.js: disposal and the token stream as a whole *)

Module ManagerLifecycle.
Import Js ModelManager.

(** [dispose]; the pipelines' own [dispose] methods are taken to return. *)
Definition dispose (m : t) : t :=
  {| llmPipeline := false; embeddingPipeline := false;
     isLlmLoaded := if llmPipeline m then false else isLlmLoaded m;
     isEmbeddingLoaded :=
       if embeddingPipeline m then false else isEmbeddingLoaded m;
     queuedPrompts := []; abortController := None; config := config m |}.

(** The token of a settled [next()]. *)
Definition token_of (r : iter_result) : string :=
  match r with
  | IYield token => token
  | _ => ""
  end.

(** The tokens [generateTokens] yields for [words], one per iteration. *)
Definition tokens (words : list string) (m : t) : list string :=
  (λ i, token_of (gen_timer words i m).2) <$> seq 0 (length words).

(** [a.join('')] *)
Definition join (l : list string) : string := foldr String.app "" l.

(** [a.join(' ')] *)
Fixpoint join_space (l : list string) : string :=
  match l with
  | [] => ""
  | [w] => w
  | w :: rest => w +:+ " " +:+ join_space rest
  end.

End ManagerLifecycle.

(** ** The chat element's history API *)

Module ChatApi.
Import Js Chat.

(** The element's [getHistory(limit)], with the array it resolves to. *)
Definition getHistory (cursorError : option Storage.DOMException) (limit : Z)
    (w : World) : World * list StorageQueries.HistoryEntry :=
  match StorageQueries.getHistory (idb (browser w)) cursorError limit
          (database w) with
  | Return results => (w, results)
  | Throw _ =>
      (console_write [(ModelManager.error, "Failed to get history:")] w, [])
  end.

(** The element's [clearHistory()]: the world afterwards, what the returned
    promise settles to, and the [count] of the [history-cleared] event if
    one is dispatched. *)
Definition clearHistory (w : World) : World * completion nat * option nat :=
  match Storage.clearHistory (idb (browser w)) (database w) with
  | (db, Return count) =>
      (set_conversationCount 0 (set_database db w), Return count, Some count)
  | (db, Throw e) =>
      (console_write [(ModelManager.error, "Failed to clear history:")]
         (set_database db w), Throw e, None)
  end.

(** What the host page can do to a connected element: cause an event of the
    element's own loop, or call the history API. *)
Inductive Call :=
| Handle (ev : Event)
| GetHistory (cursorError : option Storage.DOMException) (limit : Z)
| ClearHistory.

Definition call (c : Call) (w : World) : option World :=
  match c with
  | Handle ev => step ev w
  | GetHistory cursorError limit => Some (getHistory cursorError limit w).1
  | ClearHistory => Some (clearHistory w).1.1
  end.

Fixpoint calls (cs : list Call) (w : World) : option World :=
  match cs with
  | [] => Some w
  | c :: rest =>
      match call c w with
      | Some w' => calls rest w'
      | None => None
      end
  end.

(** The worlds a connected element can be in when the host also calls the
    history API. *)
Definition in_use (w : World) : Prop :=
  ∃ mac b db clock cs, calls cs (connected mac b db clock) = Some w.

(** Whether the generator of the pending activation, if there is one, has
    not finished. *)
Definition generator_live (ro : option Run) : bool :=
  match ro with
  | Some r =>
      match generator r with
      | ModelManager.GClosed => false
      | _ => true
      end
  | None => false
  end.

(** [abortController !== null] *)
Definition controller_set (m : ModelManager.t) : bool :=
  match ModelManager.abortController m with
  | Some _ => true
  | None => false
  end.

(** The range the [inferenceTimeout] setter clamps to. *)
Definition timeout_in_range (ms : Z) : Prop := 1000 ≤ ms ≤ 120000.

(** The session, the manager and the pending activation [ro] fit together:
    [isGenerating] is set only while an activation is pending, the abort
    controller exists exactly while a generator has not finished, and the
    timeouts, the configured one and the one a pending wrapper runs under,
    are in range. *)
Definition coherent_with (ro : option Run) (w : World) : Prop :=
  (isGenerating (state w) = true → is_Some ro)
  ∧ controller_set (manager w) = generator_live ro
  ∧ timeout_in_range (ModelManager.inferenceTimeout (ModelManager.config (manager w)))
  ∧ match ro with
    | Some r => timeout_in_range (ModelManager.timeoutMs (wrapper r))
    | None => True
    end.

Definition coherent (w : World) : Prop := coherent_with (run w) w.

(** A stream that is done or has thrown comes from a finished generator. *)
Definition settles (res : ModelManager.iter_result) (r : Run) : Prop :=
  match res with
  | ModelManager.IDone | ModelManager.IThrow _ =>
      generator r = ModelManager.GClosed
  | _ => True
  end.

(** The running total is the number of stored records. *)
Definition count_ok (w : World) : Prop :=
  conversationCount w = Z.of_nat (size (database w)).

(** [n] tokens arriving on time: each timer fires 30 ms after it was set. *)
Definition token_timers (n : nat) : list Event :=
  mjoin (replicate n [Tick 30; TokenTimer]).

End ChatApi.

(** ** The record schema in the specification's words *)

Module Spec.
Import Js.

(** a numeric id *)
Definition numeric (v : value) : Prop := ∃ z, v = Num z.

(** text of [lo] to [hi] characters after trimming *)
Definition trimmed_text (lo hi : Z) (v : value) : Prop :=
  ∃ s, v = Str s ∧ lo ≤ str_length (trim s) ≤ hi.

(** a non-empty identifier of the generation capability *)
Definition model_version (v : value) : Prop := ∃ s, v = Str s ∧ s ≠ "".

(** a timestamp not later than the moment [now]; an invalid date has no
    time value and is later than nothing *)
Definition not_later_than (now : Z) (v : value) : Prop :=
  ∃ t, v = DateObj t ∧ ∀ t', t = Some t' → t' ≤ now.

(** every field check that section 3 lists for a record *)
Definition well_formed (now : Z) (c : Storage.ConversationPair) : Prop :=
  numeric (Storage.id c)
  ∧ trimmed_text 1 10000 (Storage.prompt c)
  ∧ trimmed_text 1 100000 (Storage.response c)
  ∧ model_version (Storage.modelVersion c)
  ∧ not_later_than now (Storage.timestamp c).

End Spec.

(** ** Concrete inputs used by the examples below *)

Module Samples.
Import Js.

(** A record as [_saveConversation] builds it, with the embedding left to
    the caller. *)
Definition sample (emb : value) : Storage.ConversationPair :=
  {| Storage.id := Num 1700000000000;
     Storage.prompt := Str "ping";
     Storage.response := Str "pong";
     Storage.embedding := emb;
     Storage.modelVersion := Str "mvp-mock";
     Storage.timestamp := DateObj (Some 1700000000000) |}.

(** The same record with a response of blanks only. *)
Definition blank_response : Storage.ConversationPair :=
  {| Storage.id := Num 1700000000000;
     Storage.prompt := Str "ping";
     Storage.response := Str "   ";
     Storage.embedding := Undefined;
     Storage.modelVersion := Str "mvp-mock";
     Storage.timestamp := DateObj (Some 1700000000000) |}.

(** A store holding two records. *)
Definition two_records : gmap Z Storage.ConversationPair :=
  {[ 7 := sample Undefined; 9 := sample Undefined ]}.

(** Browsers: a healthy one, one whose store is full, and one whose
    feature-extraction pipeline fails when called. *)
Definition healthy : Chat.Browser :=
  {| Chat.idb := Storage.idb_ok; Chat.embedded := Return 384%nat |}.

Definition full_store : Chat.Browser :=
  {| Chat.idb := Storage.quota_exceeded; Chat.embedded := Return 384%nat |}.

Definition failing_embedder : Chat.Browser :=
  {| Chat.idb := Storage.idb_ok;
     Chat.embedded := Throw (new_Error "Session already released") |}.

Definition key_of (k : string) : Chat.KeyEvent :=
  {| Chat.key := k; Chat.metaKey := false; Chat.ctrlKey := false;
     Chat.shiftKey := false |}.

Definition enter : Chat.KeyEvent := key_of "Enter".
Definition escape : Chat.KeyEvent := key_of "Escape".

(** Cmd-K on a Mac. *)
Definition hotkey : Chat.KeyEvent :=
  {| Chat.key := "k"; Chat.metaKey := true; Chat.ctrlKey := false;
     Chat.shiftKey := false |}.

(** What the text-generation pipeline returns: the full prompt followed by
    the generated text. *)
Definition generated (prompt text : string) : completion string :=
  Return (ModelManager.fullPrompt_of ModelManager.init prompt +:+ text).

(** A string of [n] letters. *)
Fixpoint letters (n : nat) : string :=
  match n with
  | O => ""
  | S k => String "a" (letters k)
  end.

(** The element is connected on a Mac at clock 1000 over an empty store; the
    model is loaded; the user summons the widget. *)
Definition summon : list Chat.Event :=
  [Chat.ModelUrlSet (Some "onnx-community/gemma-3-270m-it-ONNX");
   Chat.Tick 4000;
   Chat.ModelLoadSettled (Return tt) (Return tt);
   Chat.KeyDown hotkey;
   Chat.Tick 100;
   Chat.ListenerTimer].

Definition start (b : Chat.Browser) : Chat.World := Chat.connected true b ∅ 1000.

(** "tell a story" is submitted; the pipeline answers after 500 ms; three
    fragments are shown. *)
Definition story_three_fragments : list Chat.Event :=
  summon ++
  [Chat.InputTyped "tell a story";
   Chat.InputKeyDown enter;
   Chat.Tick 500;
   Chat.PipelineSettled (generated "tell a story" "once upon a time there");
   Chat.Tick 30; Chat.TokenTimer;
   Chat.Tick 270; Chat.MinLoadingTimer;
   Chat.Tick 30; Chat.TokenTimer;
   Chat.Tick 30; Chat.TokenTimer].

(** The user presses Escape 10 ms later. *)
Definition story_until_escape : list Chat.Event :=
  story_three_fragments ++ [Chat.Tick 10; Chat.KeyDown escape].

(** The timer that was pending at the Escape fires. *)
Definition story_after_escape : list Chat.Event :=
  story_until_escape ++ [Chat.Tick 20; Chat.TokenTimer].

(** "ping" is submitted and answered "pong". *)
Definition ping_pong : list Chat.Event :=
  summon ++
  [Chat.InputTyped "ping";
   Chat.InputKeyDown enter;
   Chat.Tick 500;
   Chat.PipelineSettled (generated "ping" "pong");
   Chat.Tick 30; Chat.TokenTimer;
   Chat.Tick 270; Chat.MinLoadingTimer].

(** The same with the embedding model loaded first. *)
Definition ping_pong_embedding : list Chat.Event :=
  Chat.EmbeddingUrlSet (Some "onnx-community/embeddinggemma-300m-ONNX") (Return tt)
  :: ping_pong.

(** A timeout of one second; "ping" is submitted; the pipeline never
    answers; five seconds pass. *)
Definition ping_hangs : list Chat.Event :=
  summon ++
  [Chat.InferenceTimeoutSet 1000;
   Chat.InputTyped "ping";
   Chat.InputKeyDown enter;
   Chat.Tick 5000].

(** The pipeline answers at last; the first token's timer fires. *)
Definition ping_answers_late : list Chat.Event :=
  ping_hangs ++
  [Chat.PipelineSettled (generated "ping" "pong"); Chat.Tick 30; Chat.TokenTimer].

(** "hi" and "there" are submitted while the model loads. *)
Definition two_submitted : list Chat.Event :=
  [Chat.ModelUrlSet (Some "onnx-community/gemma-3-270m-it-ONNX");
   Chat.KeyDown hotkey;
   Chat.InputTyped "hi"; Chat.InputKeyDown enter;
   Chat.InputTyped "there"; Chat.InputKeyDown enter].

(** The load completes. *)
Definition two_queued : list Chat.Event :=
  two_submitted ++ [Chat.Tick 4000; Chat.ModelLoadSettled (Return tt) (Return tt)].

(** The generation the load started is answered "hello" and runs to its
    end. *)
Definition two_queued_done : list Chat.Event :=
  two_queued ++
  [Chat.Tick 500;
   Chat.PipelineSettled (generated "hi" "hello");
   Chat.Tick 30; Chat.TokenTimer;
   Chat.Tick 270; Chat.MinLoadingTimer].

(** The widget is summoned and the input holds [text]. *)
Definition typed (text : string) : list Chat.Event :=
  summon ++ [Chat.InputTyped text].

(** The world a trace leads to from [start b] (the start itself, should the
    trace not run). *)
Definition world_after (evs : list Chat.Event) (b : Chat.Browser) : Chat.World :=
  default (start b) (Chat.steps evs (start b)).

(** The model is loading, "hi" is queued and "there" is typed. *)
Definition hi_queued_there_typed : Chat.World :=
  world_after
    [Chat.ModelUrlSet (Some "onnx-community/gemma-3-270m-it-ONNX");
     Chat.KeyDown hotkey;
     Chat.InputTyped "hi"; Chat.InputKeyDown enter;
     Chat.InputTyped "there"] healthy.

(** The widget summoned over a loaded model, 800 ms later. *)
Definition summoned : Chat.World :=
  world_after (summon ++ [Chat.Tick 800]) healthy.

(** The locals of a generation of "pong" for "ping" at the end of its
    stream. *)
Definition pong_run : Chat.Run :=
  {| Chat.run_prompt := "ping"; Chat.fullResponse := "pong";
     Chat.tokenCount := 1; Chat.run_startTime := 5100;
     Chat.phase := Chat.Streaming;
     Chat.wrapper := {| ModelManager.timeoutMs := 30000;
                        ModelManager.startTime := 5100 |};
     Chat.generator := ModelManager.GClosed;
     Chat.resumes_loadModels := false |}.

End Samples.

(** ** More concrete inputs *)

Module MoreSamples.
Import Js.

(** A record half a second younger than [Samples.sample]. *)
Definition later_sample : Storage.ConversationPair :=
  {| Storage.id := Num 1700000000500;
     Storage.prompt := Str "marco";
     Storage.response := Str "polo";
     Storage.embedding := Float32Array 384;
     Storage.modelVersion := Str "mvp-mock";
     Storage.timestamp := DateObj (Some 1700000000500) |}.

(** A database that cannot be opened for lack of space, and a browser over
    it. *)
Definition quota_on_open : Storage.IdbEnv :=
  {| Storage.openError := Some {| Storage.dom_name := "QuotaExceededError";
                                  Storage.dom_message := "The quota has been exceeded." |};
     Storage.addError := None;
     Storage.countError := None; Storage.clearError := None |}.

Definition full_on_open : Chat.Browser :=
  {| Chat.idb := quota_on_open; Chat.embedded := Return 384%nat |}.

(** A session of the host page: a story is asked for and interrupted with
    Escape, then the history is read and cleared. *)
Definition session : list ChatApi.Call :=
  (ChatApi.Handle <$> Samples.story_after_escape)
  ++ [ChatApi.GetHistory None 10; ChatApi.ClearHistory].

(** The same session up to the Escape: the generation is still pending. *)
Definition interrupted : list ChatApi.Call :=
  ChatApi.Handle <$> Samples.story_until_escape.

(** A story is being streamed: three fragments are shown and the fourth is
    awaited. *)
Definition streaming : list ChatApi.Call :=
  ChatApi.Handle <$> Samples.story_three_fragments.

(** A timeout of one second, "ping" submitted, and a pipeline that has not
    answered after five seconds. *)
Definition tight : list ChatApi.Call := ChatApi.Handle <$> Samples.ping_hangs.

(** The widget summoned over a loaded model with "tell a story" typed. *)
Definition story_typed : Chat.World :=
  Samples.world_after (Samples.typed "tell a story") Samples.healthy.

(** The pipeline of [tight] has answered at last and the timer of the first
    token is due; the locals of the pending activation. *)
Definition ping_late : Chat.World :=
  Samples.world_after
    (Samples.ping_hangs
     ++ [Chat.PipelineSettled (Samples.generated "ping" "pong"); Chat.Tick 30])
    Samples.healthy.

(** "ping" was submitted 100 ms ago and the pipeline has not answered; the
    locals of the pending activation. *)
Definition ping_waiting : Chat.World :=
  Samples.world_after
    (Samples.summon
     ++ [Chat.InputTyped "ping"; Chat.InputKeyDown Samples.enter; Chat.Tick 100])
    Samples.healthy.

Definition ping_waiting_run : Chat.Run :=
  {| Chat.run_prompt := "ping"; Chat.fullResponse := "";
     Chat.tokenCount := 0; Chat.run_startTime := 5100;
     Chat.phase := Chat.AwaitFirst None (Some 5900);
     Chat.wrapper := {| ModelManager.timeoutMs := 30000;
                        ModelManager.startTime := 5100 |};
     Chat.generator :=
       ModelManager.GPipeline
         (ModelManager.fullPrompt_of ModelManager.init "ping");
     Chat.resumes_loadModels := false |}.

Definition ping_late_run : Chat.Run :=
  {| Chat.run_prompt := "ping"; Chat.fullResponse := "";
     Chat.tokenCount := 0; Chat.run_startTime := 5100;
     Chat.phase := Chat.AwaitFirst None (Some 5900);
     Chat.wrapper := {| ModelManager.timeoutMs := 1000;
                        ModelManager.startTime := 5100 |};
     Chat.generator := ModelManager.GDelay ["pong"] 0 10130;
     Chat.resumes_loadModels := false |}.

(** "hi" was queued while the model loaded, and the load has failed. *)
Definition load_failing : list Chat.Event :=
  [Chat.ModelUrlSet (Some "onnx-community/gemma-3-270m-it-ONNX");
   Chat.KeyDown Samples.hotkey;
   Chat.InputTyped "hi"; Chat.InputKeyDown Samples.enter;
   Chat.Tick 4000].

Definition load_pending_hi : Chat.World :=
  Samples.world_after load_failing Samples.healthy.

Definition not_found : Js.Error := new_Error "404 Not Found".

Definition load_failed_hi : Chat.World :=
  Samples.world_after
    (load_failing ++ [Chat.ModelLoadSettled (Throw not_found) (Return tt)])
    Samples.healthy.

(** The same load, with [model-url] set to another model while it is under
    way, and its failure. *)
Definition load_moved : list Chat.Event :=
  load_failing ++ [Chat.ModelUrlSet (Some "onnx-community/Qwen3-0.6B-ONNX")].

Definition load_pending_moved : Chat.World :=
  Samples.world_after load_moved Samples.healthy.

Definition load_failed_moved : Chat.World :=
  Samples.world_after
    (load_moved ++ [Chat.ModelLoadSettled (Throw not_found) (Return tt)])
    Samples.healthy.

(** A browser whose embedding model answers with 768 numbers, and the
    widget over it with both models loaded. *)
Definition wide_embedder : Chat.Browser :=
  {| Chat.idb := Storage.idb_ok; Chat.embedded := Return 768%nat |}.

Definition wide_world : Chat.World :=
  Samples.world_after
    (Chat.EmbeddingUrlSet (Some "onnx-community/embeddinggemma-300m-ONNX")
       (Return tt) :: Samples.summon)
    wide_embedder.

End MoreSamples.

(** ** Strings *)

Module JsFacts.
Import Js.

Lemma str_app_cons (c : ascii) (s1 s2 : string) :
  String c s1 +:+ s2 = String c (s1 +:+ s2).
Proof. reflexivity. Qed.

Lemma str_app_assoc (s1 s2 s3 : string) :
  (s1 +:+ s2) +:+ s3 = s1 +:+ (s2 +:+ s3).
Proof.
  induction s1 as [|c s1 IH]; [done|]. by rewrite !str_app_cons, IH.
Qed.

Lemma str_rev_app (s1 s2 : string) :
  String.rev_app s1 s2 = String.rev s1 +:+ s2.
Proof.
  revert s2. induction s1 as [|c s1 IH]; intros s2; [done|].
  unfold String.rev. simpl. rewrite (IH (String c s2)), (IH (String c "")).
  by rewrite str_app_assoc.
Qed.

Lemma str_rev_cons (c : ascii) (s : string) :
  String.rev (String c s) = String.rev s +:+ String c "".
Proof. unfold String.rev at 1. simpl. apply str_rev_app. Qed.

Lemma str_rev_snoc (c : ascii) (s : string) :
  String.rev (s +:+ String c "") = String c (String.rev s).
Proof.
  induction s as [|a s IH]; [done|].
  rewrite str_app_cons, str_rev_cons, IH, str_app_cons. by rewrite <- str_rev_cons.
Qed.

Lemma str_rev_involutive (s : string) : String.rev (String.rev s) = s.
Proof.
  induction s as [|c s IH]; [done|]. by rewrite str_rev_cons, str_rev_snoc, IH.
Qed.

Lemma trimStart_idempotent (s : string) : trimStart (trimStart s) = trimStart s.
Proof.
  induction s as [|c s IH]; [done|]. simpl.
  destruct (isWhiteSpace c) eqn:Hc; [done|]. simpl. by rewrite Hc.
Qed.

(** What [trimStart] leaves is empty or starts with a character that is not
    white space. *)
Lemma trimStart_head (s : string) :
  trimStart s = "" ∨ ∃ c r, trimStart s = String c r ∧ isWhiteSpace c = false.
Proof.
  induction s as [|c s IH]; [by left|]. simpl.
  destruct (isWhiteSpace c) eqn:Hc; [done|]. right. eauto.
Qed.

Lemma trimStart_snoc (u : string) (c : ascii) :
  isWhiteSpace c = false → ∃ v, trimStart (u +:+ String c "") = v +:+ String c "".
Proof.
  intros Hc. induction u as [|a u IH].
  - change ("" +:+ String c "") with (String c ""). simpl. rewrite Hc. by exists "".
  - rewrite str_app_cons. simpl.
    destruct (isWhiteSpace a); [done|]. by exists (String a u).
Qed.

Lemma trimEnd_idempotent (s : string) : trimEnd (trimEnd s) = trimEnd s.
Proof. unfold trimEnd. by rewrite str_rev_involutive, trimStart_idempotent. Qed.

Lemma trimEnd_keeps_head (c : ascii) (s : string) :
  isWhiteSpace c = false → ∃ v, trimEnd (String c s) = String c v.
Proof.
  intros Hc. unfold trimEnd. rewrite str_rev_cons.
  destruct (trimStart_snoc (String.rev s) c Hc) as (v & ->).
  rewrite str_rev_snoc. eauto.
Qed.

(** Trimming a trimmed string changes nothing. *)
Lemma trim_idempotent (s : string) : trim (trim s) = trim s.
Proof.
  unfold trim. destruct (trimStart_head s) as [->|(c & r & -> & Hc)]; [done|].
  destruct (trimEnd_keeps_head c r Hc) as (v & Hv).
  rewrite Hv. simpl. rewrite Hc. rewrite <- Hv. apply trimEnd_idempotent.
Qed.

End JsFacts.

(** ** The record store *)

Module StorageFacts.
Import Js Storage Samples.

Lemma numeric_guard v :
  negb (truthy v) || negb (is_number v) = false → ∃ z, v = Num z ∧ z ≠ 0.
Proof.
  destruct v as [| |[]| |z|?|?|?|]; simpl; rewrite ?orb_true_r; try done.
  rewrite orb_false_r, negb_involutive. intros H%Z.eqb_neq. eauto.
Qed.

Lemma string_guard v :
  negb (truthy v) || negb (is_string v) = false → ∃ s, v = Str s ∧ s ≠ "".
Proof.
  destruct v as [| |[]| |?|s|?|?|]; simpl; rewrite ?orb_true_r; try done.
  rewrite orb_false_r, negb_involutive. intros H. exists s. split; [done|].
  intros ->. discriminate.
Qed.

Lemma length_guard lo hi n :
  (n <? lo) || (hi <? n) = false → lo ≤ n ≤ hi.
Proof. intros [?%Z.ltb_ge ?%Z.ltb_ge]%orb_false_elim. lia. Qed.

(** What a record that passes [validateConversationPair] looks like. *)
Lemma validate_Return_inv now c :
  validateConversationPair now c = Return tt →
  (∃ key, id c = Num key ∧ key ≠ 0)
  ∧ Spec.trimmed_text 1 10000 (prompt c)
  ∧ Spec.trimmed_text 1 100000 (response c)
  ∧ (truthy (embedding c) = true → embedding c = Float32Array 384)
  ∧ Spec.model_version (modelVersion c)
  ∧ Spec.not_later_than now (timestamp c).
Proof.
  unfold validateConversationPair.
  destruct (_ || _) eqn:Hid; [discriminate|].
  destruct (_ || _) eqn:Hp in |- *; [discriminate|].
  destruct (_ || _) eqn:Hr in |- *; [discriminate|].
  cbv zeta.
  destruct (_ || _) eqn:Hpl in |- *; [discriminate|].
  destruct (_ || _) eqn:Hrl in |- *; [discriminate|].
  destruct (_ && _) eqn:He1 in |- *; [discriminate|].
  destruct (_ && _) eqn:He2 in |- *; [discriminate|].
  destruct (_ || _) eqn:Hm in |- *; [discriminate|].
  destruct (negb _) eqn:Hd in |- *; [discriminate|].
  destruct (match timestamp c with DateObj (Some _) => _ | _ => _ end) eqn:Ht;
    [discriminate|].
  intros _.
  apply numeric_guard in Hid. apply string_guard in Hp as (ps & Ep & _).
  apply string_guard in Hr as (rs & Er & _).
  apply string_guard in Hm. apply length_guard in Hpl, Hrl.
  rewrite Ep in Hpl. rewrite Er in Hrl. simpl in Hpl, Hrl.
  split; [done|]. split; [by exists ps|]. split; [by exists rs|].
  split; [|split; [done|]].
  - intros Htr. rewrite Htr in He2. simpl in He2.
    destruct (embedding c); try discriminate.
    apply negb_false_iff, Nat.eqb_eq in He2. by subst.
  - destruct (timestamp c) as [| | | | | |t| |]; try discriminate.
    exists t. split; [done|]. intros t' ->. by apply Z.ltb_ge in Ht.
Qed.

Lemma save_invalid env now db c e :
  validateConversationPair now c = Throw e →
  saveConversation env now db c = (db, Return {| success := false; error := Some e |}).
Proof. unfold saveConversation. by intros ->. Qed.

(** C1: a record that fails one of the field checks of the schema (numeric
    id, prompt of 1-10,000 and response of 1-100,000 characters after
    trimming, model version, timestamp not later than the validation) makes
    [saveConversation] return the error thrown by the validation, whatever
    the database would have answered, and leaves the store as it was. *)
Theorem save_validates_before_writing env now db c :
  ¬ Spec.well_formed now c →
  ∃ e, validateConversationPair now c = Throw e
       ∧ saveConversation env now db c
         = (db, Return {| success := false; error := Some e |}).
Proof.
  intros Hbad. destruct (validateConversationPair now c) as [[]|e] eqn:Hv.
  - destruct Hbad.
    apply validate_Return_inv in Hv as ((key & Hk & _) & ? & ? & _ & ? & ?).
    repeat split; try done. by exists key.
  - exists e. split; [done|]. by apply save_invalid.
Qed.

(** The record whose response is three blanks: not persisted, over a store
    that holds a record and a database that would refuse for quota. *)
Lemma save_validates_before_writing_witness :
  ¬ Spec.well_formed 1700000000005 blank_response
  ∧ ∃ e, validateConversationPair 1700000000005 blank_response = Throw e
         ∧ saveConversation quota_exceeded 1700000000005 two_records blank_response
           = (two_records, Return {| success := false; error := Some e |}).
Proof.
  assert (¬ Spec.well_formed 1700000000005 blank_response) as Hbad.
  { intros (_ & _ & (s & Hs & Hlen) & _). simpl in Hs. injection Hs as <-.
    vm_compute in Hlen. destruct Hlen as [Hlen _]. by apply Hlen. }
  split; [exact Hbad|].
  exact (save_validates_before_writing quota_exceeded 1700000000005
           two_records blank_response Hbad).
Defined.

(** A response that trims to nothing is never written. *)
Lemma empty_response_never_saved env now db c s :
  response c = Str s → trim s = "" →
  ∃ e, saveConversation env now db c
       = (db, Return {| success := false; error := Some e |}).
Proof.
  intros Hr Hs.
  destruct (validateConversationPair now c) as [[]|e] eqn:Hv.
  - apply validate_Return_inv in Hv as (_ & _ & (s' & Hs' & Hlen) & _).
    rewrite Hr in Hs'. injection Hs' as <-.
    rewrite Hs in Hlen. vm_compute in Hlen. destruct Hlen as [Hlen _].
    by destruct Hlen.
  - exists e. by apply save_invalid.
Qed.

(** A valid record over a database whose [add] fails for quota. *)
Lemma save_quota env now db c e :
  validateConversationPair now c = Return tt →
  openError env = None → addError env = Some e →
  dom_name e = "QuotaExceededError" →
  saveConversation env now db c
  = (db, Return {| success := false; error := Some quotaError |}).
Proof.
  intros Hv Ho Ha Hn. unfold saveConversation, initDatabase, objectStore_add.
  rewrite Hv, Ho, Ha, Hn.
  apply validate_Return_inv in Hv as ((key & -> & _) & _). done.
Qed.

(** A valid record over a database whose [add] fails for another reason:
    the failure carries a plain [Error]. *)
Lemma save_other_failure_is_generic env now db c e :
  validateConversationPair now c = Return tt →
  openError env = None → addError env = Some e →
  dom_name e ≠ "QuotaExceededError" →
  ∃ err, saveConversation env now db c
         = (db, Return {| success := false; error := Some err |})
         ∧ name err = "Error".
Proof.
  intros Hv Ho Ha Hn. unfold saveConversation, initDatabase, objectStore_add.
  rewrite Hv, Ho, Ha.
  apply validate_Return_inv in Hv as ((key & -> & _) & _).
  destruct (String.eqb _ _) eqn:E; [by apply String.eqb_eq in E|].
  eexists. split; done.
Qed.

(** A valid record whose id is not in the store, over a database whose
    requests succeed: the record is written under its id. *)
Lemma save_valid_record env now (db : gmap Z ConversationPair) c key :
  validateConversationPair now c = Return tt →
  openError env = None → addError env = None →
  id c = Num key → db !! key = None →
  saveConversation env now db c
  = (<[key := c]> db, Return {| success := true; error := None |}).
Proof.
  intros Hv Ho Ha Hk Hfresh. unfold saveConversation, initDatabase, objectStore_add.
  by rewrite Hv, Ho, Hk, Ha, Hfresh.
Qed.

(** A failing [add] request writes nothing. *)
Lemma save_keeps_store_on_add_error env now db c e :
  addError env = Some e → (saveConversation env now db c).1 = db.
Proof.
  intros Ha. unfold saveConversation, objectStore_add. rewrite Ha.
  repeat case_match; done.
Qed.

(** An embedding that passes validation has 384 elements. *)
Lemma only_384_accepted now c n :
  validateConversationPair now c = Return tt →
  embedding c = Float32Array n → n = 384%nat.
Proof.
  intros (_ & _ & _ & He & _)%validate_Return_inv Hn.
  rewrite Hn in He. specialize (He eq_refl). by injection He.
Qed.

(** C8: the validation run on a record whose embedding has 768 elements,
    the dimensionality of the documented embedding model: it is rejected,
    and not stored, while the same record with 384 elements passes. *)
Theorem embedding_768_rejected :
  validateConversationPair 1700000000005 (sample (Float32Array 384)) = Return tt
  ∧ validateConversationPair 1700000000005 (sample (Float32Array 768))
    = Throw (new_Error "Embedding must have 384 dimensions, got 768")
  ∧ saveConversation idb_ok 1700000000005 ∅ (sample (Float32Array 768))
    = (∅, Return {| success := false;
                    error := Some (new_Error
                      "Embedding must have 384 dimensions, got 768") |}).
Proof. repeat lazymatch goal with |- _ ∧ _ => split end; vm_compute; reflexivity. Qed.

(** C9: over a database whose requests succeed, [clearHistory] empties the
    store and returns the number of records it held; on an empty store it
    returns 0 and leaves it empty; a second run returns 0 and leaves the
    store as the first run left it. *)
Theorem clearHistory_idempotent env (db : gmap Z ConversationPair) :
  openError env = None → countError env = None → clearError env = None →
  clearHistory env db = (∅, Return (size db))
  ∧ clearHistory env ∅ = (∅, Return 0%nat)
  ∧ clearHistory env (clearHistory env db).1 = (∅, Return 0%nat)
  ∧ (clearHistory env (clearHistory env db).1).1 = (clearHistory env db).1.
Proof.
  intros Ho Hc Hl. unfold clearHistory, initDatabase. rewrite Ho, Hc, Hl. simpl.
  by rewrite map_size_empty.
Qed.

Lemma clearHistory_idempotent_witness :
  clearHistory idb_ok two_records = (∅, Return 2%nat)
  ∧ clearHistory idb_ok ∅ = (∅, Return 0%nat)
  ∧ clearHistory idb_ok (clearHistory idb_ok two_records).1 = (∅, Return 0%nat)
  ∧ (clearHistory idb_ok (clearHistory idb_ok two_records).1).1
    = (clearHistory idb_ok two_records).1.
Proof.
  exact (clearHistory_idempotent idb_ok two_records eq_refl eq_refl eq_refl).
Defined.

End StorageFacts.

(** ** The chat session *)

Module ChatFacts.
Import Js Chat Samples.

(** Running a concrete trace: each conjunct is evaluated, the equation that
    defines a world before the conjuncts that read it. *)
Ltac run_trace :=
  repeat lazymatch goal with
         | |- ∃ _, _ => eexists
         | |- _ ∧ _ => split
         end;
  vm_compute; reflexivity.

(** *** Hiding and cancelling *)

(** C10: [hide] called in any world, generating or not, leaves the session
    hidden with prompt, response and error cleared; it does not touch the
    model manager (so no [cancelGeneration], the abort controller is as it
    was), the pending generation or [isGenerating].  The not-generating test
    is made by the Escape branch of [_handleKeyboard] and by
    [_handleClickOutside], which call [hide] only when nothing is
    generating. *)
Theorem hide_is_unconditional (w : World) (meta ctrl shift : bool) :
  visibility (state (hide w)) = hidden
  ∧ currentPrompt (state (hide w)) = ""
  ∧ currentResponse (state (hide w)) = ""
  ∧ errorMessage (state (hide w)) = None
  ∧ manager (hide w) = manager w
  ∧ run (hide w) = run w
  ∧ isGenerating (state (hide w)) = isGenerating (state w)
  ∧ _handleKeyboard {| key := "Escape"; metaKey := meta; ctrlKey := ctrl;
                       shiftKey := shift |} w
    = (if isVisible w
       then if isGenerating (state w) then _cancelGeneration w else hide w
       else w)
  ∧ _handleClickOutside false w
    = (if isGenerating (state w) then w else hide w).
Proof.
  repeat split.
  - unfold _handleKeyboard. simpl. rewrite !andb_false_r.
    by destruct (isMac w).
  - unfold _handleClickOutside. simpl. by destruct (isGenerating (state w)).
Qed.

(** [hide] in the middle of the story: the session is hidden and cleared,
    and the generation is neither cancelled nor ended. *)
Example hide_while_generating :
  ∃ w, steps story_three_fragments (start healthy) = Some w
       ∧ isGenerating (state w) = true
       ∧ visibility (state (hide w)) = hidden
       ∧ isGenerating (state (hide w)) = true
       ∧ ModelManager.abortController (manager (hide w)) = Some false
       ∧ run (hide w) = run w
       ∧ run w ≠ None.
Proof.
  eexists. split; [vm_compute; reflexivity|].
  repeat lazymatch goal with |- _ ∧ _ => split end; vm_compute; done.
Qed.

(** What [_cancelGeneration] itself does: the manager's [cancelGeneration]
    is called, the prompt is kept, the response area is emptied, the session
    shows the input, and nothing is written. *)
Lemma cancel_immediate_effect (w : World) :
  manager (_cancelGeneration w) = ModelManager.cancelGeneration (manager w)
  ∧ currentPrompt (state (_cancelGeneration w)) = currentPrompt (state w)
  ∧ visibility (state (_cancelGeneration w)) = input_visible
  ∧ isGenerating (state (_cancelGeneration w)) = false
  ∧ response_content (dom (_cancelGeneration w)) = Text ""
  ∧ database (_cancelGeneration w) = database w
  ∧ run (_cancelGeneration w) = run w.
Proof. repeat split. Qed.

(** C2: "tell a story" is cancelled with Escape after three fragments.  Right
    after the key the session shows the input with the prompt kept, the
    abort controller is aborted and nothing is stored; but when the pending
    30 ms timer fires, a fourth fragment is appended, the aborted generator
    ends silently, and the code after the loop runs as for a completed
    generation: the partial response is stored and the session shows it. *)
Theorem cancelled_generation_is_saved :
  ∃ w1 w2,
    steps story_until_escape (start healthy) = Some w1
    ∧ visibility (state w1) = input_visible
    ∧ currentPrompt (state w1) = "tell a story"
    ∧ ModelManager.abortController (manager w1) = Some true
    ∧ database w1 = ∅
    ∧ steps story_after_escape (start healthy) = Some w2
    ∧ visibility (state w2) = response_visible
    ∧ currentPrompt (state w2) = "tell a story"
    ∧ currentResponse (state w2) = "once upon a time "
    ∧ database w2
      = {[ 5990 := {| Storage.id := Num 5990;
                      Storage.prompt := Str "tell a story";
                      Storage.response := Str "once upon a time ";
                      Storage.embedding := Float32Array 384;
                      Storage.modelVersion := Str "mvp-mock";
                      Storage.timestamp := DateObj (Some 5990) |} ]}.
Proof. run_trace. Qed.

(** *** The timeout *)

(** Time passing changes the clock and nothing else. *)
Lemma tick_only_moves_the_clock (ms : N) (w : World) :
  ∃ w', step (Tick ms) w = Some w'
        ∧ now w' = now w + Z.of_N ms
        ∧ state w' = state w ∧ dom w' = dom w ∧ manager w' = manager w
        ∧ run w' = run w ∧ dispatched w' = dispatched w
        ∧ database w' = database w.
Proof. eexists. repeat split. Qed.

(** However long nothing but time passes, nothing else changes. *)
Lemma ticks_change_only_the_clock (l : list N) (w : World) :
  ∃ w', steps (Tick <$> l) w = Some w'
        ∧ state w' = state w ∧ manager w' = manager w
        ∧ run w' = run w ∧ dispatched w' = dispatched w
        ∧ database w' = database w.
Proof.
  revert w. induction l as [|ms l IH]; intros w.
  - by exists w.
  - destruct (IH (set_now (now w + Z.of_N ms) w)) as (w' & Hs & ?).
    exists w'. split; [|done]. simpl. exact Hs.
Qed.

(** A token that arrives after the budget: the wrapper cancels, closes the
    generator and throws the timeout error. *)
Lemma late_token_times_out now ws g token m :
  ModelManager.timeoutMs ws < now - ModelManager.startTime ws →
  ModelManager.wrap_on_inner now ws g (ModelManager.IYield token) m
  = (ModelManager.gen_finally (ModelManager.cancelGeneration m),
     ModelManager.GClosed,
     ModelManager.IThrow (ModelManager.timeout_error (ModelManager.timeoutMs ws))).
Proof.
  intros H. unfold ModelManager.wrap_on_inner.
  apply Z.ltb_lt in H. by rewrite H.
Qed.

(** Running one trace after another. *)
Lemma steps_app (evs1 evs2 : list Event) (w : World) :
  steps (evs1 ++ evs2) w = steps evs1 w ≫= steps evs2.
Proof.
  revert w. induction evs1 as [|ev evs1 IH]; intros w; simpl; [done|].
  destruct (step ev w); [apply IH|done].
Qed.

(** C3: with a timeout of 1000 ms, "ping" is submitted and the pipeline
    does not answer.  Five seconds after the first pull the clock is 4000 ms
    past the budget, and no error is shown, the abort controller is not
    aborted, and the session is still generating: the elapsed time is only
    looked at when a token arrives.  If the pipeline answers then, the
    timeout is raised by the first token, 5030 ms after the first pull. *)
Theorem hung_stream_is_not_timed_out :
  ∃ w r w',
    steps ping_hangs (start healthy) = Some w
    ∧ run w = Some r
    ∧ ModelManager.timeoutMs (wrapper r) = 1000
    ∧ now w - ModelManager.startTime (wrapper r) = 5000
    ∧ errorMessage (state w) = None
    ∧ visibility (state w) = generating
    ∧ isGenerating (state w) = true
    ∧ ModelManager.abortController (manager w) = Some false
    ∧ dispatched w
      = [model_loading "onnx-community/gemma-3-270m-it-ONNX";
         model_progress 0; model_progress 100;
         model_loaded "onnx-community/gemma-3-270m-it-ONNX";
         chat_activated; generation_started "ping"]
    ∧ steps ping_answers_late (start healthy) = Some w'
    ∧ now w' - ModelManager.startTime (wrapper r) = 5030
    ∧ errorMessage (state w') = Some "Inference timeout after 1000ms"
    ∧ currentPrompt (state w') = "ping"
    ∧ run w' = None.
Proof. run_trace. Qed.

(** The world five seconds into the silent generation. *)
Lemma hung_stream_shown :
  ∃ w r,
    steps ping_hangs (start healthy) = Some w
    ∧ run w = Some r
    ∧ ModelManager.timeoutMs (wrapper r) = 1000
    ∧ errorMessage (state w) = None
    ∧ visibility (state w) = generating
    ∧ ModelManager.abortController (manager w) = Some false.
Proof. run_trace. Qed.

(** However long the pipeline stays silent, the timeout is not raised. *)
Lemma hung_stream_never_times_out (l : list N) :
  ∃ w r,
    steps (ping_hangs ++ (Tick <$> l)) (start healthy) = Some w
    ∧ run w = Some r
    ∧ ModelManager.timeoutMs (wrapper r) = 1000
    ∧ errorMessage (state w) = None
    ∧ visibility (state w) = generating
    ∧ ModelManager.abortController (manager w) = Some false.
Proof.
  destruct hung_stream_shown as (w0 & r & Hw0 & Hr & Ht & He & Hv & Ha).
  destruct (ticks_change_only_the_clock l w0) as (w & Hw & Hst & Hm & Hrun & _).
  exists w, r. rewrite steps_app, Hw0. simpl.
  rewrite Hst, Hm, Hrun. done.
Qed.

(** *** Submitting a prompt *)

Lemma eqb_empty_false s : s ≠ "" → String.eqb s "" = false.
Proof. intros H. destruct s; [done|reflexivity]. Qed.

Lemma long_is_not_empty s : 1 ≤ str_length s → s ≠ "".
Proof. intros H ->. vm_compute in H. by apply H. Qed.

Lemma trimmed_is_not_empty s : 1 ≤ str_length (trim s) → s ≠ "".
Proof. intros H ->. vm_compute in H. by apply H. Qed.

(** An input that trims to nothing: [_submitPrompt] returns at once. *)
Lemma submit_ignores_empty (w : World) :
  trim (input_value (dom w)) = "" → _submitPrompt w = w.
Proof. intros Hp. unfold _submitPrompt. by rewrite Hp. Qed.

(** An input longer than 10,000 characters after trimming: [_showError]. *)
Lemma submit_rejects_long (w : World) :
  10000 < str_length (trim (input_value (dom w))) →
  _submitPrompt w = _showError "Prompt too long (max 10,000 characters)" w.
Proof.
  intros Hlong. unfold _submitPrompt.
  rewrite eqb_empty_false by (apply long_is_not_empty; lia).
  apply Z.ltb_lt in Hlong. by rewrite Hlong.
Qed.

(** An accepted input while the model is not loaded: queued behind the
    prompts already waiting. *)
Lemma submit_queues (w : World) (p : string) :
  trim (input_value (dom w)) = p → p ≠ "" → str_length p ≤ 10000 →
  ModelManager.isLlmLoaded (manager w) = false →
  currentPrompt (state (_submitPrompt w)) = p
  ∧ visibility (state (_submitPrompt w)) = generating
  ∧ ModelManager.queuedPrompts (manager (_submitPrompt w))
    = ModelManager.queuedPrompts (manager w) ++ [p]
  ∧ dispatched (_submitPrompt w) = dispatched w ++ [model_loading_needed p]
  ∧ run (_submitPrompt w) = run w
  ∧ modelUrl (_submitPrompt w) = modelUrl w.
Proof.
  intros Hp Hne Hlen Hl. unfold _submitPrompt.
  rewrite Hp, (eqb_empty_false _ Hne).
  apply Z.ltb_ge in Hlen. rewrite Hlen. simpl. rewrite Hl. done.
Qed.

(** An accepted input over a loaded model: the generation starts. *)
Lemma submit_starts (w : World) (p : string) :
  trim (input_value (dom w)) = p → p ≠ "" → str_length p ≤ 10000 →
  ModelManager.isLlmLoaded (manager w) = true →
  ModelManager.llmPipeline (manager w) = true →
  currentPrompt (state (_submitPrompt w)) = p
  ∧ visibility (state (_submitPrompt w)) = generating
  ∧ isGenerating (state (_submitPrompt w)) = true
  ∧ dispatched (_submitPrompt w) = dispatched w ++ [generation_started p]
  ∧ ∃ r, run (_submitPrompt w) = Some r ∧ run_prompt r = p.
Proof.
  intros Hp Hne Hlen Hl Hpipe. unfold _submitPrompt.
  rewrite Hp, (eqb_empty_false _ Hne).
  apply Z.ltb_ge in Hlen. rewrite Hlen. simpl. rewrite Hl. simpl.
  unfold _generateResponse, ModelManager.wrap_start, ModelManager.gen_start.
  simpl. rewrite Hl, Hpipe. simpl. repeat split. eauto.
Qed.

(** C5, as the code has it: an input that trims to nothing is ignored, the
    world is unchanged and no error is shown; an input of more than 10,000
    characters after trimming is rejected through [_showError], which sets
    the error message and moves the session to [response_visible], while
    the prompt, the manager (nothing queued), the pending generation and the
    notifications stay as they were; any other input is accepted: it
    becomes [currentPrompt] and the session is [generating], the prompt
    queued when the model is not loaded and its generation started when it
    is. *)
Theorem submit_validation (w : World) :
  let p := trim (input_value (dom w)) in
  (p = "" → _submitPrompt w = w)
  ∧ (10000 < str_length p →
       visibility (state (_submitPrompt w)) = response_visible
       ∧ errorMessage (state (_submitPrompt w))
         = Some "Prompt too long (max 10,000 characters)"
       ∧ currentPrompt (state (_submitPrompt w)) = currentPrompt (state w)
       ∧ manager (_submitPrompt w) = manager w
       ∧ run (_submitPrompt w) = run w
       ∧ dispatched (_submitPrompt w) = dispatched w)
  ∧ (p ≠ "" → str_length p ≤ 10000 →
       currentPrompt (state (_submitPrompt w)) = p
       ∧ (ModelManager.isLlmLoaded (manager w) = false →
            visibility (state (_submitPrompt w)) = generating
            ∧ ModelManager.queuedPrompts (manager (_submitPrompt w))
              = ModelManager.queuedPrompts (manager w) ++ [p]
            ∧ dispatched (_submitPrompt w)
              = dispatched w ++ [model_loading_needed p])
       ∧ (ModelManager.isLlmLoaded (manager w) = true →
          ModelManager.llmPipeline (manager w) = true →
            visibility (state (_submitPrompt w)) = generating
            ∧ isGenerating (state (_submitPrompt w)) = true
            ∧ dispatched (_submitPrompt w)
              = dispatched w ++ [generation_started p]
            ∧ ∃ r, run (_submitPrompt w) = Some r ∧ run_prompt r = p)).
Proof.
  intros p. split; [|split].
  - apply submit_ignores_empty.
  - intros Hlong. rewrite (submit_rejects_long w Hlong). repeat split.
  - intros Hne Hlen.
    destruct (ModelManager.isLlmLoaded (manager w)) eqn:Hl.
    + split; [|split; [done|]].
      * destruct (ModelManager.llmPipeline (manager w)) eqn:Hpipe.
        -- by destruct (submit_starts w p eq_refl Hne Hlen Hl Hpipe).
        -- unfold _submitPrompt. fold p. rewrite (eqb_empty_false _ Hne).
           apply Z.ltb_ge in Hlen. rewrite Hlen. simpl. rewrite Hl. simpl.
           unfold _generateResponse, ModelManager.wrap_start, ModelManager.gen_start.
           simpl. by rewrite Hl, Hpipe.
      * intros _ Hpipe.
        destruct (submit_starts w p eq_refl Hne Hlen Hl Hpipe) as (_ & ? & ? & ? & ?).
        done.
    + destruct (submit_queues w p eq_refl Hne Hlen Hl) as (? & ? & ? & ? & _).
      split; [done|]. split; [done|]. intros [=].
Qed.

(** C5 as stated fails: with 10,001 letters in the input the session is in
    [input_visible] before Enter and in [response_visible] after it, so a
    transition occurs; with three blanks in the input, Enter changes
    nothing and no error is shown, so no validation error is surfaced. *)
Lemma rejected_submit_counterexample :
  ∃ w1 w1' w2,
    steps (typed (letters (N.to_nat 10001))) (start healthy) = Some w1
    ∧ visibility (state w1) = input_visible
    ∧ step (InputKeyDown enter) w1 = Some w1'
    ∧ visibility (state w1') = response_visible
    ∧ errorMessage (state w1') = Some "Prompt too long (max 10,000 characters)"
    ∧ steps (typed "   ") (start healthy) = Some w2
    ∧ step (InputKeyDown enter) w2 = Some w2
    ∧ errorMessage (state w2) = None
    ∧ cls_error (dom w2) = false.
Proof. run_trace. Qed.

(** The boundary: 10,000 letters are accepted, 10,001 are not. *)
Example prompt_boundary :
  ∃ w1 w2,
    steps (typed (letters (N.to_nat 10000)) ++ [InputKeyDown enter]) (start healthy)
    = Some w1
    ∧ visibility (state w1) = generating
    ∧ str_length (currentPrompt (state w1)) = 10000
    ∧ errorMessage (state w1) = None
    ∧ steps (typed (letters (N.to_nat 10001)) ++ [InputKeyDown enter]) (start healthy)
      = Some w2
    ∧ currentPrompt (state w2) = ""
    ∧ run w2 = None
    ∧ errorMessage (state w2) = Some "Prompt too long (max 10,000 characters)".
Proof. run_trace. Qed.

(** *** Saving at the end of a generation *)

Lemma saveConversation_frame prompt response w :
  state (_saveConversation prompt response w).1 = state w
  ∧ dom (_saveConversation prompt response w).1 = dom w
  ∧ manager (_saveConversation prompt response w).1 = manager w
  ∧ run (_saveConversation prompt response w).1 = run w
  ∧ dispatched (_saveConversation prompt response w).1 = dispatched w
  ∧ now (_saveConversation prompt response w).1 = now w.
Proof.
  unfold _saveConversation. repeat case_match; simpl; done.
Qed.

Lemma saveConversation_add_error prompt response w e :
  Storage.addError (idb (browser w)) = Some e →
  database (_saveConversation prompt response w).1 = database w
  ∧ conversationCount (_saveConversation prompt response w).1 = conversationCount w
  ∧ (_saveConversation prompt response w).2 = false.
Proof.
  intros Ha. unfold _saveConversation.
  destruct (ModelManager.generateEmbedding _ _) as [[emb|err] lines]; [|done].
  match goal with |- context [Storage.saveConversation ?env ?n ?db ?c] =>
    assert (Storage.addError env = Some e) as Ha' by exact Ha;
    pose proof (StorageFacts.save_keeps_store_on_add_error env n db c e Ha') as Hdb;
    assert (∀ r, (Storage.saveConversation env n db c).2 = Return r →
                 Storage.success r = false) as Hs
  end.
  { intros r. unfold Storage.saveConversation, Storage.objectStore_add.
    rewrite Ha'. repeat case_match; simpl; intros; simplify_eq; done. }
  destruct (Storage.saveConversation _ _ _ _) as [db [res|err]]; simpl in *; subst db.
  - rewrite (Hs res eq_refl). repeat case_match; done.
  - done.
Qed.

(** The end of a generation over a store whose [add] fails. *)
Lemma complete_add_error (r : Run) (w : World) (e : Storage.DOMException) :
  Storage.addError (idb (browser w)) = Some e →
  database (_generateResponse_complete r w) = database w
  ∧ conversationCount (_generateResponse_complete r w) = conversationCount w
  ∧ dom (_generateResponse_complete r w) = dom w
  ∧ currentResponse (state (_generateResponse_complete r w)) = fullResponse r
  ∧ visibility (state (_generateResponse_complete r w)) = response_visible
  ∧ errorMessage (state (_generateResponse_complete r w)) = errorMessage (state w).
Proof.
  intros Ha. unfold _generateResponse_complete. cbv zeta.
  destruct (0 <? _) eqn:Hlen.
  - set (w1 := upd_state _ (upd_state _ (upd_state _ w))).
    destruct (saveConversation_frame (run_prompt r) (fullResponse r) w1)
      as (Hst & Hdom & _).
    destruct (saveConversation_add_error (run_prompt r) (fullResponse r) w1 e Ha)
      as (Hdb & Hcnt & _).
    destruct (_saveConversation _ _ w1) as [w2 saved]. simpl in *.
    unfold end_run. destruct (resumes_loadModels r); simpl;
      rewrite ?Hst, ?Hdom, ?Hdb, ?Hcnt; done.
  - unfold end_run. destruct (resumes_loadModels r); done.
Qed.

(** The last token of a stream arrives over such a store: the whole
    response is displayed and kept, the generation is over, and nothing is
    stored. *)
Lemma last_token_add_error (token : string) (r : Run) (w : World)
    (words : list string) (i : nat) (e : Storage.DOMException) :
  Storage.addError (idb (browser w)) = Some e →
  generator r = ModelManager.GYield words i →
  (length words ≤ S i)%nat →
  response_content (dom (on_token token r w)) = Text (fullResponse r +:+ token)
  ∧ currentResponse (state (on_token token r w)) = fullResponse r +:+ token
  ∧ visibility (state (on_token token r w)) = response_visible
  ∧ run (on_token token r w) = None
  ∧ database (on_token token r w) = database w.
Proof.
  intros Ha Hg Hlast. unfold on_token, pull. simpl. rewrite Hg.
  unfold ModelManager.gen_next, ModelManager.gen_loop.
  assert ((S i <? length words)%nat = false) as -> by (apply Nat.ltb_ge; lia).
  simpl.
  match goal with |- context [_generateResponse_complete ?r' ?w'] =>
    destruct (complete_add_error r' w' e) as (Hdb & _ & Hdom & Hcur & Hvis & _);
    [by destruct (_ =? 0)|];
    assert (run (_generateResponse_complete r' w') = None) as Hrun
  end.
  { unfold _generateResponse_complete, end_run. cbv zeta.
    repeat case_match; done. }
  rewrite Hdb, Hdom, Hcur, Hvis, Hrun.
  destruct (_ =? 0); done.
Qed.

(** The path that does report it: over a database that opens and whose
    [add] fails with [QuotaExceededError], saving a valid record returns (the
    promise fulfils, nothing is thrown) the failure carrying [quotaError],
    whose name is not the name ["Error"] of the errors made for other
    failures, and the store is unchanged.  The end of a generation over such a store leaves
    the store and the running total as they were, does not touch what the
    response area displays, keeps the whole response as [currentResponse]
    and shows it ([response_visible]) without an error message; and when the
    last token of a stream arrives, the response area displays the whole
    response, which is kept, and nothing is stored. *)
Lemma capacity_exceeded_is_reported (env : Storage.IdbEnv)
    (e : Storage.DOMException) :
  Storage.openError env = None →
  Storage.addError env = Some e →
  Storage.dom_name e = "QuotaExceededError" →
  (∀ now db c,
     Storage.validateConversationPair now c = Return tt →
     Storage.saveConversation env now db c
     = (db, Return {| Storage.success := false;
                      Storage.error := Some Storage.quotaError |}))
  ∧ name Storage.quotaError = "QuotaExceededError"
  ∧ (∀ msg, name (new_Error msg) = "Error")
  ∧ (∀ r w, idb (browser w) = env →
       database (_generateResponse_complete r w) = database w
       ∧ conversationCount (_generateResponse_complete r w) = conversationCount w
       ∧ dom (_generateResponse_complete r w) = dom w
       ∧ currentResponse (state (_generateResponse_complete r w)) = fullResponse r
       ∧ visibility (state (_generateResponse_complete r w)) = response_visible
       ∧ errorMessage (state (_generateResponse_complete r w))
         = errorMessage (state w))
  ∧ (∀ token r w words i,
       idb (browser w) = env →
       generator r = ModelManager.GYield words i →
       (length words ≤ S i)%nat →
       response_content (dom (on_token token r w)) = Text (fullResponse r +:+ token)
       ∧ currentResponse (state (on_token token r w)) = fullResponse r +:+ token
       ∧ visibility (state (on_token token r w)) = response_visible
       ∧ run (on_token token r w) = None
       ∧ database (on_token token r w) = database w).
Proof.
  intros Ho Ha Hn. split; [|split; [done|split; [done|split]]].
  - intros now db c Hv. by eapply StorageFacts.save_quota.
  - intros r w Henv. apply (complete_add_error r w e). by rewrite Henv.
  - intros token r w words i Henv. apply (last_token_add_error token r w words i e).
    by rewrite Henv.
Qed.

Lemma capacity_exceeded_is_reported_witness :
  (∀ now db c,
     Storage.validateConversationPair now c = Return tt →
     Storage.saveConversation Storage.quota_exceeded now db c
     = (db, Return {| Storage.success := false;
                      Storage.error := Some Storage.quotaError |}))
  ∧ name Storage.quotaError = "QuotaExceededError"
  ∧ (∀ msg, name (new_Error msg) = "Error")
  ∧ (∀ r w, idb (browser w) = Storage.quota_exceeded →
       database (_generateResponse_complete r w) = database w
       ∧ conversationCount (_generateResponse_complete r w) = conversationCount w
       ∧ dom (_generateResponse_complete r w) = dom w
       ∧ currentResponse (state (_generateResponse_complete r w)) = fullResponse r
       ∧ visibility (state (_generateResponse_complete r w)) = response_visible
       ∧ errorMessage (state (_generateResponse_complete r w))
         = errorMessage (state w))
  ∧ (∀ token r w words i,
       idb (browser w) = Storage.quota_exceeded →
       generator r = ModelManager.GYield words i →
       (length words ≤ S i)%nat →
       response_content (dom (on_token token r w)) = Text (fullResponse r +:+ token)
       ∧ currentResponse (state (on_token token r w)) = fullResponse r +:+ token
       ∧ visibility (state (on_token token r w)) = response_visible
       ∧ run (on_token token r w) = None
       ∧ database (on_token token r w) = database w).
Proof.
  exact (capacity_exceeded_is_reported Storage.quota_exceeded _
           eq_refl eq_refl eq_refl).
Defined.

(** "ping" is answered "pong" over a full store: "pong" is displayed and
    kept, nothing is stored, and the quota warning is logged. *)
Example capacity_scenario :
  ∃ w,
    steps ping_pong (start full_store) = Some w
    ∧ response_content (dom w) = Text "pong"
    ∧ cls_visible (dom w) = true
    ∧ visibility (state w) = response_visible
    ∧ currentResponse (state w) = "pong"
    ∧ errorMessage (state w) = None
    ∧ database w = ∅
    ∧ conversationCount w = 0
    ∧ last (console w) = Some (ModelManager.warn, "Storage quota exceeded:")
    ∧ last (dispatched w) = Some (generation_complete "ping" "pong" 1 800 false).
Proof. run_trace. Qed.

(** C6: a save that fails for lack of space is not always told apart.
    When the quota is exceeded while the database is opened, the rejection
    of [initDatabase] is caught by the [catch] written for validation
    errors: [saveConversation] returns a plain [Error], "Failed to open
    IndexedDB: QuotaExceededError: ...", whose name is ["Error"], where the
    same condition met by the [add] request returns [quotaError], named
    ["QuotaExceededError"].  At the end of a generation over such a store
    "pong" is displayed and kept and nothing is stored, as the claim says,
    but the element logs the generic 'Failed to save conversation:' error,
    not the quota warning. *)
Theorem quota_on_open_is_not_distinguished :
  Storage.saveConversation MoreSamples.quota_on_open 1700000000005 ∅
    (sample (Float32Array 384))
  = (∅, Return {| Storage.success := false;
                  Storage.error := Some (new_Error
                    "Failed to open IndexedDB: QuotaExceededError: The quota has been exceeded.") |})
  ∧ Storage.saveConversation Storage.quota_exceeded 1700000000005 ∅
      (sample (Float32Array 384))
    = (∅, Return {| Storage.success := false;
                    Storage.error := Some Storage.quotaError |})
  ∧ name Storage.quotaError = "QuotaExceededError"
  ∧ name (new_Error
            "Failed to open IndexedDB: QuotaExceededError: The quota has been exceeded.")
    = "Error"
  ∧ ∃ w,
      steps ping_pong (start MoreSamples.full_on_open) = Some w
      ∧ response_content (dom w) = Text "pong"
      ∧ currentResponse (state w) = "pong"
      ∧ visibility (state w) = response_visible
      ∧ errorMessage (state w) = None
      ∧ database w = ∅
      ∧ last (console w)
        = Some (ModelManager.error, "Failed to save conversation:")
      ∧ last (dispatched w) = Some (generation_complete "ping" "pong" 1 800 false).
Proof. run_trace. Qed.

(** A record of the shape [_saveConversation] builds passes the validation
    when prompt and response are within their lengths. *)
Lemma validate_accepts now key p r :
  key ≠ 0 →
  1 ≤ str_length (trim p) ≤ 10000 →
  1 ≤ str_length (trim r) ≤ 100000 →
  Storage.validateConversationPair now
    {| Storage.id := Num key; Storage.prompt := Str p; Storage.response := Str r;
       Storage.embedding := Float32Array 384;
       Storage.modelVersion := Str "mvp-mock";
       Storage.timestamp := DateObj (Some now) |} = Return tt.
Proof.
  intros Hk [Hp1 Hp2] [Hr1 Hr2]. unfold Storage.validateConversationPair. simpl.
  apply Z.eqb_neq in Hk. rewrite Hk. simpl.
  rewrite (eqb_empty_false p) by by apply trimmed_is_not_empty.
  rewrite (eqb_empty_false r) by by apply trimmed_is_not_empty.
  simpl.
  assert ((str_length (trim p) <? 1) = false) as -> by (apply Z.ltb_ge; lia).
  assert ((10000 <? str_length (trim p)) = false) as -> by (apply Z.ltb_ge; lia).
  assert ((str_length (trim r) <? 1) = false) as -> by (apply Z.ltb_ge; lia).
  assert ((100000 <? str_length (trim r)) = false) as -> by (apply Z.ltb_ge; lia).
  simpl. by rewrite Z.ltb_irrefl.
Qed.

(** The sibling path, which does not block the save: when the embedding
    model is not loaded, the end
    of a generation whose prompt and response are within the record's
    lengths, over a database that opens and adds and holds no record under
    the current clock value, logs the fallback warning and stores the
    record, which carries a 384-element fallback vector; the running total
    grows by one and [generation-complete] reports [saved]. *)
Lemma fallback_embedding_is_saved (r : Run) (w : World) :
  ModelManager.isEmbeddingLoaded (manager w) = false →
  Storage.openError (idb (browser w)) = None →
  Storage.addError (idb (browser w)) = None →
  database w !! now w = None →
  now w ≠ 0 →
  1 ≤ str_length (trim (run_prompt r)) ≤ 10000 →
  1 ≤ str_length (trim (fullResponse r)) ≤ 100000 →
  database (_generateResponse_complete r w)
  = <[ now w := {| Storage.id := Num (now w);
                   Storage.prompt := Str (run_prompt r);
                   Storage.response := Str (fullResponse r);
                   Storage.embedding := Float32Array 384;
                   Storage.modelVersion := Str "mvp-mock";
                   Storage.timestamp := DateObj (Some (now w)) |} ]> (database w)
  ∧ console (_generateResponse_complete r w)
    = console w ++ [(ModelManager.warn,
         "Embedding model not loaded. Generating random embedding as fallback.")]
  ∧ conversationCount (_generateResponse_complete r w) = conversationCount w + 1
  ∧ dispatched (_generateResponse_complete r w)
    = dispatched w ++ [generation_complete (run_prompt r) (fullResponse r)
                         (tokenCount r) (now w - run_startTime r) true].
Proof.
  intros He Ho Ha Hfresh Hnow Hp Hr.
  unfold _generateResponse_complete. cbv zeta.
  assert ((0 <? str_length (trim (fullResponse r))) = true) as ->
    by (apply Z.ltb_lt; lia).
  unfold _saveConversation, ModelManager.generateEmbedding. simpl.
  rewrite He. simpl.
  unfold Storage.saveConversation, Storage.initDatabase.
  rewrite (validate_accepts _ _ _ _ Hnow Hp Hr). simpl. rewrite Ho.
  unfold Storage.objectStore_add. simpl. rewrite Ha, Hfresh. simpl.
  unfold end_run. destruct (resumes_loadModels r); simpl; done.
Qed.

Lemma fallback_embedding_is_saved_witness :
  database (_generateResponse_complete pong_run summoned)
  = <[ 5900 := {| Storage.id := Num 5900;
                  Storage.prompt := Str "ping";
                  Storage.response := Str "pong";
                  Storage.embedding := Float32Array 384;
                  Storage.modelVersion := Str "mvp-mock";
                  Storage.timestamp := DateObj (Some 5900) |} ]> (database summoned)
  ∧ console (_generateResponse_complete pong_run summoned)
    = console summoned ++ [(ModelManager.warn,
         "Embedding model not loaded. Generating random embedding as fallback.")]
  ∧ conversationCount (_generateResponse_complete pong_run summoned)
    = conversationCount summoned + 1
  ∧ dispatched (_generateResponse_complete pong_run summoned)
    = dispatched summoned ++ [generation_complete "ping" "pong" 1 800 true].
Proof.
  apply (fallback_embedding_is_saved pong_run summoned); vm_compute; done.
Defined.

(** C7: a failure of the embedding capability blocks the save.  With the
    embedding model loaded and its pipeline throwing when it is called,
    "ping" is answered "pong": the generation completes and "pong" is shown
    and kept, but [generateEmbedding] rethrows, the [catch] of
    [_saveConversation] returns [false] before [saveConversation] is
    called, and nothing is stored: the store is empty, the running total is
    0, an error is logged last and [generation-complete] says
    [saved: false].  Over the same browser with the embedding model not
    loaded, the record is stored. *)
Theorem failing_embedder_blocks_the_save :
  (∃ w,
     steps ping_pong_embedding (start failing_embedder) = Some w
     ∧ ModelManager.isEmbeddingLoaded (manager w) = true
     ∧ currentResponse (state w) = "pong"
     ∧ visibility (state w) = response_visible
     ∧ database w = ∅
     ∧ conversationCount w = 0
     ∧ last (console w)
       = Some (ModelManager.error, "Error saving conversation:")
     ∧ last (dispatched w) = Some (generation_complete "ping" "pong" 1 800 false))
  ∧ (∃ w,
       steps ping_pong (start failing_embedder) = Some w
       ∧ ModelManager.isEmbeddingLoaded (manager w) = false
       ∧ database w
         = {[ 5900 := {| Storage.id := Num 5900;
                         Storage.prompt := Str "ping";
                         Storage.response := Str "pong";
                         Storage.embedding := Float32Array 384;
                         Storage.modelVersion := Str "mvp-mock";
                         Storage.timestamp := DateObj (Some 5900) |} ]}
       ∧ conversationCount w = 1
       ∧ last (dispatched w) = Some (generation_complete "ping" "pong" 1 800 true)).
Proof. run_trace. Qed.

(** Whatever the generation and the store: when the loaded embedding
    pipeline throws, the end of a generation stores nothing. *)
Lemma embedding_failure_stores_nothing (r : Run) (w : World) (e : Error) :
  ModelManager.isEmbeddingLoaded (manager w) = true →
  ModelManager.embeddingPipeline (manager w) = true →
  embedded (browser w) = Throw e →
  database (_generateResponse_complete r w) = database w
  ∧ conversationCount (_generateResponse_complete r w) = conversationCount w
  ∧ currentResponse (state (_generateResponse_complete r w)) = fullResponse r
  ∧ dispatched (_generateResponse_complete r w)
    = dispatched w ++ [generation_complete (run_prompt r) (fullResponse r)
                         (tokenCount r) (now w - run_startTime r) false].
Proof.
  intros Hl Hp He. unfold _generateResponse_complete. cbv zeta.
  destruct (0 <? _).
  - unfold _saveConversation, ModelManager.generateEmbedding. simpl.
    rewrite Hl, Hp, He. simpl.
    unfold end_run. by destruct (resumes_loadModels r).
  - unfold end_run. by destruct (resumes_loadModels r).
Qed.

(** *** The queue of prompts *)

Lemma loaded_facts (emb : completion unit) (w : World) :
  ModelManager.queuedPrompts (manager (_loadModels_loaded emb w))
  = ModelManager.queuedPrompts (manager w)
  ∧ ModelManager.isLlmLoaded (manager (_loadModels_loaded emb w)) = true
  ∧ ModelManager.llmPipeline (manager (_loadModels_loaded emb w)) = true
  ∧ dispatched (_loadModels_loaded emb w)
    = dispatched w ++ [model_progress 100; model_loaded (default "" (modelUrl w))]
  ∧ run (_loadModels_loaded emb w) = run w.
Proof.
  unfold _loadModels_loaded, _loadEmbeddingModel. cbv zeta.
  repeat case_match; simpl; rewrite <- ?app_assoc; done.
Qed.

Lemma queued_first_only (w : World) (q0 : string) (rest : list string) :
  ModelManager.queuedPrompts (manager w) = q0 :: rest →
  ModelManager.isLlmLoaded (manager w) = true →
  ModelManager.llmPipeline (manager w) = true →
  trim q0 = q0 → q0 ≠ "" → str_length q0 ≤ 10000 →
  ModelManager.queuedPrompts (manager (_loadModels_queued w)) = []
  ∧ currentPrompt (state (_loadModels_queued w)) = q0
  ∧ visibility (state (_loadModels_queued w)) = generating
  ∧ isGenerating (state (_loadModels_queued w)) = true
  ∧ (∃ r, run (_loadModels_queued w) = Some r
          ∧ run_prompt r = q0 ∧ resumes_loadModels r = true)
  ∧ dispatched (_loadModels_queued w) = dispatched w ++ [generation_started q0].
Proof.
  intros Hq Hl Hp Htrim Hne Hlen.
  apply eqb_empty_false in Hne. apply Z.ltb_ge in Hlen.
  unfold _loadModels_queued, ModelManager.getQueuedPrompts. rewrite Hq, Hne.
  simpl. unfold _submitPrompt. simpl. rewrite Htrim, Hne, Hlen, Hl. simpl.
  unfold _generateResponse, ModelManager.wrap_start, ModelManager.gen_start.
  simpl. rewrite ?Hl, ?Hp. simpl. repeat split; eauto.
Qed.

(** **** The manager's queue across the handlers *)

Lemma queue_gen_loop now words i m :
  ModelManager.queuedPrompts (ModelManager.gen_loop now words i m).1.1
  = ModelManager.queuedPrompts m.
Proof. unfold ModelManager.gen_loop. repeat case_match; done. Qed.

Lemma queue_wrap_on_inner now ws g res m :
  ModelManager.queuedPrompts (ModelManager.wrap_on_inner now ws g res m).1.1
  = ModelManager.queuedPrompts m.
Proof.
  unfold ModelManager.wrap_on_inner, ModelManager.cancelGeneration,
    ModelManager.gen_return.
  repeat case_match; simplify_eq; done.
Qed.

Lemma queue_save prompt response w :
  ModelManager.queuedPrompts (manager (_saveConversation prompt response w).1)
  = ModelManager.queuedPrompts (manager w).
Proof. by destruct (saveConversation_frame prompt response w) as (_ & _ & -> & _). Qed.

Lemma queue_complete r w :
  ModelManager.queuedPrompts (manager (_generateResponse_complete r w))
  = ModelManager.queuedPrompts (manager w).
Proof.
  unfold _generateResponse_complete. cbv zeta.
  destruct (0 <? _).
  - match goal with |- context [_saveConversation ?p ?q ?w1] =>
      pose proof (queue_save p q w1) as H; destruct (_saveConversation p q w1) end.
    simpl in *. unfold end_run. by destruct (resumes_loadModels r).
  - unfold end_run. by destruct (resumes_loadModels r).
Qed.

Lemma queue_catch e r w :
  ModelManager.queuedPrompts (manager (_generateResponse_catch e r w))
  = ModelManager.queuedPrompts (manager w).
Proof.
  unfold _generateResponse_catch, end_run. cbv zeta. repeat case_match; done.
Qed.

Lemma queue_pull r w :
  ModelManager.queuedPrompts (manager (pull r w))
  = ModelManager.queuedPrompts (manager w).
Proof.
  unfold pull. cbv zeta. destruct (generator (set_phase Streaming r)) eqn:Hg;
    rewrite ?queue_complete; try done.
  unfold ModelManager.gen_next.
  pose proof (queue_gen_loop (now w) words (S i) (manager w)) as H1.
  destruct (ModelManager.gen_loop _ _ _ _) as [[m g] res].
  pose proof (queue_wrap_on_inner (now w) (wrapper (set_phase Streaming r)) g res m)
    as H2.
  destruct (ModelManager.wrap_on_inner _ _ _ _ _) as [[m' g'] res']. simpl in *.
  destruct res'; rewrite ?queue_complete, ?queue_catch; simpl; congruence.
Qed.

Lemma queue_on_token token r w :
  ModelManager.queuedPrompts (manager (on_token token r w))
  = ModelManager.queuedPrompts (manager w).
Proof. unfold on_token. cbv zeta. rewrite queue_pull. by case_match. Qed.

Lemma queue_after_first first r w :
  ModelManager.queuedPrompts (manager (after_first first r w))
  = ModelManager.queuedPrompts (manager w).
Proof. unfold after_first. cbv zeta. repeat case_match; by rewrite queue_pull. Qed.

Lemma queue_settle res r w :
  ModelManager.queuedPrompts (manager (settle res r w))
  = ModelManager.queuedPrompts (manager w).
Proof.
  unfold settle. repeat case_match;
    rewrite ?queue_catch, ?queue_after_first, ?queue_on_token, ?queue_complete; done.
Qed.

Lemma queue_generateResponse prompt w :
  ModelManager.queuedPrompts (manager (_generateResponse prompt w))
  = ModelManager.queuedPrompts (manager w).
Proof.
  unfold _generateResponse, ModelManager.wrap_start, ModelManager.gen_start.
  repeat case_match; simplify_eq; rewrite queue_settle; simpl; done.
Qed.

(** **** Every queued prompt is submittable *)

Lemma submit_queue_ok w : queue_ok w → queue_ok (_submitPrompt w).
Proof.
  intros Hq. unfold queue_ok, _submitPrompt. cbv zeta.
  destruct (String.eqb _ "") eqn:Hne; [done|].
  destruct (10000 <? _) eqn:Hlen; [done|].
  simpl. destruct (ModelManager.isLlmLoaded (manager w)); simpl.
  - by rewrite queue_generateResponse.
  - apply Forall_app. split; [done|]. apply Forall_singleton.
    split; [apply JsFacts.trim_idempotent|]. split.
    + intros E. by rewrite E in Hne.
    + by apply Z.ltb_ge.
Qed.

Lemma cancel_queue_ok w : queue_ok w → queue_ok (_cancelGeneration w).
Proof.
  unfold queue_ok, _cancelGeneration, ModelManager.cancelGeneration. simpl.
  by case_match.
Qed.

Lemma queued_queue_ok w : queue_ok (_loadModels_queued w).
Proof.
  unfold _loadModels_queued, ModelManager.getQueuedPrompts. cbv zeta.
  destruct (ModelManager.queuedPrompts (manager w)) as [|q0 rest]; [by constructor|].
  destruct (negb _); [|by constructor].
  match goal with |- context [_submitPrompt ?w1] =>
    assert (queue_ok (_submitPrompt w1)) as H by (apply submit_queue_ok; by constructor);
    destruct (run (_submitPrompt w1)); exact H
  end.
Qed.

(** One event keeps the queue's prompts submittable. *)
Lemma step_queue_ok ev w w' : step ev w = Some w' → queue_ok w → queue_ok w'.
Proof.
  intros Hstep Hq. destruct ev; simpl in Hstep.
  - by simplify_eq.
  - simplify_eq. unfold _handleKeyboard.
    repeat case_match; try done; by apply cancel_queue_ok.
  - revert Hstep. unfold _handleClickOutside. repeat case_match; intros; by simplify_eq.
  - simplify_eq. unfold _handleInputClick. by case_match.
  - by simplify_eq.
  - revert Hstep. unfold _handleInputKeydown.
    repeat case_match; intros; simplify_eq; try done; by apply submit_queue_ok.
  - revert Hstep. repeat case_match; intros; by simplify_eq.
  - revert Hstep. repeat case_match; intros; simplify_eq.
    unfold queue_ok. rewrite queue_settle. simpl.
    match goal with Hw : ModelManager.wrap_on_inner ?n ?ws ?g ?r ?m = _ |- _ =>
      pose proof (queue_wrap_on_inner n ws g r m) as Ew; rewrite Hw in Ew end.
    match goal with Hg : ModelManager.gen_pipeline_settled ?n ?fp ?t ?m = _ |- _ =>
      assert (ModelManager.queuedPrompts (ModelManager.gen_pipeline_settled n fp t m).1.1
              = ModelManager.queuedPrompts m) as Eg
        by (unfold ModelManager.gen_pipeline_settled;
            repeat case_match; rewrite ?queue_gen_loop; done);
      rewrite Hg in Eg end.
    simpl in *. by rewrite Ew, Eg.
  - revert Hstep. repeat case_match; intros; simplify_eq;
      unfold queue_ok; rewrite ?queue_settle; simpl; try done.
    unfold ModelManager.cancelGeneration. by case_match.
  - revert Hstep. repeat case_match; intros; simplify_eq; try done.
    unfold queue_ok. by rewrite queue_after_first.
  - revert Hstep. unfold retry. repeat case_match; intros; simplify_eq; try done.
    unfold queue_ok. by rewrite queue_generateResponse.
  - simplify_eq. unfold attributeChanged_modelUrl, _loadModels.
    repeat case_match; done.
  - simplify_eq. unfold attributeChanged_embeddingUrl, _loadEmbeddingModel.
    repeat case_match; done.
  - by simplify_eq.
  - revert Hstep. case_match; intros; simplify_eq.
    unfold _loadModels_settled. destruct llm; [|done].
    apply queued_queue_ok.
Qed.

Lemma steps_queue_ok evs w w' : steps evs w = Some w' → queue_ok w → queue_ok w'.
Proof.
  revert w. induction evs as [|ev evs IH]; intros w; simpl.
  - by intros [= ->].
  - destruct (step ev w) as [w1|] eqn:Hs; [|done].
    intros Hrest Hq. apply (IH w1 Hrest). by eapply step_queue_ok.
Qed.

(** In every world the element can reach, the queued prompts are trimmed,
    not empty and at most 10,000 characters long. *)
Lemma reachable_queue_ok w : reachable w → queue_ok w.
Proof.
  intros (mac & b & db & clock & evs & Hs).
  apply (steps_queue_ok _ _ _ Hs). by constructor.
Qed.

(** C4, as the code has it: in every reachable world, a prompt [p]
    submitted while the model is not loaded is appended behind the prompts
    already queued; when the load succeeds, the queue is emptied and its
    first prompt [q0], and no other, is submitted without a further submit
    call: its generation is pending, it is the current prompt, and the only
    generation started is that of [q0].  The prompts behind it are gone from
    the queue and from every later step. *)
Theorem queue_first_prompt_only (w : World) (p q0 : string) (rest : list string)
    (emb : completion unit) :
  reachable w →
  ModelManager.isLlmLoaded (manager w) = false →
  trim (input_value (dom w)) = p → p ≠ "" → str_length p ≤ 10000 →
  ModelManager.queuedPrompts (manager w) ++ [p] = q0 :: rest →
  ModelManager.queuedPrompts (manager (_submitPrompt w))
  = ModelManager.queuedPrompts (manager w) ++ [p]
  ∧ visibility (state (_submitPrompt w)) = generating
  ∧ ModelManager.queuedPrompts
      (manager (_loadModels_settled (Return tt) emb (_submitPrompt w))) = []
  ∧ (∃ r, run (_loadModels_settled (Return tt) emb (_submitPrompt w)) = Some r
          ∧ run_prompt r = q0)
  ∧ currentPrompt (state (_loadModels_settled (Return tt) emb (_submitPrompt w))) = q0
  ∧ dispatched (_loadModels_settled (Return tt) emb (_submitPrompt w))
    = dispatched w ++ [model_loading_needed p; model_progress 100;
                       model_loaded (default "" (modelUrl w));
                       generation_started q0].
Proof.
  intros Hreach Hl Hp Hne Hlen Hq.
  destruct (submit_queues w p Hp Hne Hlen Hl) as (_ & Hv & Hq1 & Hd1 & _ & Hu).
  split; [done|]. split; [done|].
  pose proof (submit_queue_ok w (reachable_queue_ok w Hreach)) as Hok.
  unfold queue_ok in Hok. rewrite Hq1, Hq in Hok.
  apply Forall_cons in Hok as [(Htrim0 & Hne0 & Hlen0) _].
  unfold _loadModels_settled.
  destruct (loaded_facts emb (_submitPrompt w)) as (Hq2 & Hl2 & Hp2 & Hd2 & _).
  rewrite Hq1, Hq in Hq2.
  destruct (queued_first_only _ q0 rest Hq2 Hl2 Hp2 Htrim0 Hne0 Hlen0)
    as (E1 & E2 & _ & _ & (r & E3 & E4 & _) & E5).
  split; [done|]. split; [eauto|]. split; [done|].
  rewrite E5, Hd2, Hd1, Hu, <- !app_assoc. done.
Qed.

(** "hi" is queued and "there" is being submitted: "there" goes behind
    "hi", and the load starts "hi" only. *)
Lemma queue_first_prompt_only_witness :
  ModelManager.queuedPrompts (manager (_submitPrompt hi_queued_there_typed))
  = ModelManager.queuedPrompts (manager hi_queued_there_typed) ++ ["there"]
  ∧ visibility (state (_submitPrompt hi_queued_there_typed)) = generating
  ∧ ModelManager.queuedPrompts
      (manager (_loadModels_settled (Return tt) (Return tt)
                  (_submitPrompt hi_queued_there_typed))) = []
  ∧ (∃ r, run (_loadModels_settled (Return tt) (Return tt)
                 (_submitPrompt hi_queued_there_typed)) = Some r
          ∧ run_prompt r = "hi")
  ∧ currentPrompt (state (_loadModels_settled (Return tt) (Return tt)
                            (_submitPrompt hi_queued_there_typed))) = "hi"
  ∧ dispatched (_loadModels_settled (Return tt) (Return tt)
                  (_submitPrompt hi_queued_there_typed))
    = dispatched hi_queued_there_typed
      ++ [model_loading_needed "there"; model_progress 100;
          model_loaded (default "" (modelUrl hi_queued_there_typed));
          generation_started "hi"].
Proof.
  apply (queue_first_prompt_only hi_queued_there_typed "there" "hi" ["there"]
           (Return tt)); [|vm_compute; done..].
  exists true, healthy, ∅, 1000.
  exists [ModelUrlSet (Some "onnx-community/gemma-3-270m-it-ONNX");
          KeyDown hotkey;
          InputTyped "hi"; InputKeyDown enter;
          InputTyped "there"].
  vm_compute. reflexivity.
Defined.

(** C4 as stated fails: "hi" and "there" are queued in this order; after
    the load "hi" is generated to its end, "there" is never started, the
    queue is empty and nothing is pending: the second prompt is dropped. *)
Lemma second_queued_prompt_is_dropped :
  ∃ w1 w2,
    steps two_submitted (start healthy) = Some w1
    ∧ ModelManager.queuedPrompts (manager w1) = ["hi"; "there"]
    ∧ steps two_queued_done (start healthy) = Some w2
    ∧ ModelManager.queuedPrompts (manager w2) = []
    ∧ run w2 = None
    ∧ modelLoading w2 = false
    ∧ dispatched w2
      = [model_loading "onnx-community/gemma-3-270m-it-ONNX";
         model_progress 0; chat_activated;
         model_loading_needed "hi"; model_loading_needed "there";
         model_progress 100;
         model_loaded "onnx-community/gemma-3-270m-it-ONNX";
         generation_started "hi";
         generation_complete "hi" "hello" 1 800 true].
Proof. run_trace. Qed.


End ChatFacts.

(** ** The record store: more of [storage-manager.js] *)

Module StorageMore.
Import Js Storage StorageQueries Samples.

Lemma validate_accepts_fields now c key p r v t :
  id c = Num key → key ≠ 0 →
  prompt c = Str p → 1 ≤ str_length (trim p) ≤ 10000 →
  response c = Str r → 1 ≤ str_length (trim r) ≤ 100000 →
  truthy (embedding c) = false ∨ embedding c = Float32Array 384 →
  modelVersion c = Str v → v ≠ "" →
  timestamp c = DateObj t → (∀ ms, t = Some ms → ms ≤ now) →
  validateConversationPair now c = Return tt.
Proof.
  intros Hid Hkey Hp Hpl Hr Hrl He Hm Hv Ht Hnow.
  assert (p ≠ "") as Hpne by (intros ->; change (str_length (trim "")) with 0 in Hpl; lia).
  assert (r ≠ "") as Hrne by (intros ->; change (str_length (trim "")) with 0 in Hrl; lia).
  unfold validateConversationPair. rewrite Hid, Hp, Hr, Hm, Ht. simpl.
  apply Z.eqb_neq in Hkey. rewrite Hkey. simpl.
  apply String.eqb_neq in Hpne, Hrne, Hv. rewrite Hpne, Hrne, Hv. simpl.
  assert ((str_length (trim p) <? 1) || (10000 <? str_length (trim p)) = false)
    as -> by (apply orb_false_intro; [apply Z.ltb_ge|apply Z.ltb_ge]; lia).
  assert ((str_length (trim r) <? 1) || (100000 <? str_length (trim r)) = false)
    as -> by (apply orb_false_intro; [apply Z.ltb_ge|apply Z.ltb_ge]; lia).
  assert (truthy (embedding c) && negb (instanceof_Float32Array (embedding c))
          = false) as -> by (destruct He as [->| ->]; done).
  assert (truthy (embedding c)
          && negb match embedding c with
                  | Float32Array len => Nat.eqb len 384
                  | _ => false
                  end = false) as -> by (destruct He as [->| ->]; done).
  destruct t as [ms|]; [|done].
  assert ((now <? ms) = false) as -> by (apply Z.ltb_ge; auto). done.
Qed.

(** X1: [validateConversationPair] accepts a record exactly when its id is
    a non-zero number, prompt and response are strings of 1-10,000 and
    1-100,000 characters after trimming, the embedding is falsy or a
    [Float32Array] of 384 elements, the model version is a non-empty string
    and the timestamp is a [Date] that, when valid, is not in the future.
    An id of 0 is refused, an invalid date is accepted. *)
Theorem validate_accepts_exactly now c :
  validateConversationPair now c = Return tt
  ↔ (∃ key, id c = Num key ∧ key ≠ 0)
    ∧ (∃ p, prompt c = Str p ∧ 1 ≤ str_length (trim p) ≤ 10000)
    ∧ (∃ r, response c = Str r ∧ 1 ≤ str_length (trim r) ≤ 100000)
    ∧ (truthy (embedding c) = false ∨ embedding c = Float32Array 384)
    ∧ (∃ v, modelVersion c = Str v ∧ v ≠ "")
    ∧ (∃ t, timestamp c = DateObj t ∧ ∀ ms, t = Some ms → ms ≤ now).
Proof.
  split.
  - intros (Hid & Hp & Hr & He & Hm & Ht)%StorageFacts.validate_Return_inv.
    repeat split; try done.
    destruct (truthy (embedding c)); [right; by apply He|by left].
  - intros ((key & Hid & Hkey) & (p & Hp & Hpl) & (r & Hr & Hrl) & He
            & (v & Hm & Hv) & (t & Ht & Hnow)).
    by eapply validate_accepts_fields.
Qed.

(** What [saveConversation] can do, case by case. *)
Lemma save_cases env now (db : gmap Z ConversationPair) c :
  (∃ key, validateConversationPair now c = Return tt ∧ id c = Num key
          ∧ db !! key = None ∧ openError env = None ∧ addError env = None
          ∧ saveConversation env now db c
            = (<[key := c]> db, Return {| success := true; error := None |}))
  ∨ (∃ e, saveConversation env now db c
          = (db, Return {| success := false; error := Some e |})).
Proof.
  destruct (validateConversationPair now c) as [[]|e] eqn:Hv.
  2:{ right. exists e. by apply StorageFacts.save_invalid. }
  pose proof Hv as ((key & Hid & _) & _)%StorageFacts.validate_Return_inv.
  unfold saveConversation, initDatabase, objectStore_add. rewrite Hv, Hid.
  destruct (openError env) eqn:Ho; [right; eauto|].
  destruct (addError env) eqn:Ha.
  { right. destruct (String.eqb _ _); eauto. }
  destruct (db !! key) eqn:Hk.
  { right. simpl. eauto. }
  left. exists key. done.
Qed.

(** X2: [saveConversation] never rejects.  It resolves with
    [success: true] and no error after writing exactly the validated
    record under its own id, which was free; or with [success: false] and
    an error, the store left as it was. *)
Theorem save_always_resolves env now (db : gmap Z ConversationPair) c :
  ∃ result,
    (saveConversation env now db c).2 = Return result
    ∧ (success result = true →
       error result = None
       ∧ validateConversationPair now c = Return tt
       ∧ ∃ key, id c = Num key ∧ db !! key = None
                ∧ (saveConversation env now db c).1 = <[key := c]> db)
    ∧ (success result = false →
       is_Some (error result) ∧ (saveConversation env now db c).1 = db).
Proof.
  destruct (save_cases env now db c) as [(key & Hv & Hid & Hk & _ & _ & ->)|(e & ->)];
    eexists; (split; [done|]); simpl; (split; [|done]).
  - intros _. split; [done|]. split; [done|]. by exists key.
  - done.
Qed.

(** X3: records are written with [add], not [put]: saving a valid record
    whose id is already in the store fails with a plain [Error] (not the
    quota error), and the record stored under that id stays. *)
Theorem save_does_not_overwrite env now (db : gmap Z ConversationPair) c key old :
  validateConversationPair now c = Return tt →
  id c = Num key → db !! key = Some old →
  ∃ e, saveConversation env now db c
       = (db, Return {| success := false; error := Some e |})
       ∧ (openError env = None → addError env = None → name e = "Error")
       ∧ (saveConversation env now db c).1 !! key = Some old.
Proof.
  intros Hv Hid Hold.
  unfold saveConversation, initDatabase, objectStore_add. rewrite Hv, Hid, Hold.
  destruct (openError env); [eexists; by split|].
  destruct (addError env) as [d|]; simpl.
  - destruct (String.eqb _ _); eexists; by split.
  - eexists; by split.
Qed.

Lemma save_does_not_overwrite_witness :
  ∃ e, saveConversation idb_ok 1700000000005 {[ 1700000000000 := blank_response ]}
         (sample Undefined)
       = ({[ 1700000000000 := blank_response ]},
          Return {| success := false; error := Some e |})
       ∧ (openError idb_ok = None → addError idb_ok = None → name e = "Error")
       ∧ (saveConversation idb_ok 1700000000005
            {[ 1700000000000 := blank_response ]} (sample Undefined)).1
           !! 1700000000000 = Some blank_response.
Proof.
  apply (save_does_not_overwrite idb_ok 1700000000005
           {[ 1700000000000 := blank_response ]} (sample Undefined)
           1700000000000 blank_response); reflexivity.
Defined.

(** X4: the count follows the saves: over a database whose open and count
    requests succeed, [getConversationCount] after a [saveConversation]
    answers one more than before if the save succeeded and the same number
    if it failed. *)
Theorem count_after_save env now (db : gmap Z ConversationPair) c :
  openError env = None → countError env = None →
  ∃ result,
    (saveConversation env now db c).2 = Return result
    ∧ getConversationCount env (saveConversation env now db c).1
      = Return (if success result then S (size db) else size db).
Proof.
  intros Ho Hc. unfold getConversationCount, initDatabase. rewrite Ho, Hc.
  destruct (save_cases env now db c) as [(key & Hv & Hid & Hk & _ & _ & ->)|(e & ->)];
    eexists; (split; [done|]); simpl; [|done].
  by rewrite map_size_insert_None.
Qed.

Lemma count_after_save_witness :
  ∃ result,
    (saveConversation idb_ok 1700000000005 two_records (sample Undefined)).2
    = Return result
    ∧ getConversationCount idb_ok
        (saveConversation idb_ok 1700000000005 two_records (sample Undefined)).1
      = Return (if success result then S (size two_records) else size two_records).
Proof.
  apply (count_after_save idb_ok 1700000000005 two_records (sample Undefined));
    reflexivity.
Defined.


(** Every error the validation throws is a plain [Error]. *)
Lemma validate_throws_plain_errors now c e :
  validateConversationPair now c = Throw e → name e = "Error".
Proof.
  unfold validateConversationPair. cbv zeta.
  repeat case_match; intros; simplify_eq; done.
Qed.

(** X21: [saveConversation] answers an error named [QuotaExceededError]
    exactly when the record is valid, the database opens and the [add]
    request fails with a [QuotaExceededError]; the error is then
    [quotaError].  A quota failure met while the database is opened, like
    every other failure, is answered with an error of another name. *)
Theorem quota_error_exactly_on_add env now (db : gmap Z ConversationPair) c :
  (∃ e, (saveConversation env now db c).2
        = Return {| success := false; error := Some e |}
        ∧ name e = "QuotaExceededError")
  ↔ validateConversationPair now c = Return tt
    ∧ openError env = None
    ∧ ∃ d, addError env = Some d ∧ dom_name d = "QuotaExceededError".
Proof.
  split.
  - intros (e & Hs & Hn).
    unfold saveConversation, initDatabase, objectStore_add in Hs.
    destruct (validateConversationPair now c) as [[]|e0] eqn:Hv.
    + destruct (openError env) as [d0|] eqn:Ho.
      { simpl in Hs. simplify_eq. }
      destruct (id c) as [| | | |key| | | |]; try (simpl in Hs; discriminate).
      destruct (addError env) as [d|] eqn:Ha.
      * destruct (String.eqb (dom_name d) "QuotaExceededError") eqn:E.
        -- apply String.eqb_eq in E. eauto 6.
        -- simpl in Hs. simplify_eq.
      * destruct (db !! key); simpl in Hs; simplify_eq.
    + simpl in Hs. simplify_eq.
      apply validate_throws_plain_errors in Hv. congruence.
  - intros (Hv & Ho & d & Ha & Hd). exists quotaError. split; [|done].
    by rewrite (StorageFacts.save_quota env now db c d).
Qed.

(** *** [getHistory] *)

#[local] Instance visited_before_transitive : Transitive visited_before.
Proof. intros a b c. unfold visited_before. lia. Qed.

#[local] Instance visited_before_total : Total visited_before.
Proof. intros a b. unfold visited_before. lia. Qed.

Lemma index_entries_spec (db : gmap Z ConversationPair) e :
  e ∈ index_entries db ↔ db !! e.1.2 = Some e.2 ∧ index_key e.2 = Some e.1.1.
Proof.
  unfold index_entries. rewrite list_elem_of_omap. split.
  - intros ([k c] & Hin%elem_of_map_to_list & He). simpl in He.
    destruct (index_key c) as [t|] eqn:Ht; [|done]. by simplify_eq/=.
  - destruct e as [[t k] c]. simpl. intros [Hk Ht]. exists (k, c).
    split; [by apply elem_of_map_to_list|]. simpl. by rewrite Ht.
Qed.

Lemma omap_length_le {A B} (f : A → option B) (l : list A) :
  (length (omap f l) ≤ length l)%nat.
Proof.
  induction l as [|x l IH]; [done|]. csimpl. destruct (f x); simpl; lia.
Qed.

Lemma omap_length_all {A B} (f : A → option B) (l : list A) :
  Forall (λ x, is_Some (f x)) l → length (omap f l) = length l.
Proof.
  induction 1 as [|x l [y Hy] _ IH]; [done|]. csimpl. rewrite Hy. simpl.
  by rewrite IH.
Qed.

Lemma index_entries_length (db : gmap Z ConversationPair) :
  (length (index_entries db) ≤ size db)%nat.
Proof.
  unfold index_entries. rewrite <- length_map_to_list. apply omap_length_le.
Qed.

Lemma index_entries_all (db : gmap Z ConversationPair) :
  map_Forall (λ _ c, is_Some (index_key c)) db →
  length (index_entries db) = size db.
Proof.
  intros Hall%map_Forall_to_list. unfold index_entries.
  rewrite <- length_map_to_list. apply omap_length_all.
  eapply Forall_impl; [exact Hall|]. intros [k c] [t Ht]. simpl in *.
  rewrite Ht. by eexists.
Qed.

Lemma visited_sorted (db : gmap Z ConversationPair) :
  StronglySorted visited_before (merge_sort visited_before (index_entries db)).
Proof. apply (StronglySorted_merge_sort _). Qed.

Lemma visited_spec (db : gmap Z ConversationPair) e :
  e ∈ merge_sort visited_before (index_entries db)
  ↔ db !! e.1.2 = Some e.2 ∧ index_key e.2 = Some e.1.1.
Proof. by rewrite merge_sort_Permutation, index_entries_spec. Qed.

Lemma entries_sorted (l : list IndexEntry) :
  Forall (λ e, index_key e.2 = Some e.1.1) l →
  StronglySorted visited_before l →
  StronglySorted not_older ((λ e, withoutEmbedding e.2) <$> l).
Proof.
  intros Hkeys Hs. induction Hs as [|a l Hs IH Hall]; simpl; [constructor|].
  apply Forall_cons in Hkeys as [Ha Hl]. constructor; [by apply IH|].
  apply Forall_fmap, Forall_forall. intros b Hb.
  rewrite Forall_forall in Hall, Hl.
  specialize (Hall b Hb). specialize (Hl b Hb).
  unfold not_older, entry_time, withoutEmbedding, index_key in *. simpl.
  destruct (timestamp a.2) as [| | | | | |[ta|]| |]; try done.
  destruct (timestamp b.2) as [| | | | | |[tb|]| |]; try done.
  simplify_eq. unfold visited_before in Hall. lia.
Qed.

(** X5: when [getHistory(limit)] returns, it returns at most [limit]
    entries, never more than the store holds, and exactly
    min(limit, number of records) when every stored date is valid; each
    entry is a stored record without its embedding, and the entries are
    ordered newest first. *)
Theorem getHistory_newest_first env cursorError limit
    (db : gmap Z ConversationPair) results :
  getHistory env cursorError limit db = Return results →
  (length results ≤ Z.to_nat limit)%nat
  ∧ (length results ≤ size db)%nat
  ∧ (map_Forall (λ _ c, is_Some (index_key c)) db →
     length results = Nat.min (Z.to_nat limit) (size db))
  ∧ Forall (λ e, ∃ key c, db !! key = Some c ∧ e = withoutEmbedding c) results
  ∧ StronglySorted not_older results.
Proof.
  unfold getHistory, initDatabase.
  destruct (openError env); [done|]. destruct cursorError; [done|].
  intros [= <-]. unfold openCursor_prev.
  set (visited := merge_sort visited_before (index_entries db)).
  assert (length visited = length (index_entries db)) as Hlen
    by (unfold visited; by rewrite merge_sort_Permutation).
  pose proof (index_entries_length db) as Hsize.
  rewrite <- fmap_take, <- list_fmap_compose.
  rewrite !length_fmap, !length_take. unfold IndexEntry in *. rewrite Hlen.
  split; [lia|]. split; [lia|]. split.
  { intros Hall%index_entries_all. f_equal. exact Hall. }
  split.
  - apply Forall_fmap, Forall_forall. intros e He%elem_of_take.
    destruct He as (i & He & _). apply list_elem_of_lookup_2 in He.
    apply visited_spec in He as [Hk _]. by exists e.1.2, e.2.
  - apply entries_sorted.
    + apply Forall_forall. intros e (i & He & _)%elem_of_take.
      apply list_elem_of_lookup_2 in He. by apply visited_spec in He as [_ ?].
    + assert (StronglySorted visited_before
                (take (Z.to_nat limit) visited ++ drop (Z.to_nat limit) visited))
        as Hs by (rewrite take_drop; apply visited_sorted).
      by apply StronglySorted_app_1_l in Hs.
Qed.

Lemma getHistory_newest_first_witness :
  ∃ results,
    getHistory idb_ok None 1 two_records = Return results
    ∧ (length results ≤ Z.to_nat 1)%nat
    ∧ (length results ≤ size two_records)%nat
    ∧ (map_Forall (λ _ c, is_Some (index_key c)) two_records →
       length results = Nat.min (Z.to_nat 1) (size two_records))
    ∧ Forall (λ e, ∃ key c, two_records !! key = Some c ∧ e = withoutEmbedding c)
        results
    ∧ StronglySorted not_older results.
Proof.
  eexists. split; [reflexivity|].
  apply (getHistory_newest_first idb_ok None 1 two_records). reflexivity.
Defined.

(** X6: the conversation saved last comes first: after a successful save
    of a record whose date is later than every stored one, [getHistory]
    with a positive limit starts with that record, its embedding left
    out. *)
Theorem latest_save_heads_history env now limit
    (db : gmap Z ConversationPair) c t :
  (saveConversation env now db c).2
  = Return {| success := true; error := None |} →
  timestamp c = DateObj (Some t) →
  map_Forall (λ _ old, ∀ t', index_key old = Some t' → t' < t) db →
  0 < limit →
  ∃ older, getHistory env None limit (saveConversation env now db c).1
           = Return (withoutEmbedding c :: older).
Proof.
  intros Hsaved Ht Hold Hlimit.
  destruct (save_cases env now db c)
    as [(key & Hv & Hid & Hk & Ho & _ & Hs)|(e & Hs)];
    rewrite Hs in Hsaved |- *; [|done]. simpl.
  unfold getHistory, initDatabase. rewrite Ho. unfold openCursor_prev.
  set (visited := merge_sort visited_before (index_entries (<[key:=c]> db))).
  assert ((t, key, c) ∈ visited) as Hnew.
  { apply visited_spec. simpl. rewrite lookup_insert_eq.
    unfold index_key. by rewrite Ht. }
  pose proof (visited_sorted (<[key:=c]> db)) as Hsorted. fold visited in Hsorted.
  destruct visited as [|first rest] eqn:Hvis; [by apply elem_of_nil in Hnew|].
  assert (first = (t, key, c)) as ->.
  { apply elem_of_cons in Hnew as [->|Hin]; [done|].
    apply StronglySorted_inv in Hsorted as [_ Hfirst].
    rewrite Forall_forall in Hfirst. specialize (Hfirst _ Hin).
    assert (first ∈ merge_sort visited_before (index_entries (<[key:=c]> db)))
      as [Hf1 Hf2]%visited_spec by (fold visited; rewrite Hvis; left).
    destruct (decide (first.1.2 = key)) as [Hsame|Hother].
    - rewrite Hsame, lookup_insert_eq in Hf1. injection Hf1 as Hf1.
      rewrite <- Hf1 in Hf2. unfold index_key in Hf2. rewrite Ht in Hf2.
      destruct first as [[??]?]. by simplify_eq/=.
    - rewrite lookup_insert_ne in Hf1 by done.
      specialize (Hold _ _ Hf1 _ Hf2). unfold visited_before in Hfirst.
      simpl in Hfirst. lia. }
  destruct (Z.to_nat limit) as [|n] eqn:Hn; [lia|]. simpl. eauto.
Qed.

Lemma latest_save_heads_history_witness :
  ∃ older,
    getHistory idb_ok None 10
      (saveConversation idb_ok 1700000000505 two_records
         MoreSamples.later_sample).1
    = Return (withoutEmbedding MoreSamples.later_sample :: older).
Proof.
  apply (latest_save_heads_history idb_ok 1700000000505 10 two_records
           MoreSamples.later_sample 1700000000500).
  - vm_compute. reflexivity.
  - reflexivity.
  - unfold two_records.
    apply map_Forall_insert_2; [|apply map_Forall_singleton];
      intros t' Ht'; vm_compute in Ht'; injection Ht' as <-; lia.
  - lia.
Defined.

(** X7: [clearHistory] is all or nothing: either it throws and the store
    is as before, or it empties the store and returns the number of
    records it held, after which [getConversationCount] answers 0 and
    [getHistory] the empty list for every limit. *)
Theorem clearHistory_all_or_nothing env (db : gmap Z ConversationPair) :
  (∃ e, clearHistory env db = (db, Throw e))
  ∨ (clearHistory env db = (∅, Return (size db))
     ∧ getConversationCount env (clearHistory env db).1 = Return 0%nat
     ∧ ∀ limit, getHistory env None limit (clearHistory env db).1 = Return []).
Proof.
  unfold clearHistory, getConversationCount, getHistory, initDatabase.
  destruct (openError env); [left; eauto|].
  destruct (countError env); [left; eauto|].
  destruct (clearError env); [left; eauto|].
  right. simpl. split; [done|]. split; [done|]. intros limit.
  unfold openCursor_prev, index_entries. rewrite map_to_list_empty.
  change (merge_sort visited_before (omap _ [])) with (@nil IndexEntry).
  by rewrite fmap_nil, take_nil.
Qed.

End StorageMore.

(** ** The generation gateway: more of [model-manager.js] *)

Module ManagerFacts.
Import Js ModelManager ManagerLifecycle.

Lemma str_app_nil_r (s : string) : s +:+ "" = s.
Proof. induction s as [|c s IH]; [done|]. by rewrite JsFacts.str_app_cons, IH. Qed.

Lemma split_go_not_empty (cur s : string) : (0 < length (split_go cur s))%nat.
Proof.
  revert cur. induction s as [|c s IH]; intros cur; simpl; [lia|].
  destruct (Ascii.eqb c " "); simpl; [lia|apply IH].
Qed.

(** [split(' ')] and [join(' ')] are inverse to each other. *)
Lemma join_space_split_go (cur s : string) :
  join_space (split_go cur s) = String.rev cur +:+ s.
Proof.
  revert cur. induction s as [|c s IH]; intros cur; simpl.
  - by rewrite str_app_nil_r.
  - destruct (Ascii.eqb c " ") eqn:Hc.
    + apply Ascii.eqb_eq in Hc as ->.
      destruct (split_go "" s) as [|w ws] eqn:Hs.
      { pose proof (split_go_not_empty "" s) as Hlen. rewrite Hs in Hlen.
        simpl in Hlen. lia. }
      change (join_space (String.rev cur :: w :: ws))
        with (String.rev cur +:+ " " +:+ join_space (w :: ws)).
      by rewrite <- Hs, IH.
    + rewrite IH, JsFacts.str_rev_cons, JsFacts.str_app_assoc.
      by rewrite JsFacts.str_app_cons.
Qed.

Lemma split_space_not_empty (s : string) : (0 < length (split_space s))%nat.
Proof. apply split_go_not_empty. Qed.

Lemma tokens_cons (w : string) (ws : list string) (m : t) :
  tokens (w :: ws) m
  = (w +:+ if (0 <? length ws)%nat then " " else "") :: tokens ws m.
Proof.
  unfold tokens. simpl length. rewrite <- cons_seq, fmap_cons. f_equal.
  { simpl. by rewrite Nat.sub_0_r. }
  rewrite <- fmap_S_seq, <- list_fmap_compose. apply list_fmap_ext.
  intros i k _. simpl. rewrite Nat.sub_0_r. do 2 f_equal.
  destruct (length ws) as [|n]; [done|]. simpl. by rewrite Nat.sub_0_r.
Qed.

Lemma join_tokens (words : list string) (m : t) :
  join (tokens words m) = join_space words.
Proof.
  induction words as [|w ws IH]; [done|]. rewrite tokens_cons.
  change (join (?x :: ?l)) with (x +:+ join l). rewrite IH.
  destruct ws as [|w' ws]; [by rewrite !str_app_nil_r|].
  change (join_space (w :: w' :: ws))
    with (w +:+ " " +:+ join_space (w' :: ws)).
  by rewrite JsFacts.str_app_assoc.
Qed.

(** X8: the queue is first in, first out and is handed over once:
    after any prompts are queued, [getQueuedPrompts] returns what was
    queued before followed by those prompts in the order of the calls, and
    leaves a queue from which a second call gets nothing; the rest of the
    manager is untouched. *)
Theorem queued_prompts_come_back_in_order (ps : list string) (m : t) :
  (getQueuedPrompts (foldl (λ m p, queuePrompt p m) m ps)).1
  = queuedPrompts m ++ ps
  ∧ (getQueuedPrompts
       (getQueuedPrompts (foldl (λ m p, queuePrompt p m) m ps)).2).1 = []
  ∧ (getQueuedPrompts (foldl (λ m p, queuePrompt p m) m ps)).2
    = set_queuedPrompts [] m.
Proof.
  revert m. induction ps as [|p ps IH]; intros m; simpl.
  - by rewrite app_nil_r.
  - destruct (IH (queuePrompt p m)) as (H1 & H2 & H3).
    simpl in *. rewrite H1, H3. by rewrite <- app_assoc.
Qed.

(** X9: [cancelGeneration] does nothing when no generation is active and
    is idempotent; when one is active, the generator's next [next()] ends
    the stream as if it were complete (done, no error, the controller
    cleared), whatever words are left, and so does the settling of a
    pipeline call that was still pending: only a failing pipeline call
    turns the cancellation into the error 'Generation cancelled by user'. *)
Theorem cancelled_stream_ends_silently (now : Z) (words : list string)
    (i : nat) (fullPrompt text : string) (e : Error) (m : t) :
  (abortController m = None → cancelGeneration m = m)
  ∧ cancelGeneration (cancelGeneration m) = cancelGeneration m
  ∧ (is_Some (abortController m) →
     gen_next now words i (cancelGeneration m) = (gen_finally m, GClosed, IDone)
     ∧ gen_pipeline_settled now fullPrompt (Return text) (cancelGeneration m)
       = (gen_finally m, GClosed, IDone)
     ∧ gen_pipeline_settled now fullPrompt (Throw e) (cancelGeneration m)
       = (gen_finally m, GClosed,
          IThrow (new_Error "Generation cancelled by user"))).
Proof.
  unfold cancelGeneration.
  split; [by intros ->|].
  split; [by destruct (abortController m) eqn:Hm; simpl; rewrite ?Hm|].
  intros [b Hb]. rewrite Hb.
  unfold gen_next, gen_pipeline_settled, gen_loop, signal_aborted. simpl.
  split; [by destruct (_ <? _)%nat|]. split; [|done].
  pose proof (split_space_not_empty
                (substring_from (String.length fullPrompt) text)) as Hlen.
  apply Nat.ltb_lt in Hlen. by rewrite Hlen.
Qed.

(** X10: the stream loses nothing: the tokens [generateTokens] yields for
    a generated text, joined in order, are that text (every word with its
    following space, the last one without). *)
Theorem tokens_rebuild_the_text (text : string) (m : t) :
  join (tokens (split_space text) m) = text.
Proof.
  rewrite join_tokens. unfold split_space. by rewrite join_space_split_go.
Qed.

(** X11: after [dispose] the manager refuses to generate, whatever was
    loaded before: the first [next()] of [generateTokens] throws the
    not-loaded error without creating an abort controller, the queue is
    empty, [generateEmbedding] answers with its fallback, the configuration
    is kept, and a second [dispose] changes nothing. *)
Theorem dispose_unloads (prompt : string) (embedded : completion nat) (m : t) :
  gen_start prompt (dispose m)
  = (dispose m, GClosed,
     IThrow (new_Error "LLM model not loaded. Load model before generating."))
  ∧ getQueuedPrompts (dispose m) = ([], dispose m)
  ∧ (generateEmbedding embedded (dispose m)).1 = Return (Float32Array 384)
  ∧ config (dispose m) = config m
  ∧ dispose (dispose m) = dispose m.
Proof.
  unfold gen_start, generateEmbedding, dispose. simpl.
  rewrite !orb_true_r. done.
Qed.

End ManagerFacts.

(** ** What every event and every call keeps *)

Module ChatInvariants.
Import Js Chat ChatApi.

(** Settles a coherence goal once the fields are known. *)
Ltac coherence_steps :=
  repeat match goal with
         | H : coherent _ |- _ => unfold coherent in H
         | H : coherent_with _ _ |- _ =>
             unfold coherent_with, generator_live, controller_set in H;
             simpl in H; destruct H as (? & ? & ? & ?)
         end;
  unfold coherent, coherent_with, generator_live, controller_set; simpl;
  repeat match goal with
         | H : run ?w = _ |- context [run ?w] => rewrite H
         | H : run ?w = _, H' : context [run ?w] |- _ => rewrite H in H'
         | H : generator ?r = _ |- context [generator ?r] => rewrite H
         | H : generator ?r = _, H' : context [generator ?r] |- _ =>
             rewrite H in H'
         | H : ModelManager.abortController ?m = _
           |- context [ModelManager.abortController ?m] => rewrite H
         | H : ModelManager.abortController ?m = _,
           H' : context [ModelManager.abortController ?m] |- _ =>
             rewrite H in H'
         end;
  split_and?; try done; try congruence; eauto;
  try (intros; simplify_eq/=; done).

Ltac coherence := solve [coherence_steps].

Lemma complete_ends r w :
  isGenerating (state (_generateResponse_complete r w)) = false
  ∧ run (_generateResponse_complete r w) = None
  ∧ manager (_generateResponse_complete r w) = manager w.
Proof.
  unfold _generateResponse_complete. cbv zeta.
  destruct (0 <? _).
  - match goal with |- context [_saveConversation ?p ?q ?w1] =>
      destruct (ChatFacts.saveConversation_frame p q w1) as (Hst & _ & Hm & _);
      destruct (_saveConversation p q w1) as [w2 saved] end.
    simpl in *. unfold end_run.
    destruct (resumes_loadModels r); simpl; rewrite ?Hst, ?Hm; done.
  - unfold end_run. destruct (resumes_loadModels r); done.
Qed.

Lemma catch_ends e r w :
  isGenerating (state (_generateResponse_catch e r w)) = false
  ∧ run (_generateResponse_catch e r w) = None
  ∧ manager (_generateResponse_catch e r w) = manager w
  ∧ database (_generateResponse_catch e r w) = database w
  ∧ conversationCount (_generateResponse_catch e r w) = conversationCount w.
Proof.
  unfold _generateResponse_catch, end_run. cbv zeta. repeat case_match; done.
Qed.

Section invariant.

(** A property of the store and the running total that saving and clearing
    keep. *)
Variable Q : World → Prop.
Hypothesis Q_store : ∀ w w',
  database w' = database w → conversationCount w' = conversationCount w →
  Q w → Q w'.
Hypothesis Q_save : ∀ p r w, Q w → Q (_saveConversation p r w).1.
Hypothesis Q_clear : ∀ w, Q w → Q (clearHistory w).1.1.

Lemma inv_complete r w :
  coherent_with (Some r) w → Q w → generator r = ModelManager.GClosed →
  coherent (_generateResponse_complete r w) ∧ Q (_generateResponse_complete r w).
Proof.
  intros Hc HQ Hg. split.
  - destruct (complete_ends r w) as (Hgen & Hrun & Hm).
    unfold coherent, coherent_with. rewrite Hgen, Hrun, Hm. coherence.
  - unfold _generateResponse_complete. cbv zeta.
    destruct (0 <? _).
    + match goal with |- context [_saveConversation ?p ?q ?w1] =>
        assert (Q (_saveConversation p q w1).1) as HQ1
          by (apply Q_save; by apply (Q_store w));
        destruct (_saveConversation p q w1) as [w2 saved] end.
      simpl in *. unfold end_run.
      destruct (resumes_loadModels r); by apply (Q_store w2).
    + unfold end_run. destruct (resumes_loadModels r); by apply (Q_store w).
Qed.

Lemma inv_catch e r w :
  coherent_with (Some r) w → Q w → generator r = ModelManager.GClosed →
  coherent (_generateResponse_catch e r w) ∧ Q (_generateResponse_catch e r w).
Proof.
  intros Hc HQ Hg.
  destruct (catch_ends e r w) as (Hgen & Hrun & Hm & Hdb & Hcnt). split.
  - unfold coherent, coherent_with. rewrite Hgen, Hrun, Hm. coherence.
  - by apply (Q_store w).
Qed.

Lemma inv_pull r w :
  coherent_with (Some r) w → Q w → coherent (pull r w) ∧ Q (pull r w).
Proof.
  intros Hc HQ. unfold pull. cbv zeta.
  change (generator (set_phase Streaming r)) with (generator r).
  change (wrapper (set_phase Streaming r)) with (wrapper r).
  destruct (generator r) as [fp|words i due|words i|] eqn:Hg.
  - split; [coherence|by apply (Q_store w)].
  - split; [coherence|by apply (Q_store w)].
  - unfold ModelManager.gen_next, ModelManager.gen_loop,
      ModelManager.signal_aborted, ModelManager.gen_finally,
      ModelManager.wrap_on_inner.
    destruct (S i <? length words)%nat;
      [destruct (ModelManager.abortController (manager w)) as [[]|] eqn:Ha|];
      cbv beta iota zeta.
    + apply inv_complete; [coherence|by apply (Q_store w)|done].
    + split; [coherence|by apply (Q_store w)].
    + split; [coherence|by apply (Q_store w)].
    + apply inv_complete; [coherence|by apply (Q_store w)|done].
  - apply inv_complete; [coherence|done|done].
Qed.

Lemma inv_on_token token r w :
  coherent_with (Some r) w → Q w →
  coherent (on_token token r w) ∧ Q (on_token token r w).
Proof.
  intros Hc HQ. unfold on_token. cbv zeta. apply inv_pull.
  - destruct (_ =? 0); coherence.
  - destruct (_ =? 0); by apply (Q_store w).
Qed.

Lemma inv_after_first first r w :
  coherent_with (Some r) w → Q w →
  coherent (after_first first r w) ∧ Q (after_first first r w).
Proof.
  intros Hc HQ. unfold after_first. cbv zeta.
  destruct first as [|token| |e]; try destruct (negb _);
    (apply inv_pull; [coherence|by apply (Q_store w)]).
Qed.

Lemma inv_settle res r w :
  coherent_with (Some r) w → Q w → settles res r →
  coherent (settle res r w) ∧ Q (settle res r w).
Proof.
  intros Hc HQ Hres. unfold settle.
  destruct res as [|token| |e]; simpl in Hres.
  - split; [coherence|by apply (Q_store w)].
  - destruct (phase r) as [first [due|]|].
    + split; [coherence|by apply (Q_store w)].
    + by apply inv_after_first.
    + by apply inv_on_token.
  - destruct (phase r) as [first [due|]|].
    + split; [coherence|by apply (Q_store w)].
    + by apply inv_after_first.
    + by apply inv_complete.
  - by apply inv_catch.
Qed.

Lemma inv_generateResponse prompt w :
  controller_set (manager w) = false →
  timeout_in_range
    (ModelManager.inferenceTimeout (ModelManager.config (manager w))) →
  Q w →
  coherent (_generateResponse prompt w) ∧ Q (_generateResponse prompt w).
Proof.
  intros Hab Hrange HQ.
  unfold _generateResponse, ModelManager.wrap_start, ModelManager.gen_start.
  destruct (negb _ || negb _); cbv beta iota zeta;
    (apply inv_settle; [coherence|by apply (Q_store w)|done]).
Qed.

Lemma inv_submit w :
  coherent w → Q w →
  run w = None ∨ ModelManager.isLlmLoaded (manager w) = false →
  coherent (_submitPrompt w) ∧ Q (_submitPrompt w).
Proof.
  intros Hc HQ Hfree. unfold _submitPrompt. cbv zeta.
  destruct (String.eqb _ ""); [done|].
  destruct (10000 <? _); [split; [coherence|by apply (Q_store w)]|].
  simpl. destruct (ModelManager.isLlmLoaded (manager w)) eqn:Hl; simpl.
  - destruct Hfree as [Hrun|]; [|done].
    apply inv_generateResponse; [coherence|coherence|by apply (Q_store w)].
  - split; [coherence|by apply (Q_store w)].
Qed.

Lemma inv_cancel w :
  coherent w → Q w → coherent (_cancelGeneration w) ∧ Q (_cancelGeneration w).
Proof.
  intros Hc HQ. unfold _cancelGeneration. cbv zeta.
  split; [|by apply (Q_store w)].
  unfold ModelManager.cancelGeneration. simpl.
  destruct (ModelManager.abortController (manager w)) eqn:Ha; coherence.
Qed.

Lemma inv_keyboard event w :
  coherent w → Q w →
  coherent (_handleKeyboard event w) ∧ Q (_handleKeyboard event w).
Proof.
  intros Hc HQ. unfold _handleKeyboard. cbv zeta.
  destruct (if isMac w then _ else _).
  { split; [coherence|by apply (Q_store w)]. }
  destruct (_ && _); [|done].
  destruct (isGenerating (state w)); [by apply inv_cancel|].
  split; [coherence|by apply (Q_store w)].
Qed.

Lemma inv_loadEmbeddingModel loaded w :
  coherent w → Q w →
  coherent (_loadEmbeddingModel loaded w) ∧ Q (_loadEmbeddingModel loaded w).
Proof.
  intros Hc HQ. unfold _loadEmbeddingModel.
  destruct (negb _); [done|]. destruct (embeddingLoading w).
  { split; [coherence|by apply (Q_store w)]. }
  destruct loaded; (split; [coherence|by apply (Q_store w)]).
Qed.

Lemma inv_loaded emb w :
  coherent w → Q w →
  coherent (_loadModels_loaded emb w) ∧ Q (_loadModels_loaded emb w).
Proof.
  intros Hc HQ. unfold _loadModels_loaded. cbv zeta.
  match goal with |- context [if url_set ?u then _loadEmbeddingModel _ ?w1 else _] =>
    assert (coherent w1 ∧ Q w1) as [Hc1 HQ1]
      by (split; [coherence|by apply (Q_store w)]);
    destruct (url_set u); [by apply inv_loadEmbeddingModel|done]
  end.
Qed.

Lemma inv_queued w :
  coherent w → Q w →
  run w = None ∨ ModelManager.queuedPrompts (manager w) = [] →
  coherent (_loadModels_queued w) ∧ Q (_loadModels_queued w).
Proof.
  intros Hc HQ Hfree. unfold _loadModels_queued, ModelManager.getQueuedPrompts.
  cbv zeta.
  destruct (ModelManager.queuedPrompts (manager w)) as [|q0 rest] eqn:Hq.
  { split; [coherence|by apply (Q_store w)]. }
  destruct Hfree as [Hrun|]; [|done].
  destruct (negb _); [|split; [coherence|by apply (Q_store w)]].
  match goal with |- context [_submitPrompt ?w1] =>
    assert (coherent (_submitPrompt w1) ∧ Q (_submitPrompt w1)) as [Hc2 HQ2]
      by (apply inv_submit; [coherence|by apply (Q_store w)|by left]);
    generalize dependent (_submitPrompt w1); intros w2 Hc2 HQ2
  end.
  destruct (run w2) as [r|] eqn:Hr; (split; [coherence|by apply (Q_store w2)]).
Qed.

Lemma inv_step ev w w' :
  step ev w = Some w' → coherent w → Q w → coherent w' ∧ Q w'.
Proof.
  intros Hstep Hc HQ. destruct ev; simpl in Hstep.
  - simplify_eq. split; [coherence|by apply (Q_store w)].
  - simplify_eq. by apply inv_keyboard.
  - revert Hstep. unfold _handleClickOutside.
    repeat case_match; intros; simplify_eq; try done.
    split; [coherence|by apply (Q_store w)].
  - simplify_eq. unfold _handleInputClick.
    case_match; try done. split; [coherence|by apply (Q_store w)].
  - simplify_eq. split; [coherence|by apply (Q_store w)].
  - revert Hstep. unfold _handleInputKeydown, no_run.
    destruct (run w) eqn:Hrun; simpl;
      destruct (ModelManager.isLlmLoaded (manager w)) eqn:Hl; simpl;
      intros; simplify_eq;
      (destruct (_ && _); [apply inv_submit; auto|done]).
  - revert Hstep. repeat case_match; intros; simplify_eq.
    split; [coherence|by apply (Q_store w)].
  - destruct (run w) as [r|] eqn:Hrun; [|done].
    destruct (generator r) as [fp| | |] eqn:Hg; try done.
    revert Hstep.
    unfold ModelManager.gen_pipeline_settled, ModelManager.gen_loop,
      ModelManager.signal_aborted, ModelManager.gen_finally,
      ModelManager.wrap_on_inner.
    destruct generated_text as [text|e];
      [destruct (0 <? length _)%nat|];
      destruct (ModelManager.abortController (manager w)) as [[]|] eqn:Ha;
      cbv beta iota zeta; intros; simplify_eq;
      (apply inv_settle; [coherence|by apply (Q_store w)|done]).
  - destruct (run w) as [r|] eqn:Hrun; [|done].
    destruct (generator r) as [|words i due| |] eqn:Hg; try done.
    revert Hstep. destruct (due <=? now w); [|done].
    unfold ModelManager.gen_timer, ModelManager.wrap_on_inner,
      ModelManager.cancelGeneration, ModelManager.gen_return,
      ModelManager.gen_finally.
    destruct (_ <? _);
      destruct (ModelManager.abortController (manager w)) as [[]|] eqn:Ha;
      cbv beta iota zeta; intros; simplify_eq;
      (apply inv_settle; [coherence|by apply (Q_store w)|done]).
  - destruct (run w) as [r|] eqn:Hrun; [|done].
    destruct (phase r) as [first [due|]|] eqn:Hp; try done.
    revert Hstep. destruct (due <=? now w); [|done].
    destruct first as [res|]; intros; simplify_eq.
    + apply inv_after_first; [coherence|done].
    + split; [coherence|by apply (Q_store w)].
  - revert Hstep. unfold no_run, retry.
    destruct (run w) eqn:Hrun; [done|]. intros; simplify_eq.
    destruct (String.eqb _ ""); [done|]. cbv zeta.
    apply inv_generateResponse; [coherence|coherence|by apply (Q_store w)].
  - simplify_eq. unfold attributeChanged_modelUrl, _loadModels.
    repeat case_match; try done; (split; [coherence|by apply (Q_store w)]).
  - simplify_eq. unfold attributeChanged_embeddingUrl.
    repeat case_match; try done;
      try apply inv_loadEmbeddingModel;
      first [coherence|by apply (Q_store w)|split; [coherence|by apply (Q_store w)]].
  - simplify_eq. split; [|by apply (Q_store w)].
    unfold attributeChanged_inferenceTimeout.
    destruct Hc as (? & ? & ? & ?).
    unfold coherent, coherent_with, timeout_in_range. simpl.
    split_and?; try done; lia.
  - revert Hstep. destruct (load_pending w && _) eqn:Hguard; [|done].
    intros; simplify_eq. unfold _loadModels_settled.
    destruct llm as [[]|e0].
    + destruct (inv_loaded emb w Hc HQ) as [Hc1 HQ1].
      apply inv_queued; [done|done|].
      destruct (ChatFacts.loaded_facts emb w) as (Hq & _ & _ & _ & Hr).
      rewrite Hq, Hr.
      apply andb_prop in Hguard as [_ Hg]. apply orb_prop in Hg as [Hg|Hg].
      * left. unfold no_run in Hg. by destruct (run w).
      * right. by destruct (ModelManager.queuedPrompts (manager w)).
    + cbv zeta. split; [coherence|by apply (Q_store w)].
Qed.

Lemma inv_call c w w' :
  call c w = Some w' → coherent w → Q w → coherent w' ∧ Q w'.
Proof.
  intros Hcall Hc HQ. destruct c as [ev|cursorError limit|]; simpl in Hcall.
  - by eapply inv_step.
  - simplify_eq. unfold getHistory.
    destruct (StorageQueries.getHistory _ _ _ _); simpl; [done|].
    split; [coherence|by apply (Q_store w)].
  - simplify_eq. split; [|by apply Q_clear].
    unfold clearHistory.
    destruct (Storage.clearHistory _ _) as [db [count|e]]; simpl; coherence.
Qed.

Lemma inv_calls cs w w' :
  calls cs w = Some w' → coherent w → Q w → coherent w' ∧ Q w'.
Proof.
  revert w. induction cs as [|c cs IH]; intros w; simpl.
  - by intros [= ->].
  - destruct (call c w) as [w1|] eqn:Hc1; [|done].
    intros Hrest Hc HQ. destruct (inv_call c w w1 Hc1 Hc HQ).
    by apply (IH w1).
Qed.

End invariant.

Lemma connected_coherent mac b db clock : coherent (connected mac b db clock).
Proof. unfold coherent, coherent_with, timeout_in_range. simpl. split_and?; try done; lia. Qed.

Lemma in_use_coherent cs mac b db clock w :
  calls cs (connected mac b db clock) = Some w → coherent w.
Proof.
  intros Hcs.
  apply (inv_calls (λ _, True) (λ _ _ _ _ _, I) (λ _ _ _ _, I) (λ _ _, I)
           cs _ w Hcs (connected_coherent mac b db clock) I).
Qed.

(** X12: the manager's abort controller follows the generator.  In every
    world a connected element reaches, whatever the events (handled one
    generation at a time, the two animation frames of a submission taken
    with it) and the calls of the history API, the controller exists
    exactly while the token generator of the pending activation of
    [_generateResponse] has not finished; so [cancelGeneration] aborts the
    controller of a live generator and changes nothing otherwise. *)
Theorem controller_follows_the_generator cs mac b db clock w :
  calls cs (connected mac b db clock) = Some w →
  controller_set (manager w) = generator_live (run w)
  ∧ ModelManager.cancelGeneration (manager w)
    = (if generator_live (run w)
       then ModelManager.set_abortController (Some true) (manager w)
       else manager w).
Proof.
  intros (_ & Hab & _)%in_use_coherent. split; [done|].
  rewrite <- Hab. unfold controller_set, ModelManager.cancelGeneration.
  by destruct (ModelManager.abortController (manager w)).
Qed.

Lemma controller_follows_the_generator_witness :
  generator_live
    (run (default (Samples.start Samples.healthy)
            (calls MoreSamples.streaming (Samples.start Samples.healthy))))
  = true
  ∧ controller_set
      (manager (default (Samples.start Samples.healthy)
                  (calls MoreSamples.streaming (Samples.start Samples.healthy))))
    = generator_live
        (run (default (Samples.start Samples.healthy)
                (calls MoreSamples.streaming (Samples.start Samples.healthy))))
  ∧ ModelManager.cancelGeneration
      (manager (default (Samples.start Samples.healthy)
                  (calls MoreSamples.streaming (Samples.start Samples.healthy))))
    = (if generator_live
            (run (default (Samples.start Samples.healthy)
                    (calls MoreSamples.streaming (Samples.start Samples.healthy))))
       then ModelManager.set_abortController (Some true)
              (manager (default (Samples.start Samples.healthy)
                          (calls MoreSamples.streaming
                             (Samples.start Samples.healthy))))
       else manager (default (Samples.start Samples.healthy)
                       (calls MoreSamples.streaming
                          (Samples.start Samples.healthy)))).
Proof.
  split; [vm_compute; reflexivity|].
  apply (controller_follows_the_generator MoreSamples.streaming true
           Samples.healthy ∅ 1000).
  vm_compute. reflexivity.
Defined.

(** X13: as long as the [inference-timeout] attribute is given integers,
    the timeout the manager is configured with stays within 1,000 and
    120,000 ms in every world a connected element reaches, and so does the
    timeout a pending generation runs under. *)
Theorem timeout_stays_clamped cs mac b db clock w :
  calls cs (connected mac b db clock) = Some w →
  timeout_in_range
    (ModelManager.inferenceTimeout (ModelManager.config (manager w)))
  ∧ match run w with
    | Some r => timeout_in_range (ModelManager.timeoutMs (wrapper r))
    | None => True
    end.
Proof. by intros (_ & _ & Hrange & Hw)%in_use_coherent. Qed.

Lemma timeout_stays_clamped_witness :
  timeout_in_range
    (ModelManager.inferenceTimeout
       (ModelManager.config
          (manager (default (Samples.start Samples.healthy)
                      (calls MoreSamples.tight (Samples.start Samples.healthy))))))
  ∧ match run (default (Samples.start Samples.healthy)
                 (calls MoreSamples.tight (Samples.start Samples.healthy))) with
    | Some r => timeout_in_range (ModelManager.timeoutMs (wrapper r))
    | None => True
    end.
Proof.
  apply (timeout_stays_clamped MoreSamples.tight true Samples.healthy ∅ 1000).
  vm_compute. reflexivity.
Defined.

Lemma count_save p r w : count_ok w → count_ok (_saveConversation p r w).1.
Proof.
  unfold count_ok, _saveConversation. intros Hw.
  destruct (ModelManager.generateEmbedding _ _) as [[emb|err] lines]; simpl;
    [|done].
  match goal with |- context [Storage.saveConversation ?env ?n ?db ?c] =>
    destruct (StorageMore.save_cases env n db c)
      as [(key & _ & _ & Hk & _ & _ & Hs)|(e & Hs)]; rewrite Hs
  end; simpl in *.
  - rewrite map_size_insert_None by done. lia.
  - by destruct (String.eqb _ _).
Qed.

Lemma count_clear w : count_ok w → count_ok (clearHistory w).1.1.
Proof.
  unfold count_ok, clearHistory, Storage.clearHistory. intros Hw.
  repeat case_match; simplify_eq; simpl; try done.
Qed.

(** X14: for an element connected without a [model-url] attribute (so
    that [connectedCallback] reads the count before any event is handled;
    the attribute may be set afterwards), the running total is the number
    of stored records: if the count read at connection succeeds, then in
    every world the element reaches from [connected] through events and
    calls of the history API, [conversationCount] is the size of the store;
    a failed save leaves both, a successful one adds one to both, and
    [clearHistory] resets both. *)
Theorem count_matches_store cs mac b db clock w :
  Storage.openError (idb b) = None → Storage.countError (idb b) = None →
  calls cs (connected mac b db clock) = Some w →
  conversationCount w = Z.of_nat (size (database w)).
Proof.
  intros Ho Hc Hcs.
  apply (inv_calls count_ok) with (w := connected mac b db clock) (cs := cs).
  - intros w1 w2 Hdb Hcnt. unfold count_ok. by rewrite Hdb, Hcnt.
  - apply count_save.
  - apply count_clear.
  - done.
  - apply connected_coherent.
  - unfold count_ok, connected, Storage.getConversationCount,
      Storage.initDatabase. simpl. by rewrite Ho, Hc.
Qed.

Lemma count_matches_store_witness :
  conversationCount (default (Samples.start Samples.healthy)
                       (calls MoreSamples.session (Samples.start Samples.healthy)))
  = Z.of_nat (size (database (default (Samples.start Samples.healthy)
                                (calls MoreSamples.session
                                   (Samples.start Samples.healthy))))).
Proof.
  apply (count_matches_store MoreSamples.session true Samples.healthy ∅ 1000);
    vm_compute; reflexivity.
Defined.

End ChatInvariants.

(** ** A generation from the submit to the end of its stream *)

Module StreamFacts.
Import Js Chat ChatApi.

Lemma substring_from_app (fp text : string) :
  substring_from (String.length fp) (fp +:+ text) = text.
Proof. induction fp as [|c fp IH]; [done|]. by rewrite JsFacts.str_app_cons. Qed.

(** What the end of a generation leaves. *)
Lemma complete_shows r w :
  currentResponse (state (_generateResponse_complete r w)) = fullResponse r
  ∧ visibility (state (_generateResponse_complete r w)) = response_visible
  ∧ ∃ saved,
      dispatched (_generateResponse_complete r w)
      = dispatched w
        ++ [generation_complete (run_prompt r) (fullResponse r) (tokenCount r)
              (now w - run_startTime r) saved].
Proof.
  unfold _generateResponse_complete. cbv zeta.
  destruct (0 <? _).
  - match goal with |- context [_saveConversation ?p ?q ?w1] =>
      destruct (ChatFacts.saveConversation_frame p q w1)
        as (Hst & _ & _ & _ & Hd & _);
      destruct (_saveConversation p q w1) as [w2 saved] end.
    simpl in *. unfold end_run.
    destruct (resumes_loadModels r); simpl; rewrite ?Hst, ?Hd;
      (split; [done|]; split; [done|]; by exists saved).
  - unfold end_run.
    destruct (resumes_loadModels r); simpl;
      (split; [done|]; split; [done|]; by exists false).
Qed.

(** The token of iteration [i]. *)
Lemma tokens_lookup (words : list string) (i : nat) (m : ModelManager.t) :
  (i < length words)%nat →
  ManagerLifecycle.tokens words m !! i
  = Some (default "" (words !! i)
          +:+ if (i <? length words - 1)%nat then " " else "").
Proof.
  intros Hi. unfold ManagerLifecycle.tokens.
  rewrite list_lookup_fmap, lookup_seq_lt by done. done.
Qed.

(** One token of a stream that is neither cancelled nor late, with more to
    come: it is appended and the next timer is set. *)
Lemma token_round_more w r words i due :
  run w = Some r → phase r = Streaming →
  generator r = ModelManager.GDelay words i due → due ≤ now w + 30 →
  ModelManager.abortController (manager w) = Some false →
  now w + 30 - ModelManager.startTime (wrapper r)
  ≤ ModelManager.timeoutMs (wrapper r) →
  (S i < length words)%nat →
  ∃ w' r',
    steps [Tick 30; TokenTimer] w = Some w'
    ∧ run w' = Some r' ∧ phase r' = Streaming
    ∧ generator r' = ModelManager.GDelay words (S i) (now w' + 30)
    ∧ ModelManager.abortController (manager w') = Some false
    ∧ now w' = now w + 30
    ∧ wrapper r' = wrapper r ∧ run_prompt r' = run_prompt r
    ∧ run_startTime r' = run_startTime r
    ∧ fullResponse r'
      = fullResponse r
        +:+ (default "" (words !! i)
             +:+ if (i <? length words - 1)%nat then " " else "").
Proof.
  intros Hrun Hph Hg Hdue Hab Htime Hmore.
  unfold steps, step. cbn [run set_now now manager]. rewrite Hrun, Hg.
  change (Z.of_N 30) with 30.
  destruct (due <=? now w + 30) eqn:Hd; [|apply Z.leb_gt in Hd; lia].
  unfold ModelManager.gen_timer, ModelManager.wrap_on_inner.
  destruct (_ <? _) eqn:Ht; [apply Z.ltb_lt in Ht; lia|].
  unfold settle. cbn [phase set_generator]. rewrite Hph.
  apply Nat.ltb_lt in Hmore.
  unfold on_token. cbv zeta.
  destruct (_ =? 0); unfold pull; cbv zeta;
    cbn [generator set_phase append_token set_generator];
    unfold ModelManager.gen_next, ModelManager.gen_loop,
      ModelManager.signal_aborted;
    rewrite Hmore;
    cbn [manager upd_manager upd_dom dispatchEvent set_now]; rewrite Hab;
    cbv beta iota zeta; eexists _, _; (split; [reflexivity|]);
    cbn; rewrite ?Hab; done.
Qed.

(** The last token of such a stream: the generation is complete. *)
Lemma token_round_last w r words i due :
  run w = Some r → phase r = Streaming →
  generator r = ModelManager.GDelay words i due → due ≤ now w + 30 →
  now w + 30 - ModelManager.startTime (wrapper r)
  ≤ ModelManager.timeoutMs (wrapper r) →
  length words = S i →
  ∃ w',
    steps [Tick 30; TokenTimer] w = Some w'
    ∧ run w' = None
    ∧ currentResponse (state w')
      = fullResponse r +:+ (default "" (words !! i) +:+ "")
    ∧ visibility (state w') = response_visible
    ∧ isGenerating (state w') = false
    ∧ ModelManager.abortController (manager w') = None
    ∧ ∃ count saved,
        last (dispatched w')
        = Some (generation_complete (run_prompt r)
                  (fullResponse r +:+ (default "" (words !! i) +:+ ""))
                  count (now w + 30 - run_startTime r) saved).
Proof.
  intros Hrun Hph Hg Hdue Htime Hlast.
  unfold steps, step. cbn [run set_now now manager]. rewrite Hrun, Hg.
  change (Z.of_N 30) with 30.
  destruct (due <=? now w + 30) eqn:Hd; [|apply Z.leb_gt in Hd; lia].
  unfold ModelManager.gen_timer, ModelManager.wrap_on_inner.
  destruct (_ <? _) eqn:Ht; [apply Z.ltb_lt in Ht; lia|].
  unfold settle. cbn [phase set_generator]. rewrite Hph.
  assert ((i <? length words - 1)%nat = false) as ->
    by (apply Nat.ltb_ge; lia).
  assert ((S i <? length words)%nat = false) as Hdone
    by (apply Nat.ltb_ge; lia).
  unfold on_token. cbv zeta.
  destruct (_ =? 0); unfold pull; cbv zeta;
    cbn [generator set_phase append_token set_generator];
    unfold ModelManager.gen_next, ModelManager.gen_loop,
      ModelManager.wrap_on_inner;
    rewrite Hdone; cbv beta iota zeta;
    match goal with |- context [_generateResponse_complete ?r2 ?w2] =>
      destruct (complete_shows r2 w2) as (Hcur & Hvis & saved & Hdisp);
      destruct (ChatInvariants.complete_ends r2 w2) as (Hgen & Hnone & Hm);
      exists (_generateResponse_complete r2 w2)
    end;
    rewrite Hcur, Hvis, Hgen, Hnone, Hm, Hdisp, last_snoc;
    (split_and?; try done); eexists _, saved; reflexivity.
Qed.

Lemma tokens_length (words : list string) (m : ModelManager.t) :
  length (ManagerLifecycle.tokens words m) = length words.
Proof. unfold ManagerLifecycle.tokens. by rewrite length_fmap, length_seq. Qed.

Lemma steps_cons (ev : Event) (evs : list Event) (w w1 : World) :
  step ev w = Some w1 → steps (ev :: evs) w = steps evs w1.
Proof. intros H. simpl. by rewrite H. Qed.

Lemma steps_then (evs1 evs2 : list Event) (w w1 : World) :
  steps evs1 w = Some w1 → steps (evs1 ++ evs2) w = steps evs2 w1.
Proof. intros H. by rewrite ChatFacts.steps_app, H. Qed.

(** The rest of a stream that is neither cancelled nor late: every
    remaining token is appended, and the generation completes with the
    whole of them. *)
Lemma stream_rest (n : nat) :
  ∀ w r words i due m,
    run w = Some r → phase r = Streaming →
    generator r = ModelManager.GDelay words i due → due ≤ now w + 30 →
    ModelManager.abortController (manager w) = Some false →
    length words = (i + S n)%nat →
    now w + 30 * Z.of_nat (S n) - ModelManager.startTime (wrapper r)
    ≤ ModelManager.timeoutMs (wrapper r) →
    ∃ w',
      steps (token_timers (S n)) w = Some w'
      ∧ run w' = None
      ∧ currentResponse (state w')
        = fullResponse r
          +:+ ManagerLifecycle.join (drop i (ManagerLifecycle.tokens words m))
      ∧ visibility (state w') = response_visible
      ∧ isGenerating (state w') = false
      ∧ ModelManager.abortController (manager w') = None
      ∧ ∃ count saved,
          last (dispatched w')
          = Some (generation_complete (run_prompt r)
                    (fullResponse r
                     +:+ ManagerLifecycle.join
                           (drop i (ManagerLifecycle.tokens words m)))
                    count (now w + 30 * Z.of_nat (S n) - run_startTime r) saved).
Proof.
  induction n as [|n IH]; intros w r words i due m Hrun Hph Hg Hdue Hab Hlen Htime.
  - destruct (token_round_last w r words i due)
      as (w' & Hs & Hnone & Hcur & Hvis & Hgen & Hctl & count & saved & Hd);
      try done; [lia..|].
    assert (ManagerLifecycle.join (drop i (ManagerLifecycle.tokens words m))
            = default "" (words !! i) +:+ "") as ->.
    { rewrite (drop_S _ _ i (tokens_lookup words i m ltac:(lia))).
      rewrite drop_ge by (rewrite tokens_length; lia).
      assert ((i <? length words - 1)%nat = false) as ->
        by (apply Nat.ltb_ge; lia).
      simpl. by rewrite !ManagerFacts.str_app_nil_r. }
    exists w'. change (token_timers 1) with ([Tick 30; TokenTimer] ++ []).
    rewrite app_nil_r. split; [done|]. split_and?; try done.
    exists count, saved. rewrite Hd. first [done|do 2 f_equal; lia].
  - destruct (token_round_more w r words i due)
      as (w1 & r1 & Hs & Hrun1 & Hph1 & Hg1 & Hab1 & Hnow1 & Hw1 & Hp1 & Hst1 & Hf1);
      try done; [lia..|].
    destruct (IH w1 r1 words (S i) (now w1 + 30) m)
      as (w' & Hs' & Hnone & Hcur & Hvis & Hgen & Hctl & count & saved & Hd);
      try done; [lia..| |].
    { rewrite Hw1, Hnow1. lia. }
    exists w'.
    change (token_timers (S (S n)))
      with ([Tick 30; TokenTimer] ++ token_timers (S n)).
    rewrite (steps_then _ _ _ _ Hs). split; [done|].
    assert (fullResponse r1
            +:+ ManagerLifecycle.join (drop (S i) (ManagerLifecycle.tokens words m))
            = fullResponse r
              +:+ ManagerLifecycle.join (drop i (ManagerLifecycle.tokens words m)))
      as Hjoin.
    { rewrite (drop_S _ _ i (tokens_lookup words i m ltac:(lia))).
      rewrite Hf1. simpl. by rewrite JsFacts.str_app_assoc. }
    rewrite <- Hjoin. split_and?; try done.
    exists count, saved. rewrite Hd, Hp1, Hst1, Hnow1. first [done|do 2 f_equal; lia].
Qed.

(** Enter on a valid prompt over a loaded model, no generation pending:
    the activation starts and waits for the pipeline. *)
Lemma enter_starts w ev :
  key ev = "Enter" → shiftKey ev = false → run w = None →
  ModelManager.isLlmLoaded (manager w) = true →
  ModelManager.llmPipeline (manager w) = true →
  trim (input_value (dom w)) ≠ "" →
  str_length (trim (input_value (dom w))) ≤ 10000 →
  ∃ w',
    step (InputKeyDown ev) w = Some w'
    ∧ run w'
      = Some {| run_prompt := trim (input_value (dom w)); fullResponse := "";
                tokenCount := 0; run_startTime := now w;
                phase := AwaitFirst None (Some (now w + 800));
                wrapper :=
                  {| ModelManager.timeoutMs :=
                       ModelManager.inferenceTimeout
                         (ModelManager.config (manager w));
                     ModelManager.startTime := now w |};
                generator :=
                  ModelManager.GPipeline
                    (ModelManager.fullPrompt_of (manager w)
                       (trim (input_value (dom w))));
                resumes_loadModels := false |}
    ∧ ModelManager.abortController (manager w') = Some false
    ∧ now w' = now w.
Proof.
  intros Hk Hs Hrun Hl Hp Hne Hlen.
  unfold step, no_run, _handleInputKeydown. rewrite Hrun, Hk, Hs. simpl.
  unfold _submitPrompt. rewrite (ChatFacts.eqb_empty_false _ Hne).
  apply Z.ltb_ge in Hlen. rewrite Hlen. simpl. rewrite Hl. simpl.
  unfold _generateResponse, ModelManager.wrap_start, ModelManager.gen_start.
  simpl. rewrite Hl, Hp. simpl. eexists. split; [reflexivity|]. done.
Qed.

(** The pipeline answers a generation that was not cancelled: the timer of
    the first word is set. *)
Lemma pipeline_answers w r fp text :
  run w = Some r → generator r = ModelManager.GPipeline fp →
  ModelManager.abortController (manager w) = Some false →
  ∃ w',
    step (PipelineSettled (Return (fp +:+ text))) w = Some w'
    ∧ run w' = Some (set_generator
                       (ModelManager.GDelay (split_space text) 0 (now w + 30)) r)
    ∧ ModelManager.abortController (manager w') = Some false
    ∧ now w' = now w.
Proof.
  intros Hrun Hg Hab. unfold step. rewrite Hrun, Hg.
  unfold ModelManager.gen_pipeline_settled, ModelManager.gen_loop,
    ModelManager.signal_aborted, ModelManager.wrap_on_inner.
  rewrite substring_from_app, Hab.
  pose proof (ManagerFacts.split_space_not_empty text) as Hlen.
  apply Nat.ltb_lt in Hlen. rewrite Hlen. cbv beta iota zeta.
  unfold settle. eexists. split; [reflexivity|]. done.
Qed.

(** The first token arrives in time while the 800 ms of the loading
    indicator are not over: it is held. *)
Lemma first_token_held w r first due0 words due :
  run w = Some r → phase r = AwaitFirst first (Some due0) →
  generator r = ModelManager.GDelay words 0 due → due ≤ now w →
  now w - ModelManager.startTime (wrapper r)
  ≤ ModelManager.timeoutMs (wrapper r) →
  ∃ w',
    step TokenTimer w = Some w'
    ∧ run w'
      = Some (set_phase
                (AwaitFirst
                   (Some (ModelManager.IYield
                            (default "" (words !! 0%nat)
                             +:+ if (0 <? length words - 1)%nat then " " else "")))
                   (Some due0))
                (set_generator (ModelManager.GYield words 0) r))
    ∧ manager w' = manager w
    ∧ now w' = now w.
Proof.
  intros Hrun Hph Hg Hdue Htime. unfold step. rewrite Hrun, Hg.
  destruct (due <=? now w) eqn:Hd; [|apply Z.leb_gt in Hd; lia].
  unfold ModelManager.gen_timer, ModelManager.wrap_on_inner.
  destruct (_ <? _) eqn:Ht; [apply Z.ltb_lt in Ht; lia|].
  unfold settle. cbn [phase set_generator]. rewrite Hph.
  eexists. split; [reflexivity|]. done.
Qed.

(** The 800 ms are over and the held token is not the last: it is shown and
    the stream goes on. *)
Lemma min_loading_more w r token due0 words :
  run w = Some r →
  phase r = AwaitFirst (Some (ModelManager.IYield token)) (Some due0) →
  due0 ≤ now w → generator r = ModelManager.GYield words 0 →
  ModelManager.abortController (manager w) = Some false →
  (1 < length words)%nat →
  ∃ w' r',
    step MinLoadingTimer w = Some w'
    ∧ run w' = Some r' ∧ phase r' = Streaming
    ∧ generator r' = ModelManager.GDelay words 1 (now w' + 30)
    ∧ ModelManager.abortController (manager w') = Some false
    ∧ now w' = now w
    ∧ wrapper r' = wrapper r ∧ run_prompt r' = run_prompt r
    ∧ run_startTime r' = run_startTime r
    ∧ fullResponse r' = fullResponse r +:+ token.
Proof.
  intros Hrun Hph Hdue Hg Hab Hmore. unfold step. rewrite Hrun, Hph.
  destruct (due0 <=? now w) eqn:Hd; [|apply Z.leb_gt in Hd; lia].
  apply Nat.ltb_lt in Hmore.
  unfold after_first. cbv zeta.
  destruct (negb (String.eqb token "")) eqn:Hne; unfold pull; cbv zeta;
    cbn [generator set_phase append_token set_generator];
    rewrite Hg;
    unfold ModelManager.gen_next, ModelManager.gen_loop,
      ModelManager.signal_aborted, ModelManager.wrap_on_inner;
    rewrite Hmore; cbn [manager upd_dom]; rewrite Hab;
    cbv beta iota zeta; eexists _, _; (split; [reflexivity|]);
    cbn; rewrite ?Hab; split_and?; try done.
  apply negb_false_iff, String.eqb_eq in Hne as ->.
  by rewrite ManagerFacts.str_app_nil_r.
Qed.

(** The 800 ms are over and the held token is the only one: the generation
    is complete. *)
Lemma min_loading_last w r token due0 words :
  run w = Some r →
  phase r = AwaitFirst (Some (ModelManager.IYield token)) (Some due0) →
  due0 ≤ now w → generator r = ModelManager.GYield words 0 →
  length words = 1%nat →
  ∃ w',
    step MinLoadingTimer w = Some w'
    ∧ run w' = None
    ∧ currentResponse (state w') = fullResponse r +:+ token
    ∧ visibility (state w') = response_visible
    ∧ isGenerating (state w') = false
    ∧ ModelManager.abortController (manager w') = None
    ∧ ∃ count saved,
        last (dispatched w')
        = Some (generation_complete (run_prompt r) (fullResponse r +:+ token)
                  count (now w - run_startTime r) saved).
Proof.
  intros Hrun Hph Hdue Hg Hlen. unfold step. rewrite Hrun, Hph.
  destruct (due0 <=? now w) eqn:Hd; [|apply Z.leb_gt in Hd; lia].
  assert ((1 <? length words)%nat = false) as Hone by (by rewrite Hlen).
  unfold after_first. cbv zeta.
  destruct (negb (String.eqb token "")) eqn:Hne; unfold pull; cbv zeta;
    cbn [generator set_phase append_token set_generator];
    rewrite Hg;
    unfold ModelManager.gen_next, ModelManager.gen_loop,
      ModelManager.wrap_on_inner;
    rewrite Hone; cbv beta iota zeta;
    match goal with |- context [_generateResponse_complete ?r2 ?w2] =>
      destruct (complete_shows r2 w2) as (Hcur & Hvis & saved & Hdisp);
      destruct (ChatInvariants.complete_ends r2 w2) as (Hgen & Hnone & Hm);
      exists (_generateResponse_complete r2 w2)
    end;
    rewrite Hcur, Hvis, Hgen, Hnone, Hm, Hdisp, last_snoc;
    try (apply negb_false_iff, String.eqb_eq in Hne as ->);
    cbn; rewrite ?ManagerFacts.str_app_nil_r;
    (split_and?; try done); eexists _, saved; reflexivity.
Qed.

(** X15: a generation that is neither cancelled nor late shows exactly
    the generated text.  Enter is pressed on a valid prompt over a loaded
    model with no generation pending; the pipeline answers after [latency]
    ms with the full prompt followed by [text]; the first token's timer
    fires 30 ms later, the 800 ms timer of the loading indicator [wait] ms
    after that, and every further token 30 ms after the one before; the
    whole stays within the inference timeout.  Then the generation ends
    with [currentResponse] equal to [text], the session in
    [response_visible] and no longer generating, the abort controller
    cleared, and [generation-complete] dispatched last, carrying the prompt,
    [text] and the time the generation took. *)
Theorem generation_shows_the_whole_text (w : World) (ev : KeyEvent)
    (text : string) (latency wait : N) :
  key ev = "Enter" → shiftKey ev = false → run w = None →
  ModelManager.isLlmLoaded (manager w) = true →
  ModelManager.llmPipeline (manager w) = true →
  trim (input_value (dom w)) ≠ "" →
  str_length (trim (input_value (dom w))) ≤ 10000 →
  800 ≤ Z.of_N latency + 30 + Z.of_N wait →
  Z.of_N latency + 30 + Z.of_N wait
  + 30 * (Z.of_nat (length (split_space text)) - 1)
  ≤ ModelManager.inferenceTimeout (ModelManager.config (manager w)) →
  ∃ w',
    steps ([InputKeyDown ev; Tick latency;
            PipelineSettled
              (Return (ModelManager.fullPrompt_of (manager w)
                         (trim (input_value (dom w))) +:+ text));
            Tick 30; TokenTimer; Tick wait; MinLoadingTimer]
           ++ token_timers (length (split_space text) - 1)) w = Some w'
    ∧ currentResponse (state w') = text
    ∧ visibility (state w') = response_visible
    ∧ isGenerating (state w') = false
    ∧ run w' = None
    ∧ ModelManager.abortController (manager w') = None
    ∧ ∃ count saved,
        last (dispatched w')
        = Some (generation_complete (trim (input_value (dom w))) text count
                  (Z.of_N latency + 30 + Z.of_N wait
                   + 30 * (Z.of_nat (length (split_space text)) - 1)) saved).
Proof.
  intros Hk Hs Hrun Hl Hp Hne Hlen Hwait Htime.
  pose proof (ManagerFacts.split_space_not_empty text) as Hwords.
  assert (ManagerLifecycle.join
            (ManagerLifecycle.tokens (split_space text) (manager w)) = text)
    as Hjoin.
  { rewrite ManagerFacts.join_tokens. unfold split_space.
    by rewrite ManagerFacts.join_space_split_go. }
  set (words := split_space text) in *.
  destruct (enter_starts w ev) as (w1 & H1 & Hrun1 & Hab1 & Hnow1); try done.
  set (r0 := {| run_prompt := trim (input_value (dom w)) |}) in Hrun1.
  set (w2 := set_now (now w1 + Z.of_N latency) w1).
  assert (now w2 = now w + Z.of_N latency) as Hnow2
    by (unfold w2; cbn [now set_now]; lia).
  destruct (pipeline_answers w2 r0
              (ModelManager.fullPrompt_of (manager w) (trim (input_value (dom w))))
              text) as (w3 & H3 & Hrun3 & Hab3 & Hnow3); try done.
  set (w4 := set_now (now w3 + 30) w3).
  assert (now w4 = now w + Z.of_N latency + 30) as Hnow4
    by (unfold w4; cbn [now set_now]; lia).
  destruct (first_token_held w4 _ None (now w + 800) words (now w2 + 30) Hrun3)
    as (w5 & H5 & Hrun5 & Hm5 & Hnow5); try done; [lia| |].
  { rewrite Hnow4. cbn. lia. }
  set (w6 := set_now (now w5 + Z.of_N wait) w5).
  assert (now w6 = now w + Z.of_N latency + 30 + Z.of_N wait) as Hnow6
    by (unfold w6; cbn [now set_now]; lia).
  assert (ModelManager.abortController (manager w6) = Some false) as Hab6.
  { unfold w6. cbn [manager set_now]. rewrite Hm5. unfold w4.
    cbn [manager set_now]. exact Hab3. }
  assert (∀ w7, step MinLoadingTimer w6 = Some w7 →
                steps [InputKeyDown ev; Tick latency;
                       PipelineSettled
                         (Return (ModelManager.fullPrompt_of (manager w)
                                    (trim (input_value (dom w))) +:+ text));
                       Tick 30; TokenTimer; Tick wait; MinLoadingTimer] w
                = Some w7) as Hhead.
  { intros w7 H7.
    rewrite (steps_cons _ _ w w1 H1), (steps_cons (Tick latency) _ w1 w2 eq_refl),
      (steps_cons _ _ w2 w3 H3), (steps_cons (Tick 30) _ w3 w4 eq_refl),
      (steps_cons _ _ w4 w5 H5), (steps_cons (Tick wait) _ w5 w6 eq_refl),
      (steps_cons _ _ w6 w7 H7). done. }
  set (tok0 := default "" (words !! 0%nat)
               +:+ (if (0 <? length words - 1)%nat then " " else "")) in *.
  assert (ManagerLifecycle.tokens words (manager w)
          = tok0 :: drop 1 (ManagerLifecycle.tokens words (manager w)))
    as Htokens.
  { rewrite <- (drop_0 (ManagerLifecycle.tokens words (manager w))) at 1.
    apply drop_S, tokens_lookup, Hwords. }
  destruct (decide (length words = 1%nat)) as [Hone|Hmany].
  - edestruct (min_loading_last w6)
      as (w7 & H7 & Hnone & Hcur & Hvis & Hgen & Hctl & count & saved & Hd);
      [exact Hrun5|reflexivity|lia|reflexivity|exact Hone|].
    exists w7. rewrite (steps_then _ _ _ _ (Hhead w7 H7)), Hone.
    split; [done|].
    assert (tok0 = text) as Htok.
    { rewrite <- Hjoin, Htokens.
      rewrite drop_ge by (rewrite tokens_length; lia).
      simpl. by rewrite ManagerFacts.str_app_nil_r. }
    change (currentResponse (state w7) = tok0) in Hcur.
    change (last (dispatched w7)
            = Some (generation_complete (trim (input_value (dom w))) tok0 count
                      (now w6 - now w) saved)) in Hd.
    rewrite Htok in Hcur, Hd. split_and?; try done.
    exists count, saved. rewrite Hd. do 2 f_equal. lia.
  - edestruct (min_loading_more w6)
      as (w7 & r7 & H7 & Hrun7 & Hph7 & Hg7 & Hab7 & Hnow7 & Hw7 & Hp7
          & Hst7 & Hf7);
      [exact Hrun5|reflexivity|lia|reflexivity|exact Hab6|lia|].
    change (run_prompt r7 = trim (input_value (dom w))) in Hp7.
    change (run_startTime r7 = now w) in Hst7.
    change (fullResponse r7 = tok0) in Hf7.
    rewrite (steps_then _ _ _ _ (Hhead w7 H7)).
    replace (length words - 1)%nat with (S (length words - 2)) by lia.
    destruct (stream_rest (length words - 2) w7 r7 words 1 (now w7 + 30)
                (manager w))
      as (w' & Hs' & Hnone & Hcur & Hvis & Hgen & Hctl & count & saved & Hd);
      try done; [lia..| |].
    { rewrite Hw7, Hnow7, Hnow6. unfold r0.
      cbn [ModelManager.startTime ModelManager.timeoutMs wrapper set_phase
           set_generator]. lia. }
    exists w'. split; [done|].
    assert (fullResponse r7
            +:+ ManagerLifecycle.join (drop 1 (ManagerLifecycle.tokens words (manager w)))
            = text) as Htext.
    { rewrite Hf7, <- Hjoin. by rewrite Htokens at 2. }
    rewrite Htext in Hcur, Hd. split_and?; try done.
    exists count, saved. rewrite Hd, Hp7, Hst7, Hnow7, Hnow6.
    do 2 f_equal. lia.
Qed.

Lemma generation_shows_the_whole_text_witness :
  ∃ w',
    steps ([InputKeyDown Samples.enter; Tick 500;
            PipelineSettled
              (Return (ModelManager.fullPrompt_of (manager MoreSamples.story_typed)
                         (trim (input_value (dom MoreSamples.story_typed)))
                       +:+ "once upon a time"));
            Tick 30; TokenTimer; Tick 270; MinLoadingTimer]
           ++ token_timers (length (split_space "once upon a time") - 1))
      MoreSamples.story_typed = Some w'
    ∧ currentResponse (state w') = "once upon a time"
    ∧ visibility (state w') = response_visible
    ∧ isGenerating (state w') = false
    ∧ run w' = None
    ∧ ModelManager.abortController (manager w') = None
    ∧ ∃ count saved,
        last (dispatched w')
        = Some (generation_complete
                  (trim (input_value (dom MoreSamples.story_typed)))
                  "once upon a time" count
                  (Z.of_N 500 + 30 + Z.of_N 270
                   + 30 * (Z.of_nat (length (split_space "once upon a time")) - 1))
                  saved).
Proof.
  apply (generation_shows_the_whole_text MoreSamples.story_typed Samples.enter
           "once upon a time" 500 270); by vm_compute.
Defined.

End StreamFacts.

(** ** Errors of a generation and of a load *)

Module ChatMore.
Import Js Chat ChatApi.

(** *** The text of the timeout error *)

Lemma occurs_app (c : ascii) (s1 s2 : string) :
  Text.occurs c (s1 +:+ s2) = Text.occurs c s1 || Text.occurs c s2.
Proof.
  induction s1 as [|a s1 IH]; [done|].
  rewrite JsFacts.str_app_cons. simpl. by rewrite IH, orb_assoc.
Qed.

Lemma pretty_N_char_digit (x : N) : Ascii.eqb (pretty_N_char x) "c" = false.
Proof. unfold pretty_N_char. by repeat case_match. Qed.

Lemma occurs_pretty_N_go (x : N) (s : string) :
  Text.occurs "c" s = false → Text.occurs "c" (pretty_N_go x s) = false.
Proof.
  revert s. induction (N.lt_wf_0 x) as [x _ IH]; intros s Hs.
  destruct (decide (x = 0%N)) as [->|Hx]; [by rewrite pretty_N_go_0|].
  rewrite pretty_N_go_step by lia. apply IH.
  - apply N.div_lt; lia.
  - simpl. by rewrite pretty_N_char_digit.
Qed.

Lemma occurs_pretty_Z (z : Z) : Text.occurs "c" (pretty z) = false.
Proof.
  assert (∀ p : positive, Text.occurs "c" (pretty p) = false) as Hpos.
  { intros p. unfold pretty, pretty_positive, pretty, pretty_N.
    case_decide; [done|]. by apply occurs_pretty_N_go. }
  destruct z as [|p|p]; [done|apply Hpos|].
  change (pretty (Z.neg p)) with ("-" +:+ pretty p).
  by rewrite occurs_app, Hpos.
Qed.

(** A string in which the first code unit of [sub] does not occur does not
    include [sub]. *)
Lemma includes_needs_first (c : ascii) (sub s : string) :
  Text.occurs c s = false → includes (String c sub) s = false.
Proof.
  induction s as [|a s IH]; [done|]. simpl.
  intros [Ha Hs]%orb_false_elim. rewrite (IH Hs), orb_false_r.
  destruct (Ascii.ascii_dec c a) as [->|]; [|done].
  by rewrite Ascii.eqb_refl in Ha.
Qed.

(** The timeout error is shown with its own message, is classified as a
    timeout, and is never taken for a cancellation. *)
Lemma timeout_message (t : Z) :
  errorMessage_of (ModelManager.timeout_error t)
  = message (ModelManager.timeout_error t)
  ∧ includes "cancelled" (message (ModelManager.timeout_error t)) = false
  ∧ includes "timeout" (message (ModelManager.timeout_error t)) = true.
Proof.
  split; [reflexivity|]. split; [|reflexivity].
  change (includes "cancelled" (message (ModelManager.timeout_error t)))
    with (includes "cancelled" (pretty t +:+ "ms")).
  apply includes_needs_first. by rewrite occurs_app, occurs_pretty_Z.
Qed.

(** X16: a token that arrives after the inference timeout ends the
    generation with the timeout error, whatever the phase of the
    activation: the session shows 'Inference timeout after N ms' in
    [response_visible] and is no longer generating, the abort controller is
    cleared, [generation-error] is dispatched with type
    [inference-timeout], the partial response is neither kept nor stored,
    and the running total is unchanged. *)
Theorem late_token_discards_generation w r words i due :
  run w = Some r → generator r = ModelManager.GDelay words i due →
  due ≤ now w →
  ModelManager.timeoutMs (wrapper r) < now w - ModelManager.startTime (wrapper r) →
  ∃ w',
    step TokenTimer w = Some w'
    ∧ run w' = None
    ∧ ModelManager.abortController (manager w') = None
    ∧ isGenerating (state w') = false
    ∧ errorMessage (state w')
      = Some (message (ModelManager.timeout_error
                         (ModelManager.timeoutMs (wrapper r))))
    ∧ visibility (state w') = response_visible
    ∧ currentResponse (state w') = currentResponse (state w)
    ∧ database w' = database w
    ∧ conversationCount w' = conversationCount w
    ∧ dispatched w'
      = dispatched w
        ++ [generation_error (run_prompt r)
              (message (ModelManager.timeout_error
                          (ModelManager.timeoutMs (wrapper r))))
              "inference-timeout"].
Proof.
  intros Hrun Hg Hdue Hlate. unfold step. rewrite Hrun, Hg.
  destruct (due <=? now w) eqn:Hd; [|apply Z.leb_gt in Hd; lia].
  unfold ModelManager.gen_timer.
  rewrite (ChatFacts.late_token_times_out _ _ _ _ _ Hlate).
  unfold settle, _generateResponse_catch. cbv zeta.
  destruct (timeout_message (ModelManager.timeoutMs (wrapper r)))
    as (-> & -> & ->).
  eexists. split; [reflexivity|].
  unfold end_run. by destruct (resumes_loadModels _).
Qed.

Lemma late_token_discards_generation_witness :
  ∃ w',
    step TokenTimer MoreSamples.ping_late = Some w'
    ∧ run w' = None
    ∧ ModelManager.abortController (manager w') = None
    ∧ isGenerating (state w') = false
    ∧ errorMessage (state w')
      = Some (message (ModelManager.timeout_error
                         (ModelManager.timeoutMs
                            (wrapper MoreSamples.ping_late_run))))
    ∧ visibility (state w') = response_visible
    ∧ currentResponse (state w') = currentResponse (state MoreSamples.ping_late)
    ∧ database w' = database MoreSamples.ping_late
    ∧ conversationCount w' = conversationCount MoreSamples.ping_late
    ∧ dispatched w'
      = dispatched MoreSamples.ping_late
        ++ [generation_error (run_prompt MoreSamples.ping_late_run)
              (message (ModelManager.timeout_error
                          (ModelManager.timeoutMs
                             (wrapper MoreSamples.ping_late_run))))
              "inference-timeout"].
Proof.
  apply (late_token_discards_generation MoreSamples.ping_late
           MoreSamples.ping_late_run ["pong"] 0 10130); by vm_compute.
Defined.

(** X17: the retry button does not load a model: pressed while no
    generation is pending, a prompt is kept and the model is not loaded
    (as after a failed load), it ends at once with the not-loaded error
    shown in [response_visible] and dispatched as an [inference-error];
    nothing is generated or queued and no load is started. *)
Theorem retry_without_model_reports_it w :
  run w = None → currentPrompt (state w) ≠ "" →
  ModelManager.isLlmLoaded (manager w) = false →
  ∃ w',
    step RetryClick w = Some w'
    ∧ errorMessage (state w')
      = Some "LLM model not loaded. Load model before generating."
    ∧ visibility (state w') = response_visible
    ∧ isGenerating (state w') = false
    ∧ run w' = None
    ∧ manager w' = manager w
    ∧ modelLoading w' = modelLoading w
    ∧ currentPrompt (state w') = currentPrompt (state w)
    ∧ dispatched w'
      = dispatched w
        ++ [generation_error (currentPrompt (state w))
              "LLM model not loaded. Load model before generating."
              "inference-error"].
Proof.
  intros Hrun Hne Hl. unfold step, no_run, retry. rewrite Hrun.
  rewrite (ChatFacts.eqb_empty_false _ Hne). cbv zeta.
  unfold _generateResponse, ModelManager.wrap_start, ModelManager.gen_start.
  cbn [manager upd_state upd_dom]. rewrite Hl. cbn [negb orb].
  cbv beta iota zeta. unfold settle, _generateResponse_catch. cbv zeta.
  eexists. split; [reflexivity|]. cbn. by destruct (manager w).
Qed.

Lemma retry_without_model_reports_it_witness :
  ∃ w',
    step RetryClick MoreSamples.load_failed_hi = Some w'
    ∧ errorMessage (state w')
      = Some "LLM model not loaded. Load model before generating."
    ∧ visibility (state w') = response_visible
    ∧ isGenerating (state w') = false
    ∧ run w' = None
    ∧ manager w' = manager MoreSamples.load_failed_hi
    ∧ modelLoading w' = modelLoading MoreSamples.load_failed_hi
    ∧ currentPrompt (state w') = currentPrompt (state MoreSamples.load_failed_hi)
    ∧ dispatched w'
      = dispatched MoreSamples.load_failed_hi
        ++ [generation_error (currentPrompt (state MoreSamples.load_failed_hi))
              "LLM model not loaded. Load model before generating."
              "inference-error"].
Proof.
  apply (retry_without_model_reports_it MoreSamples.load_failed_hi);
    by vm_compute.
Defined.

(** X18: a failed load of the model keeps the queue: when the awaited
    [loadModel] rejects, the error it makes, which names the URL the load
    was started with, is shown in [response_visible] and dispatched as
    [model-error] under the URL configured now; the loading flag is cleared
    so that a later URL change can load again, and the queued prompts, the
    current prompt and a pending generation are left as they were; the
    model stays not loaded. *)
Theorem failed_load_keeps_queue w e emb w' :
  step (ModelLoadSettled (Throw e) emb) w = Some w' →
  ModelManager.queuedPrompts (manager w') = ModelManager.queuedPrompts (manager w)
  ∧ ModelManager.isLlmLoaded (manager w') = ModelManager.isLlmLoaded (manager w)
  ∧ modelLoading w' = false
  ∧ errorMessage (state w')
    = Some (message (ModelManager.loadModel_error (default "" (lastModelUrl w))
                       "llm" e))
  ∧ visibility (state w') = response_visible
  ∧ currentPrompt (state w') = currentPrompt (state w)
  ∧ run w' = run w
  ∧ dispatched w'
    = dispatched w
      ++ [model_error (default "" (modelUrl w))
            (ModelManager.loadModel_error (default "" (lastModelUrl w)) "llm" e)].
Proof.
  unfold step. destruct (load_pending w && _); [|done].
  intros [= <-]. unfold _loadModels_settled. cbv zeta. done.
Qed.

Lemma failed_load_keeps_queue_witness :
  (lastModelUrl MoreSamples.load_pending_moved
   = Some "onnx-community/gemma-3-270m-it-ONNX"
   ∧ modelUrl MoreSamples.load_pending_moved
     = Some "onnx-community/Qwen3-0.6B-ONNX"
   ∧ errorMessage (state MoreSamples.load_failed_moved)
     = Some "Model not found: onnx-community/gemma-3-270m-it-ONNX. Check model ID or file path.")
  ∧ ModelManager.queuedPrompts (manager MoreSamples.load_failed_moved)
    = ModelManager.queuedPrompts (manager MoreSamples.load_pending_moved)
  ∧ ModelManager.isLlmLoaded (manager MoreSamples.load_failed_moved)
    = ModelManager.isLlmLoaded (manager MoreSamples.load_pending_moved)
  ∧ modelLoading MoreSamples.load_failed_moved = false
  ∧ errorMessage (state MoreSamples.load_failed_moved)
    = Some (message (ModelManager.loadModel_error
                       (default "" (lastModelUrl MoreSamples.load_pending_moved))
                       "llm" MoreSamples.not_found))
  ∧ visibility (state MoreSamples.load_failed_moved) = response_visible
  ∧ currentPrompt (state MoreSamples.load_failed_moved)
    = currentPrompt (state MoreSamples.load_pending_moved)
  ∧ run MoreSamples.load_failed_moved = run MoreSamples.load_pending_moved
  ∧ dispatched MoreSamples.load_failed_moved
    = dispatched MoreSamples.load_pending_moved
      ++ [model_error (default "" (modelUrl MoreSamples.load_pending_moved))
            (ModelManager.loadModel_error
               (default "" (lastModelUrl MoreSamples.load_pending_moved))
               "llm" MoreSamples.not_found)].
Proof.
  split; [vm_compute; done|].
  apply (failed_load_keeps_queue MoreSamples.load_pending_moved
           MoreSamples.not_found (Return tt) MoreSamples.load_failed_moved).
  vm_compute. reflexivity.
Defined.

(** X19: a loaded embedding model that answers with a vector of another
    length than 384 keeps every conversation from being stored:
    [_saveConversation] returns [false] whatever the prompt and the
    response, and the end of a generation leaves the store and the running
    total as they were and dispatches [generation-complete] with
    [saved: false]. *)
Theorem other_dimension_is_never_saved prompt response r w n :
  ModelManager.isEmbeddingLoaded (manager w) = true →
  ModelManager.embeddingPipeline (manager w) = true →
  embedded (browser w) = Return n → n ≠ 384%nat →
  (_saveConversation prompt response w).2 = false
  ∧ database (_saveConversation prompt response w).1 = database w
  ∧ conversationCount (_saveConversation prompt response w).1
    = conversationCount w
  ∧ database (_generateResponse_complete r w) = database w
  ∧ conversationCount (_generateResponse_complete r w) = conversationCount w
  ∧ dispatched (_generateResponse_complete r w)
    = dispatched w
      ++ [generation_complete (run_prompt r) (fullResponse r) (tokenCount r)
            (now w - run_startTime r) false].
Proof.
  intros Hl Hp He Hn.
  assert (∀ p q w1, manager w1 = manager w → browser w1 = browser w →
            (_saveConversation p q w1).2 = false
            ∧ database (_saveConversation p q w1).1 = database w1
            ∧ conversationCount (_saveConversation p q w1).1
              = conversationCount w1) as Hsave.
  { intros p q w1 Hm Hb. unfold _saveConversation, ModelManager.generateEmbedding.
    rewrite Hm, Hb, Hl, Hp, He. cbn [negb orb].
    match goal with |- context [Storage.saveConversation ?env ?t ?db ?c] =>
      destruct (StorageMore.save_cases env t db c)
        as [(key & Hv & _)|(e & Hs)]
    end.
    - by apply StorageFacts.only_384_accepted with (n := n) in Hv.
    - rewrite Hs. cbn. by destruct (String.eqb _ _). }
  split_and?; try by apply Hsave.
  all: unfold _generateResponse_complete; cbv zeta;
    destruct (0 <? _);
    [match goal with |- context [_saveConversation ?p ?q ?w1] =>
       destruct (Hsave p q w1 eq_refl eq_refl) as (Hf & Hdb & Hcnt);
       destruct (ChatFacts.saveConversation_frame p q w1)
         as (_ & _ & _ & _ & Hd & _);
       destruct (_saveConversation p q w1) as [w2 saved]
     end; simpl in *; subst saved|];
    unfold end_run; destruct (resumes_loadModels r); simpl;
    rewrite ?Hdb, ?Hcnt, ?Hd; done.
Qed.

Lemma other_dimension_is_never_saved_witness :
  (_saveConversation "ping" "pong" MoreSamples.wide_world).2 = false
  ∧ database (_saveConversation "ping" "pong" MoreSamples.wide_world).1
    = database MoreSamples.wide_world
  ∧ conversationCount (_saveConversation "ping" "pong" MoreSamples.wide_world).1
    = conversationCount MoreSamples.wide_world
  ∧ database (_generateResponse_complete Samples.pong_run MoreSamples.wide_world)
    = database MoreSamples.wide_world
  ∧ conversationCount
      (_generateResponse_complete Samples.pong_run MoreSamples.wide_world)
    = conversationCount MoreSamples.wide_world
  ∧ dispatched (_generateResponse_complete Samples.pong_run MoreSamples.wide_world)
    = dispatched MoreSamples.wide_world
      ++ [generation_complete (run_prompt Samples.pong_run)
            (fullResponse Samples.pong_run) (tokenCount Samples.pong_run)
            (now MoreSamples.wide_world - run_startTime Samples.pong_run) false].
Proof.
  apply (other_dimension_is_never_saved "ping" "pong" Samples.pong_run
           MoreSamples.wide_world 768); by vm_compute.
Defined.

(** The pipeline answers a generation that was cancelled before its first
    token: the stream ends at once, and when the 800 ms are over the
    generation completes with nothing to save. *)
Lemma aborted_pipeline_answers w r fp due0 text (wait : N) :
  run w = Some r → phase r = AwaitFirst None (Some due0) →
  generator r = ModelManager.GPipeline fp → fullResponse r = "" →
  ModelManager.abortController (manager w) = Some true →
  due0 ≤ now w + Z.of_N wait →
  ∃ w',
    steps [PipelineSettled (Return text); Tick wait; MinLoadingTimer] w = Some w'
    ∧ database w' = database w
    ∧ conversationCount w' = conversationCount w
    ∧ run w' = None
    ∧ ModelManager.abortController (manager w') = None
    ∧ currentResponse (state w') = ""
    ∧ visibility (state w') = response_visible
    ∧ dispatched w'
      = dispatched w
        ++ [generation_complete (run_prompt r) "" (tokenCount r)
              (now w + Z.of_N wait - run_startTime r) false].
Proof.
  intros Hrun Hph Hg Hf Hab Hdue.
  pose proof (ManagerFacts.split_space_not_empty
                (substring_from (String.length fp) text)) as Hlen.
  apply Nat.ltb_lt in Hlen.
  unfold steps. unfold step at 1. rewrite Hrun, Hg.
  unfold ModelManager.gen_pipeline_settled, ModelManager.gen_loop,
    ModelManager.signal_aborted.
  rewrite Hab, Hlen. cbv beta iota zeta.
  unfold ModelManager.wrap_on_inner, settle. cbn [phase set_generator].
  rewrite Hph. unfold step.
  cbn [run set_run set_now now phase set_phase upd_manager].
  destruct (due0 <=? _) eqn:Hd; [|apply Z.leb_gt in Hd; lia].
  unfold after_first, pull. cbv zeta.
  cbn [generator set_phase set_generator].
  unfold _generateResponse_complete. cbv zeta.
  cbn [fullResponse set_phase set_generator]. rewrite Hf.
  change (0 <? str_length (trim "")) with false. cbv beta iota zeta.
  eexists. split; [reflexivity|].
  unfold end_run. destruct (resumes_loadModels _); cbn; by rewrite ?Hf.
Qed.

(** The pipeline call of a cancelled generation fails: the error becomes
    'Generation cancelled by user' and is ignored. *)
Lemma aborted_pipeline_fails w r fp e :
  run w = Some r → generator r = ModelManager.GPipeline fp →
  ModelManager.abortController (manager w) = Some true →
  ∃ w',
    step (PipelineSettled (Throw e)) w = Some w'
    ∧ database w' = database w
    ∧ conversationCount w' = conversationCount w
    ∧ run w' = None
    ∧ ModelManager.abortController (manager w') = None
    ∧ errorMessage (state w') = errorMessage (state w)
    ∧ visibility (state w') = visibility (state w)
    ∧ dispatched w' = dispatched w.
Proof.
  intros Hrun Hg Hab. unfold step. rewrite Hrun, Hg.
  unfold ModelManager.gen_pipeline_settled, ModelManager.signal_aborted.
  rewrite Hab. cbv beta iota zeta.
  unfold ModelManager.wrap_on_inner, settle, _generateResponse_catch.
  cbv zeta.
  change (includes "cancelled"
            (errorMessage_of (new_Error "Generation cancelled by user")))
    with true. cbv beta iota zeta.
  eexists. split; [reflexivity|].
  unfold end_run. by destruct (resumes_loadModels _).
Qed.

(** X20: a generation cancelled with Escape while its pipeline call is
    pending stores nothing.  The generator has been started, so the abort
    controller exists, and it awaits the pipeline: an Escape before that,
    during the two animation frames of the submission, or after the
    pipeline has answered is another case.  Escape cancels (the session is
    visible and generating).  If the pipeline then answers,
    the stream ends without a token and, once the 800 ms of the loading
    indicator are over, the generation completes with an empty response:
    the save is skipped, [generation-complete] follows
    [generation-cancelled] with [saved: false], and the session is in
    [response_visible].  If the pipeline call fails instead, its error is
    replaced by 'Generation cancelled by user', which the catch block
    ignores: no error is shown and the session stays in [input_visible].
    In both cases the store and the running total are unchanged and the
    abort controller is cleared. *)
Theorem cancel_during_pipeline_call_saves_nothing w r ev fp due0 b text e
    (wait : N) :
  key ev = "Escape" → visibility (state w) ≠ hidden →
  isGenerating (state w) = true → run w = Some r →
  phase r = AwaitFirst None (Some due0) →
  generator r = ModelManager.GPipeline fp → fullResponse r = "" →
  ModelManager.abortController (manager w) = Some b →
  due0 ≤ now w + Z.of_N wait →
  (∃ w',
     steps [KeyDown ev; PipelineSettled (Return text); Tick wait;
            MinLoadingTimer] w = Some w'
     ∧ database w' = database w
     ∧ conversationCount w' = conversationCount w
     ∧ run w' = None
     ∧ ModelManager.abortController (manager w') = None
     ∧ currentResponse (state w') = ""
     ∧ visibility (state w') = response_visible
     ∧ dispatched w'
       = dispatched w
         ++ [generation_cancelled (currentPrompt (state w))
               (currentResponse (state w))
               (Z.of_nat (length (split_space (currentResponse (state w)))));
             generation_complete (run_prompt r) "" (tokenCount r)
               (now w + Z.of_N wait - run_startTime r) false])
  ∧ (∃ w',
       steps [KeyDown ev; PipelineSettled (Throw e)] w = Some w'
       ∧ database w' = database w
       ∧ conversationCount w' = conversationCount w
       ∧ run w' = None
       ∧ ModelManager.abortController (manager w') = None
       ∧ errorMessage (state w') = errorMessage (state w)
       ∧ visibility (state w') = input_visible
       ∧ dispatched w'
         = dispatched w
           ++ [generation_cancelled (currentPrompt (state w))
                 (currentResponse (state w))
                 (Z.of_nat (length (split_space (currentResponse (state w)))))]).
Proof.
  intros Hk Hvis Hgen Hrun Hph Hg Hf Hab Hdue.
  assert (step (KeyDown ev) w = Some (_cancelGeneration w)) as Hesc.
  { unfold step, _handleKeyboard, isVisible. rewrite Hk, Hgen. cbv zeta.
    rewrite !andb_false_r. destruct (isMac w);
      by destruct (visibility (state w)). }
  assert (ModelManager.abortController (manager (_cancelGeneration w))
          = Some true) as Hab1.
  { unfold _cancelGeneration, ModelManager.cancelGeneration. cbn.
    by rewrite Hab. }
  split.
  - destruct (aborted_pipeline_answers (_cancelGeneration w) r fp due0 text wait)
      as (w' & Hs & Hdb & Hcnt & Hnone & Hctl & Hcur & Hv & Hd); try done.
    exists w'. rewrite (StreamFacts.steps_cons _ _ _ _ Hesc).
    split; [done|]. split_and?; try done.
    rewrite Hd. unfold _cancelGeneration. cbn. by rewrite <- app_assoc.
  - destruct (aborted_pipeline_fails (_cancelGeneration w) r fp e)
      as (w' & Hs & Hdb & Hcnt & Hnone & Hctl & Herr & Hv & Hd); try done.
    exists w'. rewrite (StreamFacts.steps_cons _ _ _ _ Hesc).
    rewrite (StreamFacts.steps_cons _ _ _ _ Hs).
    split; [done|]. split_and?; try done.
Qed.

Lemma cancel_during_pipeline_call_saves_nothing_witness :
  (∃ w',
     steps [KeyDown Samples.escape;
            PipelineSettled
              (Return (ModelManager.fullPrompt_of ModelManager.init "ping"
                       +:+ "pong"));
            Tick 800; MinLoadingTimer] MoreSamples.ping_waiting = Some w'
     ∧ database w' = database MoreSamples.ping_waiting
     ∧ conversationCount w' = conversationCount MoreSamples.ping_waiting
     ∧ run w' = None
     ∧ ModelManager.abortController (manager w') = None
     ∧ currentResponse (state w') = ""
     ∧ visibility (state w') = response_visible
     ∧ dispatched w'
       = dispatched MoreSamples.ping_waiting
         ++ [generation_cancelled (currentPrompt (state MoreSamples.ping_waiting))
               (currentResponse (state MoreSamples.ping_waiting))
               (Z.of_nat (length (split_space
                                    (currentResponse
                                       (state MoreSamples.ping_waiting)))));
             generation_complete (run_prompt MoreSamples.ping_waiting_run) ""
               (tokenCount MoreSamples.ping_waiting_run)
               (now MoreSamples.ping_waiting + Z.of_N 800
                - run_startTime MoreSamples.ping_waiting_run) false])
  ∧ (∃ w',
       steps [KeyDown Samples.escape;
              PipelineSettled (Throw MoreSamples.not_found)]
         MoreSamples.ping_waiting = Some w'
       ∧ database w' = database MoreSamples.ping_waiting
       ∧ conversationCount w' = conversationCount MoreSamples.ping_waiting
       ∧ run w' = None
       ∧ ModelManager.abortController (manager w') = None
       ∧ errorMessage (state w') = errorMessage (state MoreSamples.ping_waiting)
       ∧ visibility (state w') = input_visible
       ∧ dispatched w'
         = dispatched MoreSamples.ping_waiting
           ++ [generation_cancelled
                 (currentPrompt (state MoreSamples.ping_waiting))
                 (currentResponse (state MoreSamples.ping_waiting))
                 (Z.of_nat (length (split_space
                                      (currentResponse
                                         (state MoreSamples.ping_waiting)))))]).
Proof.
  apply (cancel_during_pipeline_call_saves_nothing MoreSamples.ping_waiting
           MoreSamples.ping_waiting_run Samples.escape
           (ModelManager.fullPrompt_of ModelManager.init "ping") 5900 false);
    by vm_compute.
Defined.

End ChatMore.
